(** * rtt2pty_pylink: an RTT to PTY bridge, verified over a shallow embedding

    The development follows [rtt2pty_pylink.py] top to bottom.  Python text is
    modelled by Rocq's [string], read as a sequence of code points below 256;
    Python integers by [Z]; exceptions by the type [exn]; the debug probe by an
    interface ([JLinkLike]) the program only consumes; the operating system by
    a small concrete model of descriptors and paths. *)

From Stdlib Require Import ZArith Ascii String DecimalString HexadecimalString
  DecimalPos HexadecimalPos.
From stdpp Require Import gmap strings list.

Local Open Scope Z_scope.

(** ** Python text primitives *)

Module Py.

Definition code (c : ascii) : Z := Z.of_N (N_of_ascii c).

(** [str.isspace] on the code points below 256. *)
Definition isspace (c : ascii) : bool :=
  let n := code c in
  ((9 <=? n) && (n <=? 13)) || ((28 <=? n) && (n <=? 32))
  || (n =? 133) || (n =? 160).

Definition is_empty (s : string) : bool :=
  match s with EmptyString => true | String _ _ => false end.

Fixpoint lstrip_by (p : ascii -> bool) (s : string) : string :=
  match s with
  | EmptyString => EmptyString
  | String c r => if p c then lstrip_by p r else s
  end.

Fixpoint rstrip_by (p : ascii -> bool) (s : string) : string :=
  match s with
  | EmptyString => EmptyString
  | String c r =>
      let r' := rstrip_by p r in
      if p c && is_empty r' then EmptyString else String c r'
  end.

(** [s.strip()] *)
Definition strip (s : string) : string := rstrip_by isspace (lstrip_by isspace s).

Definition is_nul (c : ascii) : bool := code c =? 0.

(** [s.rstrip('\x00')] *)
Definition rstrip_nul (s : string) : string := rstrip_by is_nul s.

Definition ascii_eqb (a b : ascii) : bool := bool_decide (a = b).

Fixpoint count_char (c : ascii) (s : string) : nat :=
  match s with
  | EmptyString => O
  | String d r => (if ascii_eqb d c then 1 else 0)%nat + count_char c r
  end.

(** [c in s] for a one-character [c] *)
Fixpoint contains_char (c : ascii) (s : string) : bool :=
  match s with
  | EmptyString => false
  | String d r => ascii_eqb d c || contains_char c r
  end.

(** [s.split(c)] for a one-character separator: never the empty list. *)
Fixpoint split_char (c : ascii) (s : string) : list string :=
  match s with
  | EmptyString => [EmptyString]
  | String d r =>
      if ascii_eqb d c then EmptyString :: split_char c r
      else match split_char c r with
           | h :: t => String d h :: t
           | [] => [String d EmptyString]
           end
  end.

(** [s.startswith(pre)] *)
Definition startswith (pre s : string) : bool := String.prefix pre s.

(** [sub in s] *)
Fixpoint contains (sub s : string) : bool :=
  String.prefix sub s ||
  match s with
  | EmptyString => false
  | String _ r => contains sub r
  end.

(** [str(n)] and [f"{n}"] for an integer *)
Definition str_int (n : Z) : string :=
  DecimalString.NilZero.string_of_int (Z.to_int n).

Definition upper_hex (c : ascii) : ascii :=
  let n := code c in
  if (97 <=? n) && (n <=? 102) then ascii_of_N (Z.to_N (n - 32)) else c.

Fixpoint map_string (f : ascii -> ascii) (s : string) : string :=
  match s with
  | EmptyString => EmptyString
  | String c r => String (f c) (map_string f r)
  end.

(** [f"{n:X}"]: upper-case hexadecimal, a minus sign for negatives *)
Definition format_X (n : Z) : string :=
  map_string upper_hex
    (HexadecimalString.NilZero.string_of_int (Z.to_hex_int n)).

(** *** [int(s)] and [int(s, 16)]

    As CPython reads a [str]: white space at both ends, a sign, for base 16
    the prefix [0x] or [0X], then digits with single underscores between
    them.  The limit recent versions put on the number of decimal digits
    (4300 by default) is not modelled. *)

(** What [int] skips at both ends: the C-level white space, and the
    non-ASCII white space it first turns into blanks. *)
Definition int_isspace (c : ascii) : bool :=
  let n := code c in
  ((9 <=? n) && (n <=? 13)) || (n =? 32) || (n =? 133) || (n =? 160).

Definition digit_val (c : ascii) : option Z :=
  let n := code c in
  if (48 <=? n) && (n <=? 57) then Some (n - 48)
  else if (97 <=? n) && (n <=? 122) then Some (n - 87)
  else if (65 <=? n) && (n <=? 90) then Some (n - 55)
  else None.

Definition underscore : ascii := "_"%char.

(** Digits of [base] with single underscores between them. [prev_us] tells
    that the previous character was an underscore. *)
Fixpoint digits (base acc : Z) (prev_us : bool) (s : string) : option Z :=
  match s with
  | EmptyString => if prev_us then None else Some acc
  | String c r =>
      if ascii_eqb c underscore then
        if prev_us then None else digits base acc true r
      else
        match digit_val c with
        | Some d => if d <? base then digits base (acc * base + d) false r else None
        | None => None
        end
  end.

Definition drop_sign (s : string) : bool * string :=
  match s with
  | String c r =>
      if ascii_eqb c "-"%char then (true, r)
      else if ascii_eqb c "+"%char then (false, r)
      else (false, s)
  | EmptyString => (false, s)
  end.

Definition drop_hex_prefix (base : Z) (s : string) : string :=
  match s with
  | String z (String x r) =>
      if (base =? 16) && ascii_eqb z "0"%char
         && (ascii_eqb x "x"%char || ascii_eqb x "X"%char)
      then match r with
           | String u r' => if ascii_eqb u underscore then r' else r
           | EmptyString => r
           end
      else s
  | _ => s
  end.

Definition int_literal (base : Z) (s : string) : option Z :=
  let t := rstrip_by int_isspace (lstrip_by int_isspace s) in
  let '(neg, t1) := drop_sign t in
  let t2 := drop_hex_prefix base t1 in
  match t2 with
  | EmptyString => None
  | String c _ =>
      if ascii_eqb c underscore then None
      else match digits base 0 false t2 with
           | Some v => Some (if neg then - v else v)
           | None => None
           end
  end.

(** *** [repr(s)], as it appears in the message of a failed [int] *)

Definition quote : ascii := "'"%char.
Definition dquote : ascii := ascii_of_N 34.
Definition backslash : ascii := ascii_of_N 92.

Definition hex_digit (n : Z) : ascii :=
  if n <? 10 then ascii_of_N (Z.to_N (48 + n)) else ascii_of_N (Z.to_N (87 + n)).

Definition printable (c : ascii) : bool :=
  let n := code c in
  ((32 <=? n) && (n <=? 126)) || ((161 <=? n) && negb (n =? 173)).

Definition repr_char (q : ascii) (c : ascii) : string :=
  let n := code c in
  if ascii_eqb c backslash then String backslash (String backslash EmptyString)
  else if ascii_eqb c q then String backslash (String q EmptyString)
  else if n =? 9 then String backslash "t"
  else if n =? 10 then String backslash "n"
  else if n =? 13 then String backslash "r"
  else if printable c then String c EmptyString
  else String backslash
         (String "x"%char
            (String (hex_digit (n / 16)) (String (hex_digit (n mod 16)) EmptyString))).

Fixpoint repr_body (q : ascii) (s : string) : string :=
  match s with
  | EmptyString => EmptyString
  | String c r => repr_char q c +:+ repr_body q r
  end.

Definition repr (s : string) : string :=
  let q := if contains_char quote s && negb (contains_char dquote s)
           then dquote else quote in
  String q (repr_body q s +:+ String q EmptyString).

End Py.

(** ** Exceptions *)

(** The subclasses of [Exception] the program names, and one constructor for
    all the others.  [JLinkRTTException] is a subclass of [JLinkException];
    [JLinkException] here stands for every other member of that class. *)
Inductive exn : Type :=
  | RTTBridgeError (msg : string)
  | ValueError (msg : string)
  | JLinkException (msg : string)
  | JLinkRTTException (msg : string)
  | OSError (errno : Z) (msg : string)
  | UnicodeDecodeError (msg : string)
  | AttributeError (msg : string)
  | OtherException (msg : string).

(** [str(e)], what [f"{e}"] prints *)
Definition str_exn (e : exn) : string :=
  match e with
  | RTTBridgeError m | ValueError m | JLinkException m | JLinkRTTException m
  | UnicodeDecodeError m | AttributeError m | OtherException m => m
  | OSError n m => "[Errno " +:+ Py.str_int n +:+ "] " +:+ m
  end.

Definition isinstance_JLinkException (e : exn) : bool :=
  match e with JLinkException _ | JLinkRTTException _ => true | _ => false end.

Definition isinstance_JLinkRTTException (e : exn) : bool :=
  match e with JLinkRTTException _ => true | _ => false end.

Inductive result (A : Type) : Type :=
  | Ok (a : A)
  | Raise (e : exn).
Arguments Ok {A} a.
Arguments Raise {A} e.

(** ** Argument validation (lines 31-105) *)

Definition validate_speed (speed : Z) : result Z :=
  if speed <? 5 then
    Raise (ValueError ("Speed too low: " +:+ Py.str_int speed +:+ " kHz (minimum: 5 kHz)"))
  else if speed >? 50000 then
    Raise (ValueError ("Speed too high: " +:+ Py.str_int speed +:+ " kHz (maximum: 50000 kHz)"))
  else Ok speed.

(** [int(s, base)], raising [ValueError] with CPython's message *)
Definition py_int (base : Z) (s : string) : result Z :=
  match Py.int_literal base s with
  | Some v => Ok v
  | None =>
      Raise (ValueError ("invalid literal for int() with base "
                         +:+ Py.str_int base +:+ ": " +:+ Py.repr s))
  end.

(** Line 80/81: [int(t, 16) if t.startswith('0x') else int(t, 16) if
    t.startswith('0X') else int(t)] *)
Definition parse_range_number (t : string) : result Z :=
  if Py.startswith "0x" t then py_int 16 t
  else if Py.startswith "0X" t then py_int 16 t
  else py_int 10 t.

(** Line 96: [int(s, 16) if s.startswith(('0x', '0X')) else int(s)] *)
Definition parse_single_number (t : string) : result Z :=
  if Py.startswith "0x" t || Py.startswith "0X" t then py_int 16 t
  else py_int 10 t.

Definition comma : ascii := ","%char.

Definition msg_range_format (t : string) : string :=
  "Invalid search range format: '" +:+ t +:+ "' (expected 'start,size')".

Definition msg_range_both (t : string) : string :=
  "Invalid search range format: '" +:+ t +:+ "' (both start and size required)".

(** The two numbers of a range are read inside one [try]; a [ValueError] of
    either becomes the range's number-format error. *)
Definition parse_range_numbers (t start_str size_str : string) : result (Z * Z) :=
  let wrap e :=
    ValueError ("Invalid number format in search range '" +:+ t +:+ "': " +:+ str_exn e) in
  match parse_range_number start_str with
  | Raise e => Raise (wrap e)
  | Ok start =>
      match parse_range_number size_str with
      | Raise e => Raise (wrap e)
      | Ok size => Ok (start, size)
      end
  end.

Definition parse_address (address_str : string) : result (Z * option Z) :=
  if Py.is_empty address_str || Py.is_empty (Py.strip address_str) then
    Raise (ValueError "Empty address string")
  else
    let t := Py.strip address_str in
    if Py.contains_char comma t then
      match Py.split_char comma t with
      | [p0; p1] =>
          let start_str := Py.strip p0 in
          let size_str := Py.strip p1 in
          if Py.is_empty start_str || Py.is_empty size_str then
            Raise (ValueError (msg_range_both t))
          else
            match parse_range_numbers t start_str size_str with
            | Raise e => Raise e
            | Ok (start, size) =>
                if start <? 0 then
                  Raise (ValueError ("Invalid start address: 0x" +:+ Py.format_X start
                                     +:+ " (must be >= 0)"))
                else if size <=? 0 then
                  Raise (ValueError ("Invalid size: 0x" +:+ Py.format_X size
                                     +:+ " (must be > 0)"))
                else if size >? 4294967295 then
                  Raise (ValueError ("Size too large: 0x" +:+ Py.format_X size
                                     +:+ " (maximum: 0xFFFFFFFF)"))
                else Ok (start, Some size)
            end
      | _ => Raise (ValueError (msg_range_format t))
      end
    else
      match parse_single_number t with
      | Raise e =>
          Raise (ValueError ("Invalid address format '" +:+ t +:+ "': " +:+ str_exn e))
      | Ok addr =>
          if addr <? 0 then
            Raise (ValueError ("Invalid address: 0x" +:+ Py.format_X addr +:+ " (must be >= 0)"))
          else if addr >? 18446744073709551615 then
            Raise (ValueError ("Address too large: 0x" +:+ Py.format_X addr))
          else Ok (addr, None)
      end.

(** ** The world the program runs in *)

Inductive stream : Type := Stdout | Stderr.

Inductive signal : Type := SIGINT | SIGTERM | SIGQUIT.

(** [desc.name] is a [str] or a [bytes] object; for [bytes] the constructor
    holds the text [decode('utf-8', errors='replace')] yields, a total and
    pure function of the bytes. *)
Inductive py_name : Type :=
  | NameStr (s : string)
  | NameBytes (decoded : string).

Module BufDesc.
Record t : Type := mk { name : py_name; SizeOfBuffer : Z }.
End BufDesc.

(** How [rtt_start] is called (lines 472-486). *)
Inductive rtt_start_arg : Type :=
  | StartAuto
  | StartBlockAddress (addr : Z)
  | StartSearchRange (start size : Z).

(** The calls the program makes on the probe SDK. *)
Inductive jop : Type :=
  | JNew
  | JOpen (serial_no : option Z)
  | JClose
  | JOpened
  | JConnected
  | JTargetConnected
  | JProductName
  | JSerialNumber
  | JSetTif
  | JSetSpeed (khz : Z)
  | JConnect (device : string)
  | JRttStart (how : rtt_start_arg)
  | JRttStop
  | JRttIsActive
  | JNumUp
  | JNumDown
  | JGetDesc (index : Z) (up : bool)
  | JRttRead (index : Z) (num_bytes : Z)
  | JRttWrite (index : Z) (data : list Byte.byte).

(** What an observer of the process sees, in order. *)
Inductive event : Type :=
  | EvPrint (f : stream) (text : string)
  | EvTraceback
  | EvSleep (ms : Z)
  | EvJLink (op : jop).

Definition printed_on (f : stream) (ev : event) : option string :=
  match ev, f with
  | EvPrint Stdout t, Stdout => Some t
  | EvPrint Stderr t, Stderr => Some t
  | _, _ => None
  end.

(** The lines printed on one stream, in order. *)
Definition output (f : stream) (l : list event) : list string :=
  omap (printed_on f) l.

(** *** The probe SDK, consumed as an interface

    A session of type [J] answers each call with a value or an exception and
    a next session.  [has_rtt_is_active] is [hasattr(jlink, 'rtt_is_active')]. *)
Class JLinkLike (J : Type) : Type := {
  has_rtt_is_active : bool;
  jl_new : J -> result unit * J;
  jl_open : option Z -> J -> result unit * J;
  jl_close : J -> result unit * J;
  jl_opened : J -> result bool * J;
  jl_connected : J -> result bool * J;
  jl_target_connected : J -> result bool * J;
  jl_product_name : J -> result string * J;
  jl_serial_number : J -> result Z * J;
  jl_set_tif : J -> result unit * J;
  jl_set_speed : Z -> J -> result unit * J;
  jl_connect : string -> J -> result unit * J;
  jl_rtt_start : rtt_start_arg -> J -> result unit * J;
  jl_rtt_stop : J -> result unit * J;
  jl_rtt_is_active : J -> result bool * J;
  jl_rtt_get_num_up_buffers : J -> result Z * J;
  jl_rtt_get_num_down_buffers : J -> result Z * J;
  jl_rtt_get_buf_descriptor : Z -> bool -> J -> result (option BufDesc.t) * J;
  jl_rtt_read : Z -> Z -> J -> result (list Byte.byte) * J;
  jl_rtt_write : Z -> list Byte.byte -> J -> result Z * J
}.

(** *** The operating system: descriptors, paths, and the outcome of I/O *)

Inductive node : Type :=
  | NFile
  | NDir
  | NChar
  | NSymlink (target : string).

Inductive fdesc : Type :=
  | FdPtyMaster (slave : option string)
  | FdPtySlave (slave : option string).

(** What the next read, write or readiness wait on an open descriptor does;
    the environment decides. *)
Inductive io_outcome : Type :=
  | IoWritten (n : Z)
  | IoRead (data : list Byte.byte)
  | IoSelect (ready : bool)
  | IoFail (errno : Z).

Definition EBADF : Z := 9.
Definition EIO : Z := 5.
Definition ENOENT : Z := 2.
Definition EEXIST : Z := 17.
Definition EACCES : Z := 13.
Definition EMFILE : Z := 24.
Definition ENOTTY : Z := 25.
Definition EISDIR : Z := 21.

Record OS : Type := mkOS {
  fds : gmap Z fdesc;            (* the open descriptors *)
  fs : gmap string node;         (* what is at each path *)
  ptys : list (option string);   (* slave names the kernel hands out next;
                                    [None]: a terminal without a name *)
  io : list io_outcome;          (* outcomes of the coming I/O calls *)
  rm_denied : gset string        (* paths the process may not unlink *)
}.

Section Bridge.

Context {J : Type} `{JLinkLike J}.

Record World : Type := mkWorld {
  jl : J;                          (* probe and SDK *)
  os : OS;
  clock : Z;                       (* [time.time()], in milliseconds *)
  do_exit : bool;                  (* the closure variable of [main] *)
  handled : list signal;           (* signals routed to [signal_handler] *)
  sigsched : list (option signal); (* what arrives before each loop test *)
  log : list event
}.

(** Computations: a value or an exception, and the next world. *)
Definition M (A : Type) : Type := World -> result A * World.

Definition ret {A} (a : A) : M A := fun w => (Ok a, w).

Definition raise {A} (e : exn) : M A := fun w => (Raise e, w).

Definition bind {A B} (m : M A) (k : A -> M B) : M B :=
  fun w => match m w with
           | (Ok a, w') => k a w'
           | (Raise e, w') => (Raise e, w')
           end.

(** [try: m except ...: h e]; [h e = None] when no clause matches [e]. *)
Definition try_except {A} (m : M A) (h : exn -> option (M A)) : M A :=
  fun w => match m w with
           | (Ok a, w') => (Ok a, w')
           | (Raise e, w') =>
               match h e with
               | Some k => k w'
               | None => (Raise e, w')
               end
           end.

Definition emit (ev : event) : M unit :=
  fun w => (Ok tt, mkWorld (jl w) (os w) (clock w) (do_exit w) (handled w)
                           (sigsched w) (log w ++ [ev])).

Definition print (text : string) : M unit := emit (EvPrint Stdout text).
Definition eprint (text : string) : M unit := emit (EvPrint Stderr text).

(** [time.sleep(ms / 1000)] *)
Definition sleep (ms : Z) : M unit :=
  fun w => (Ok tt, mkWorld (jl w) (os w) (clock w + ms) (do_exit w) (handled w)
                           (sigsched w) (log w ++ [EvSleep ms])).

Definition time_time : M Z := fun w => (Ok (clock w), w).

(** One call on the SDK: recorded, then answered by the session. *)
Definition jcall {A} (op : jop) (f : J -> result A * J) : M A :=
  fun w => let '(r, j') := f (jl w) in
           (r, mkWorld j' (os w) (clock w) (do_exit w) (handled w)
                       (sigsched w) (log w ++ [EvJLink op])).

Definition with_os {A} (f : OS -> result A * OS) : M A :=
  fun w => let '(r, o') := f (os w) in
           (r, mkWorld (jl w) o' (clock w) (do_exit w) (handled w)
                       (sigsched w) (log w)).

End Bridge.

Arguments World J : clear implicits.
Arguments M J A : clear implicits.

Notation "'let!' x ':=' m 'in' k" := (bind m (fun x => k))
  (at level 10, x pattern, m at level 100, k at level 200).
Notation "m ';;' k" := (bind m (fun _ => k))
  (at level 100, k at level 200, right associativity).

(** ** Buffer lookup, listing and session verification (lines 108-283) *)

Section Session.

Context {J : Type} `{JLinkLike J}.

(** Lines 264-283.  Every exception of the probe is answered [False]. *)
Definition is_rtt_active : M J bool :=
  try_except
    (if has_rtt_is_active then jcall JRttIsActive jl_rtt_is_active
     else
       let! num_buffers := jcall JNumUp jl_rtt_get_num_up_buffers in
       ret (num_buffers >? 0))
    (fun _ => Some (ret false)).

(** Line 153: the name as text, without its NUL padding.  Both branches of
    the [isinstance] test end in [rstrip('\x00')]. *)
Definition buffer_name_of (desc : BufDesc.t) : string :=
  match BufDesc.name desc with
  | NameStr s => Py.rstrip_nul s
  | NameBytes decoded => Py.rstrip_nul decoded
  end.

Definition msg_rtt_not_active : string :=
  "RTT is not active. Ensure RTT has been started successfully.".

Definition direction_of (up : bool) : string := if up then "UP" else "DOWN".

Definition msg_no_buffers (up : bool) : string :=
  "No " +:+ direction_of up +:+ " buffers available".

Definition msg_zero_size (name : string) : string :=
  "Buffer '" +:+ name +:+ "' has invalid size (0)".

Definition msg_query_failed (detail : string) : string :=
  "Failed to query RTT buffers: " +:+ detail.

Definition msg_unexpected (name detail : string) : string :=
  "Unexpected error while searching for buffer '" +:+ name +:+ "': " +:+ detail.

(** Lines 147-161: [for index in range(num_buffers)].  [Some] is the
    [return index, desc] of line 158; [None] is the loop running out. *)
Fixpoint scan_descriptors (name : string) (up : bool) (indexes : list Z)
  : M J (option (Z * BufDesc.t)) :=
  match indexes with
  | [] => ret None
  | index :: rest =>
      let! found :=
        try_except
          (let! desc := jcall (JGetDesc index up) (jl_rtt_get_buf_descriptor index up) in
           match desc with
           | None => ret None
           | Some desc =>
               if String.eqb (buffer_name_of desc) name then
                 if BufDesc.SizeOfBuffer desc =? 0 then
                   raise (RTTBridgeError (msg_zero_size name))
                 else ret (Some (index, desc))
               else ret None
           end)
          (fun e => match e with
                    | JLinkRTTException _ | UnicodeDecodeError _ => Some (ret None)
                    | _ => None
                    end) in
      match found with
      | Some r => ret (Some r)
      | None => scan_descriptors name up rest
      end
  end.

(** How one turn of [for attempt in range(max_retries)] ends. *)
Inductive attempt_end : Type :=
  | Retry                                  (* [continue] *)
  | Found (index : Z) (desc : BufDesc.t)   (* [return index, desc] *)
  | NotFound.                              (* [return -1, None] *)

(** Lines 130-164: what stands inside the [try]. *)
Definition attempt_body (name : string) (up : bool) (attempt max_retries : Z)
  : M J attempt_end :=
  let! active := is_rtt_active in
  if negb active then
    if attempt <? max_retries - 1 then sleep 200 ;; ret Retry
    else raise (RTTBridgeError msg_rtt_not_active)
  else
    let! num_buffers :=
      (if up then jcall JNumUp jl_rtt_get_num_up_buffers
       else jcall JNumDown jl_rtt_get_num_down_buffers) in
    if num_buffers =? 0 then
      if attempt <? max_retries - 1 then sleep 200 ;; ret Retry
      else raise (RTTBridgeError (msg_no_buffers up))
    else
      let! found := scan_descriptors name up (seqZ 0 num_buffers) in
      match found with
      | Some (index, desc) => ret (Found index desc)
      | None => ret NotFound
      end.

(** Lines 166-172: the two [except] clauses around the body.  A
    [JLinkRTTException] is retried or reported; every other [Exception],
    [RTTBridgeError] included, is wrapped by the second clause. *)
Definition attempt_handlers (name : string) (attempt max_retries : Z) (e : exn)
  : option (M J attempt_end) :=
  match e with
  | JLinkRTTException detail =>
      Some (if attempt <? max_retries - 1 then sleep 200 ;; ret Retry
            else raise (RTTBridgeError (msg_query_failed detail)))
  | _ => Some (raise (RTTBridgeError (msg_unexpected name (str_exn e))))
  end.

Definition find_attempt (name : string) (up : bool) (attempt max_retries : Z)
  : M J attempt_end :=
  try_except (attempt_body name up attempt max_retries)
             (attempt_handlers name attempt max_retries).

(** The [for attempt in ...] loop over the attempts still to run; line 174
    when they run out. *)
Fixpoint find_attempts (name : string) (up : bool) (max_retries : Z)
  (attempts : list Z) : M J (Z * option BufDesc.t) :=
  match attempts with
  | [] => ret (-1, None)
  | attempt :: rest =>
      let! e := find_attempt name up attempt max_retries in
      match e with
      | Retry => find_attempts name up max_retries rest
      | Found index desc => ret (index, Some desc)
      | NotFound => ret (-1, None)
      end
  end.

(** Lines 108-174. *)
Definition find_buffer_by_name (name : string) (up : bool) (max_retries : Z)
  : M J (Z * option BufDesc.t) :=
  if Py.is_empty name || Py.is_empty (Py.strip name) then ret (-1, None)
  else
    let name := Py.strip name in
    find_attempts name up max_retries (seqZ 0 max_retries).

(** Lines 197-204 and 215-222: one line per descriptor. *)
Definition print_descriptor (i : Z) (up : bool) : M J unit :=
  try_except
    (let! desc := jcall (JGetDesc i up) (jl_rtt_get_buf_descriptor i up) in
     match desc with
     | Some desc =>
         print ("  #" +:+ Py.str_int i +:+ " " +:+ buffer_name_of desc
                +:+ " (size=" +:+ Py.str_int (BufDesc.SizeOfBuffer desc) +:+ ")")
     | None => ret tt
     end)
    (fun e => match e with
              | JLinkRTTException _ | UnicodeDecodeError _ | AttributeError _ =>
                  Some (print ("  #" +:+ Py.str_int i
                               +:+ " (error reading descriptor: " +:+ str_exn e +:+ ")"))
              | _ => None
              end).

Fixpoint print_descriptors (up : bool) (indexes : list Z) : M J unit :=
  match indexes with
  | [] => ret tt
  | i :: rest => print_descriptor i up ;; print_descriptors up rest
  end.

(** One direction of the listing; [false] is the [return False] of the
    [except] clause. *)
Definition print_direction (up : bool) : M J bool :=
  print (if up then "Up-buffers:" else "Down-buffers:") ;;
  try_except
    (let! num :=
       (if up then jcall JNumUp jl_rtt_get_num_up_buffers
        else jcall JNumDown jl_rtt_get_num_down_buffers) in
     (if num =? 0 then print "  (none)"
      else print_descriptors up (seqZ 0 num)) ;;
     ret true)
    (fun e => match e with
              | JLinkRTTException _ =>
                  Some (eprint ((if up then "  Error reading up-buffers: "
                                 else "  Error reading down-buffers: ") +:+ str_exn e) ;;
                        ret false)
              | _ => None
              end).

(** Lines 177-231. *)
Definition print_buffers : M J bool :=
  try_except
    (let! active := is_rtt_active in
     if negb active then eprint "Error: RTT is not active" ;; ret false
     else
       let! ok_up := print_direction true in
       if negb ok_up then ret false
       else
         let! ok_down := print_direction false in
         if negb ok_down then ret false else ret true)
    (fun e => Some (eprint ("Error printing buffers: " +:+ str_exn e) ;; ret false)).

(** Lines 234-261. *)
Definition verify_jlink_connection : M J unit :=
  try_except
    (let! opened := jcall JOpened jl_opened in
     if negb opened then raise (RTTBridgeError "J-Link DLL is not open")
     else
       let! connected := jcall JConnected jl_connected in
       if negb connected then
         raise (RTTBridgeError "J-Link is not connected to target device")
       else
         let! target := jcall JTargetConnected jl_target_connected in
         if negb target then raise (RTTBridgeError "Target device is not connected")
         else
           try_except
             (jcall JProductName jl_product_name ;;
              jcall JSerialNumber jl_serial_number ;;
              ret tt)
             (fun e => Some (raise (RTTBridgeError
                                      ("Failed to get J-Link device information: "
                                       +:+ str_exn e)))))
    (fun e => if isinstance_JLinkException e
              then Some (raise (RTTBridgeError ("J-Link connection error: " +:+ str_exn e)))
              else None).

End Session.

(** ** Operating-system calls the program makes *)

Module Os.

Definition strerror (errno : Z) : string :=
  if errno =? EBADF then "Bad file descriptor"
  else if errno =? EIO then "Input/output error"
  else if errno =? ENOENT then "No such file or directory"
  else if errno =? EEXIST then "File exists"
  else if errno =? EACCES then "Permission denied"
  else if errno =? EMFILE then "Too many open files"
  else if errno =? ENOTTY then "Inappropriate ioctl for device"
  else if errno =? EISDIR then "Is a directory"
  else "Unknown error".

Definition error (errno : Z) : exn := OSError errno (strerror errno).

Definition set_fds (f : gmap Z fdesc) (o : OS) : OS :=
  mkOS f (fs o) (ptys o) (io o) (rm_denied o).

Definition set_fs (f : gmap string node) (o : OS) : OS :=
  mkOS (fds o) f (ptys o) (io o) (rm_denied o).

Definition set_io (l : list io_outcome) (o : OS) : OS :=
  mkOS (fds o) (fs o) (ptys o) l (rm_denied o).

(** The path that goes away with a descriptor: when the master of a PTY
    is closed, the kernel removes the node of its slave from /dev/pts. *)
Definition node_of (d : fdesc) : option string :=
  match d with
  | FdPtyMaster (Some p) => Some p
  | _ => None
  end.

(** [os.close(fd)] *)
Definition close (fd : Z) (o : OS) : result unit * OS :=
  match fds o !! fd with
  | Some d =>
      (Ok tt,
       mkOS (delete fd (fds o))
            (match node_of d with Some p => delete p (fs o) | None => fs o end)
            (ptys o) (io o) (rm_denied o))
  | None => (Raise (error EBADF), o)
  end.

(** Does the path lead somewhere, following symbolic links? *)
Fixpoint resolves (hops : nat) (f : gmap string node) (p : string) : bool :=
  match f !! p with
  | None => false
  | Some (NSymlink target) =>
      match hops with
      | O => false
      | S hops' => resolves hops' f target
      end
  | Some _ => true
  end.

(** [os.path.exists(p)]: false for a dangling link *)
Definition path_exists (p : string) (o : OS) : bool := resolves 40 (fs o) p.

(** [os.path.islink(p)] *)
Definition path_islink (p : string) (o : OS) : bool :=
  match fs o !! p with
  | Some (NSymlink _) => true
  | _ => false
  end.

(** [os.remove(p)] *)
Definition remove (p : string) (o : OS) : result unit * OS :=
  match fs o !! p with
  | None => (Raise (error ENOENT), o)
  | Some NDir => (Raise (error EISDIR), o)
  | Some _ =>
      if bool_decide (p ∈ rm_denied o) then (Raise (error EACCES), o)
      else (Ok tt, set_fs (delete p (fs o)) o)
  end.

Definition slash : ascii := "/"%char.

(** [p[:p.rfind('/') + 1]] *)
Fixpoint head_of (p : string) : string :=
  match p with
  | EmptyString => EmptyString
  | String c r => if Py.contains_char slash p then String c (head_of r) else EmptyString
  end.

Definition is_slash (c : ascii) : bool := Py.ascii_eqb c slash.

(** [os.path.dirname(p)] *)
Definition dirname (p : string) : string :=
  let head := head_of p in
  if Py.is_empty (Py.lstrip_by is_slash head) then head
  else Py.rstrip_by is_slash head.

(** [os.makedirs(d, exist_ok=True)]: the directory and its missing
    ancestors. *)
Fixpoint makedirs_fs (fuel : nat) (d : string) (f : gmap string node)
  : result unit * gmap string node :=
  match f !! d with
  | Some NDir => (Ok tt, f)
  | Some (NSymlink _) => if resolves 40 f d then (Ok tt, f) else (Raise (error EEXIST), f)
  | Some _ => (Raise (error EEXIST), f)
  | None =>
      let parent := dirname d in
      match fuel with
      | O => (Ok tt, <[d := NDir]> f)
      | S fuel' =>
          if Py.is_empty parent || String.eqb parent d then (Ok tt, <[d := NDir]> f)
          else match makedirs_fs fuel' parent f with
               | (Ok _, f') => (Ok tt, <[d := NDir]> f')
               | (Raise e, f') => (Raise e, f')
               end
      end
  end.

Definition makedirs (d : string) (o : OS) : result unit * OS :=
  let '(r, f) := makedirs_fs (String.length d) d (fs o) in (r, set_fs f o).

(** [os.symlink(target, link_path)] *)
Definition symlink (target link_path : string) (o : OS) : result unit * OS :=
  match fs o !! link_path with
  | Some _ => (Raise (error EEXIST), o)
  | None =>
      let d := dirname link_path in
      if negb (Py.is_empty d) && negb (path_exists d o) then (Raise (error ENOENT), o)
      else (Ok tt, set_fs (<[link_path := NSymlink target]> (fs o)) o)
  end.

(** A descriptor number not in use. *)
Definition fresh_fd (f : gmap Z fdesc) : Z :=
  map_fold (fun k _ acc => Z.max acc (k + 1)) 3 f.

(** [pty.openpty()] *)
Definition openpty (o : OS) : result (Z * Z) * OS :=
  match ptys o with
  | [] => (Raise (error ENOENT), o)
  | slave :: rest =>
      let master_fd := fresh_fd (fds o) in
      let fds1 := <[master_fd := FdPtyMaster slave]> (fds o) in
      let slave_fd := fresh_fd fds1 in
      let fds2 := <[slave_fd := FdPtySlave slave]> fds1 in
      let fs' := match slave with
                 | Some p => <[p := NChar]> (fs o)
                 | None => fs o
                 end in
      (Ok (master_fd, slave_fd), mkOS fds2 fs' rest (io o) (rm_denied o))
  end.

(** [os.ttyname(fd)] *)
Definition ttyname (fd : Z) (o : OS) : result string * OS :=
  match fds o !! fd with
  | None => (Raise (error EBADF), o)
  | Some (FdPtyMaster (Some p)) | Some (FdPtySlave (Some p)) => (Ok p, o)
  | Some _ => (Raise (error ENOTTY), o)
  end.

Definition len {A} (l : list A) : Z := Z.of_nat (length l).

(** [os.write(fd, data)]: the count accepted *)
Definition write (fd : Z) (data : list Byte.byte) (o : OS) : result Z * OS :=
  match fds o !! fd with
  | None => (Raise (error EBADF), o)
  | Some _ =>
      match io o with
      | IoWritten n :: rest => (Ok (Z.max 0 (Z.min n (len data))), set_io rest o)
      | IoFail errno :: rest => (Raise (error errno), set_io rest o)
      | _ :: rest => (Ok (len data), set_io rest o)
      | [] => (Ok (len data), o)
      end
  end.

(** [os.read(fd, n)] *)
Definition read (fd : Z) (n : Z) (o : OS) : result (list Byte.byte) * OS :=
  match fds o !! fd with
  | None => (Raise (error EBADF), o)
  | Some _ =>
      match io o with
      | IoRead data :: rest => (Ok (take (Z.to_nat n) data), set_io rest o)
      | IoFail errno :: rest => (Raise (error errno), set_io rest o)
      | _ :: rest => (Ok [], set_io rest o)
      | [] => (Ok [], o)
      end
  end.

(** [select.select([fd], [], [], 0.1)]: is [fd] readable? *)
Definition select (fd : Z) (o : OS) : result bool * OS :=
  match fds o !! fd with
  | None => (Raise (error EBADF), o)
  | Some _ =>
      match io o with
      | IoSelect ready :: rest => (Ok ready, set_io rest o)
      | IoFail errno :: rest => (Raise (error errno), set_io rest o)
      | _ :: rest => (Ok false, set_io rest o)
      | [] => (Ok false, o)
      end
  end.

End Os.

(** ** The PTY endpoint (lines 286-345) *)

Section Endpoint.

Context {J : Type} `{JLinkLike J}.

Definition isinstance_OSError (e : exn) : bool :=
  match e with OSError _ _ => true | _ => false end.

(** Lines 286-313. *)
Definition create_pty : M J (Z * Z * string) :=
  try_except
    (let! fd_pair := with_os Os.openpty in
     let master_fd := fd_pair.1 in
     let slave_fd := fd_pair.2 in
     if (master_fd <? 0) || (slave_fd <? 0) then
       raise (RTTBridgeError "Failed to create PTY: invalid file descriptors")
     else
       let! pty_name :=
         try_except
           (let! pty_name := with_os (Os.ttyname slave_fd) in
            if Py.is_empty pty_name then raise (RTTBridgeError "Failed to get PTY name")
            else ret pty_name)
           (fun e => if isinstance_OSError e
                     then Some (with_os (Os.close master_fd) ;;
                                with_os (Os.close slave_fd) ;;
                                raise (RTTBridgeError ("Failed to get PTY name: "
                                                       +:+ str_exn e)))
                     else None) in
       ret (master_fd, slave_fd, pty_name))
    (fun e => if isinstance_OSError e
              then Some (raise (RTTBridgeError ("Failed to create PTY: " +:+ str_exn e)))
              else None).

Definition os_path_exists (p : string) : M J bool :=
  fun w => (Ok (Os.path_exists p (os w)), w).

Definition os_path_islink (p : string) : M J bool :=
  fun w => (Ok (Os.path_islink p (os w)), w).

(** Lines 316-345. *)
Definition create_symlink (target link_path : string) : M J unit :=
  try_except
    (let! present := os_path_exists link_path in
     (if present then
        let! is_link := os_path_islink link_path in
        if is_link then with_os (Os.remove link_path)
        else raise (RTTBridgeError ("Path exists and is not a symlink: " +:+ link_path))
      else ret tt) ;;
     let link_dir := Os.dirname link_path in
     let! dir_present := os_path_exists link_dir in
     (if negb (Py.is_empty link_dir) && negb dir_present then
        try_except (with_os (Os.makedirs link_dir))
          (fun e => if isinstance_OSError e
                    then Some (raise (RTTBridgeError
                                        ("Failed to create directory for symlink: "
                                         +:+ str_exn e)))
                    else None)
      else ret tt) ;;
     with_os (Os.symlink target link_path))
    (fun e => if isinstance_OSError e
              then Some (raise (RTTBridgeError ("Failed to create symlink '" +:+ link_path
                                                +:+ "': " +:+ str_exn e)))
              else None).

End Endpoint.

(** ** The command line, as [argparse] hands it to [main] (lines 371-388) *)

Record Args : Type := mkArgs {
  device : string;
  serial : option Z;
  speed : Z;
  buffer : string;
  bidir : bool;
  address : option string;
  link : option string;
  print_bufs : bool
}.

(** Truth value of an optional string, as in [if args.address:] *)
Definition truthy_str (o : option string) : option string :=
  match o with
  | Some s => if Py.is_empty s then None else Some s
  | None => None
  end.

(** Truth value of an optional integer, as in [if args.serial:] *)
Definition truthy_int (o : option Z) : option Z :=
  match o with
  | Some n => if n =? 0 then None else Some n
  | None => None
  end.

(** Where a part of [main] leaves off: it goes on, it has executed
    [return code], or the model's loop bound is used up. *)
Inductive flow (A : Type) : Type :=
  | Go (a : A)
  | Return (code : Z)
  | OutOfFuel.
Arguments Go {A} a.
Arguments Return {A} code.
Arguments OutOfFuel {A}.

Definition nl : string := String (ascii_of_N 10) EmptyString.

Section Flow.

Context {J : Type}.

Definition and_then {A B} (m : M J (flow A)) (k : A -> M J (flow B)) : M J (flow B) :=
  let! r := m in
  match r with
  | Go a => k a
  | Return code => ret (Return code)
  | OutOfFuel => ret OutOfFuel
  end.

Definition lift_result {A} (r : result A) : M J A :=
  match r with
  | Ok a => ret a
  | Raise e => raise e
  end.

End Flow.

Notation "'let?' x ':=' m 'in' k" := (and_then m (fun x => k))
  (at level 10, x pattern, m at level 100, k at level 200).

Section Main.

Context {J : Type} `{JLinkLike J}.

(** Lines 390-406: the checks made before anything is opened.  Each of the
    first two catches [ValueError] and nothing else. *)
Definition main_validate (args : Args) : M J (flow unit) :=
  let? _ :=
    try_except (lift_result (validate_speed (speed args)) ;; ret (Go tt))
      (fun e => match e with
                | ValueError _ => Some (eprint ("Error: " +:+ str_exn e) ;; ret (Return 1))
                | _ => None
                end) in
  let? _ :=
    match truthy_str (address args) with
    | Some a =>
        try_except (lift_result (parse_address a) ;; ret (Go tt))
          (fun e => match e with
                    | ValueError _ =>
                        Some (eprint ("Error: Invalid address format: " +:+ str_exn e) ;;
                              ret (Return 1))
                    | _ => None
                    end)
    | None => ret (Go tt)
    end in
  if Py.is_empty (buffer args) || Py.is_empty (Py.strip (buffer args)) then
    eprint "Error: Buffer name cannot be empty" ;; ret (Return 1)
  else ret (Go tt).

Definition jlink_close : M J unit := jcall JClose jl_close.

(** Lines 414-440. *)
Definition main_open (args : Args) : M J (flow unit) :=
  let! created :=
    try_except (jcall JNew jl_new ;; ret (Go tt))
      (fun e => Some (eprint ("Error: Failed to create J-Link instance: " +:+ str_exn e) ;;
                      ret (Return 1))) in
  match created with
  | Return code => ret (Return code)
  | OutOfFuel => ret OutOfFuel
  | Go _ =>
      print "Connecting to J-Link..." ;;
      let! opened :=
        try_except
          (jcall (JOpen (truthy_int (serial args))) (jl_open (truthy_int (serial args))) ;;
           ret (Go tt))
          (fun e =>
             if isinstance_JLinkException e then
               Some (eprint ("Error: Failed to open J-Link: " +:+ str_exn e) ;;
                     (if Py.contains "No J-Link found" (str_exn e)
                         || Py.contains "No connection" (str_exn e)
                      then eprint "Hint: Ensure J-Link is connected and drivers are installed"
                      else ret tt) ;;
                     ret (Return 1))
             else None) in
      match opened with
      | Return code => ret (Return code)
      | OutOfFuel => ret OutOfFuel
      | Go _ =>
          try_except
            (let! is_open := jcall JOpened jl_opened in
             if negb is_open then raise (RTTBridgeError "J-Link DLL is not open")
             else ret (Go tt))
            (fun e => match e with
                      | RTTBridgeError _ =>
                          Some (eprint ("Error: " +:+ str_exn e) ;;
                                jlink_close ;;
                                ret (Return 1))
                      | _ => None
                      end)
      end
  end.

(** Lines 442-467. *)
Definition main_connect (args : Args) : M J (flow unit) :=
  print ("Connecting to " +:+ device args +:+ "...") ;;
  let! connected :=
    try_except
      (jcall JSetTif jl_set_tif ;;
       jcall (JSetSpeed (speed args)) (jl_set_speed (speed args)) ;;
       jcall (JConnect (device args)) (jl_connect (device args)) ;;
       ret (Go tt))
      (fun e =>
         if isinstance_JLinkException e then
           Some (eprint ("Error: Failed to connect to device '" +:+ device args
                         +:+ "': " +:+ str_exn e) ;;
                 jlink_close ;;
                 ret (Return 1))
         else None) in
  match connected with
  | Return code => ret (Return code)
  | OutOfFuel => ret OutOfFuel
  | Go _ =>
      let! verified :=
        try_except (verify_jlink_connection ;; ret (Go tt))
          (fun e => match e with
                    | RTTBridgeError _ =>
                        Some (eprint ("Error: Connection verification failed: "
                                      +:+ str_exn e) ;;
                              jlink_close ;;
                              ret (Return 1))
                    | _ => None
                    end) in
      match verified with
      | Return code => ret (Return code)
      | OutOfFuel => ret OutOfFuel
      | Go _ =>
          print "Connected to:" ;;
          try_except
            (let! product := jcall JProductName jl_product_name in
             print ("  " +:+ product) ;;
             let! sn := jcall JSerialNumber jl_serial_number in
             print ("  S/N: " +:+ Py.str_int sn))
            (fun e => Some (print ("  (device info unavailable: " +:+ str_exn e +:+ ")"))) ;;
          ret (Go tt)
      end
  end.

(** Lines 469-491. *)
Definition main_start_rtt (args : Args) : M J (flow unit) :=
  print "Configuring RTT..." ;;
  try_except
    (match truthy_str (address args) with
     | Some a =>
         let! address_info := lift_result (parse_address a) in
         match address_info with
         | (start, Some size) =>
             print ("Using RTT search range: 0x" +:+ Py.format_X start
                    +:+ ", 0x" +:+ Py.format_X size) ;;
             jcall (JRttStart (StartSearchRange start size))
                   (jl_rtt_start (StartSearchRange start size))
         | (addr, None) =>
             print ("Using RTT address: 0x" +:+ Py.format_X addr) ;;
             jcall (JRttStart (StartBlockAddress addr))
                   (jl_rtt_start (StartBlockAddress addr))
         end
     | None =>
         print "Using auto-detection for RTT control block..." ;;
         jcall (JRttStart StartAuto) (jl_rtt_start StartAuto)
     end ;;
     ret (Go tt))
    (fun e =>
       if isinstance_JLinkException e || match e with ValueError _ => true | _ => false end
       then Some (eprint ("Error: Failed to start RTT: " +:+ str_exn e) ;;
                  jlink_close ;;
                  ret (Return 1))
       else None).

(** Lines 499-510: [while not is_rtt_active(jlink)], at most [fuel] tests. *)
Fixpoint wait_rtt_active (fuel : nat) (rtt_wait_start : Z) : M J (flow unit) :=
  match fuel with
  | O => ret OutOfFuel
  | S fuel' =>
      let! active := is_rtt_active in
      if active then ret (Go tt)
      else
        let! now := time_time in
        if now - rtt_wait_start >? 5000 then
          eprint "Error: RTT control block not found after timeout" ;;
          eprint "Hint: Ensure firmware has RTT enabled and device is running" ;;
          try_except (jcall JRttStop jl_rtt_stop) (fun _ => Some (ret tt)) ;;
          jlink_close ;;
          ret (Return 1)
        else
          sleep 200 ;;
          wait_rtt_active fuel' rtt_wait_start
  end.

(** Lines 493-510. *)
Definition main_wait_rtt (fuel : nat) : M J (flow unit) :=
  print "Searching for RTT control block..." ;;
  sleep 500 ;;
  let! rtt_wait_start := time_time in
  wait_rtt_active fuel rtt_wait_start.

(** Lines 512-517. *)
Definition main_print_bufs (args : Args) : M J (flow unit) :=
  if print_bufs args then
    let! success := print_buffers in
    jlink_close ;;
    ret (Return (if success then 0 else 1))
  else ret (Go tt).

Definition direction_word (up : bool) : string := if up then "up" else "down".

(** Lines 523-528 and 531-537, and their copies for the down-buffer: the
    message, the header, the listing, the session closed, [return 1]. *)
Definition report_unavailable {A} (message : string) : M J (flow A) :=
  eprint message ;;
  eprint (nl +:+ "Available buffers:") ;;
  print_buffers ;;
  jlink_close ;;
  ret (Return 1).

(** Lines 519-539 for [up = true], lines 544-562 for [up = false]. *)
Definition main_find (args : Args) (up : bool) : M J (flow (Z * option BufDesc.t)) :=
  let! found :=
    try_except
      (let! r := find_buffer_by_name (buffer args) up 3 in ret (Go r))
      (fun e => match e with
                | RTTBridgeError _ => Some (report_unavailable ("Error: " +:+ str_exn e))
                | _ => None
                end) in
  match found with
  | Return code => ret (Return code)
  | OutOfFuel => ret OutOfFuel
  | Go (index, desc) =>
      if index <? 0 then
        report_unavailable ("Error: Failed to find matching " +:+ direction_word up
                            +:+ "-buffer '" +:+ buffer args +:+ "'")
      else
        match desc with
        | Some d =>
            print ("Using " +:+ direction_word up +:+ "-buffer #" +:+ Py.str_int index
                   +:+ " '" +:+ buffer args +:+ "' (size="
                   +:+ Py.str_int (BufDesc.SizeOfBuffer d) +:+ ")") ;;
            ret (Go (index, desc))
        | None =>
            raise (AttributeError "'NoneType' object has no attribute 'SizeOfBuffer'")
        end
  end.

(** Lines 541-562. *)
Definition main_find_down (args : Args) : M J (flow (Z * option BufDesc.t)) :=
  if bidir args then main_find args false else ret (Go (-1, None)).

(** Lines 564-583: the PTY, and the symlink when asked for. *)
Definition main_create_pty (args : Args) : M J (flow (Z * Z * option string)) :=
  let! made :=
    try_except (let! r := create_pty in ret (Go r))
      (fun e => match e with
                | RTTBridgeError _ =>
                    Some (eprint ("Error: " +:+ str_exn e) ;;
                          jlink_close ;;
                          ret (Return 1))
                | _ => None
                end) in
  match made with
  | Return code => ret (Return code)
  | OutOfFuel => ret OutOfFuel
  | Go (master_fd, slave_fd, pty_name) =>
      print ("PTY name is " +:+ pty_name) ;;
      let! symlink_path :=
        match truthy_str (link args) with
        | Some path =>
            try_except
              (create_symlink pty_name path ;;
               print ("Created symlink " +:+ path +:+ " -> " +:+ pty_name) ;;
               ret (Some path))
              (fun e => match e with
                        | RTTBridgeError _ =>
                            Some (eprint ("Warning: " +:+ str_exn e) ;;
                                  eprint "Continuing without symlink..." ;;
                                  ret None)
                        | _ => None
                        end)
        | None => ret None
        end in
      ret (Go (master_fd, slave_fd, symlink_path))
  end.

End Main.

(** ** The relay loop and the teardown (lines 585-716) *)

Section Relay.

Context {J : Type} `{JLinkLike J}.

(** Lines 588-591: the handler registered for the three signals. *)
Definition signal_handler : M J unit :=
  fun w =>
    eprint (nl +:+ "Shutting down...")
           (mkWorld (jl w) (os w) (clock w) true (handled w) (sigsched w) (log w)).

(** Lines 586-595: [do_exit = False] and the three registrations. *)
Definition install_handlers : M J unit :=
  fun w => (Ok tt, mkWorld (jl w) (os w) (clock w) false
                           [SIGINT; SIGTERM; SIGQUIT] (sigsched w) (log w)).

Definition signal_eqb (a b : signal) : bool :=
  match a, b with
  | SIGINT, SIGINT | SIGTERM, SIGTERM | SIGQUIT, SIGQUIT => true
  | _, _ => false
  end.

(** Delivery of one signal: the handler runs if it is registered for it. *)
Definition deliver (s : signal) : M J unit :=
  fun w => if existsb (signal_eqb s) (handled w) then signal_handler w else (Ok tt, w).

(** The environment's turn before the loop condition is read. *)
Definition arrivals : M J unit :=
  fun w =>
    match sigsched w with
    | [] => (Ok tt, w)
    | next :: later =>
        let w' := mkWorld (jl w) (os w) (clock w) (do_exit w) (handled w) later (log w) in
        match next with
        | Some s => deliver s w'
        | None => (Ok tt, w')
        end
    end.

Definition read_do_exit : M J bool := fun w => (Ok (do_exit w), w).

(** Lines 604-611: [true] when the loop may go on, [false] for [break]. *)
Definition connection_check : M J bool :=
  try_except
    (let! connected := jcall JConnected jl_connected in
     if negb connected then eprint (nl +:+ "Error: Connection lost") ;; ret false
     else
       let! target := jcall JTargetConnected jl_target_connected in
       if negb target then eprint (nl +:+ "Error: Connection lost") ;; ret false
       else ret true)
    (fun _ => Some (eprint (nl +:+ "Error: Connection check failed") ;; ret false)).

Definition is_nil {A} (l : list A) : bool :=
  match l with [] => true | _ :: _ => false end.

(** How the up-direction part of an iteration ends, with the value of
    [consecutive_errors] it leaves. *)
Inductive up_end : Type :=
  | UpDone (consecutive_errors : Z)       (* falls through to line 640 *)
  | UpBreak (consecutive_errors : Z)      (* [break] *)
  | UpContinue (consecutive_errors : Z).  (* [continue] *)

Definition max_consecutive_errors : Z := 10.

(** Lines 613-638. *)
Definition up_direction (index_up master_fd consecutive_errors : Z) : M J up_end :=
  try_except
    (let! data := jcall (JRttRead index_up 4096) (jl_rtt_read index_up 4096) in
     if negb (is_nil data) then
       try_except
         (let! bytes_written := with_os (Os.write master_fd data) in
          (if negb (bytes_written =? Os.len data) then
             eprint (nl +:+ "Warning: Partial write to PTY: " +:+ Py.str_int bytes_written
                     +:+ "/" +:+ Py.str_int (Os.len data) +:+ " bytes")
           else ret tt) ;;
          ret (UpDone 0))
         (fun e => match e with
                   | OSError errno _ =>
                       Some (if errno =? EBADF then
                               eprint (nl +:+ "Error: PTY file descriptor invalid") ;;
                               ret (UpBreak consecutive_errors)
                             else raise e)
                   | _ => None
                   end)
     else ret (UpDone consecutive_errors))
    (fun e => match e with
              | JLinkRTTException _ => Some (ret (UpDone 0))
              | JLinkException _ =>
                  Some (let consecutive_errors := consecutive_errors + 1 in
                        if consecutive_errors >=? max_consecutive_errors then
                          eprint (nl +:+ "Error: Too many consecutive J-Link errors: "
                                  +:+ str_exn e) ;;
                          ret (UpBreak consecutive_errors)
                        else sleep 100 ;; ret (UpContinue consecutive_errors))
              | _ => None
              end).

Inductive down_end : Type :=
  | DownDone
  | DownBreak.

(** Lines 648-654: the write to the down-buffer and its one [except]. *)
Definition forward_down (index_down : Z) (data : list Byte.byte) : M J down_end :=
  try_except
    (let! bytes_written := jcall (JRttWrite index_down data) (jl_rtt_write index_down data) in
     (if negb (bytes_written =? Os.len data) then
        eprint (nl +:+ "Warning: Partial write to RTT: " +:+ Py.str_int bytes_written
                +:+ "/" +:+ Py.str_int (Os.len data) +:+ " bytes")
      else ret tt) ;;
     ret DownDone)
    (fun e => match e with
              | JLinkRTTException _ =>
                  Some (eprint (nl +:+ "Warning: Failed to write to RTT buffer: "
                                +:+ str_exn e) ;;
                        ret DownDone)
              | _ => None
              end).

(** Lines 640-670. *)
Definition down_direction (bidir : bool) (index_down master_fd : Z) : M J down_end :=
  if bidir && (index_down >=? 0) then
    try_except
      (let! ready := with_os (Os.select master_fd) in
       if ready then
         try_except
           (let! data := with_os (Os.read master_fd 4096) in
            if negb (is_nil data) then forward_down index_down data
            else ret DownDone)
           (fun e => match e with
                     | OSError errno _ =>
                         Some (if errno =? EBADF then
                                 eprint (nl +:+ "Error: PTY file descriptor invalid") ;;
                                 ret DownBreak
                               else if errno =? EIO then
                                 eprint (nl +:+ "PTY closed by slave") ;;
                                 ret DownBreak
                               else raise e)
                     | _ => None
                     end)
       else ret DownDone)
      (fun e => match e with
                | OSError errno _ =>
                    Some (if errno =? EBADF then
                            eprint (nl +:+ "Error: Invalid file descriptor in select") ;;
                            ret DownBreak
                          else raise e)
                | _ => None
                end)
  else sleep 100 ;; ret DownDone.

(** How one turn of [while not do_exit] ends. *)
Inductive iter_end : Type :=
  | Next (consecutive_errors : Z)    (* back to the loop test *)
  | Break (consecutive_errors : Z).  (* out of the loop, to the [finally] *)

(** Lines 604-670: the body of the loop. *)
Definition relay_iteration (bidir : bool) (index_up index_down master_fd : Z)
  (consecutive_errors : Z) : M J iter_end :=
  let! alive := connection_check in
  if negb alive then ret (Break consecutive_errors)
  else
    let! u := up_direction index_up master_fd consecutive_errors in
    match u with
    | UpBreak ce => ret (Break ce)
    | UpContinue ce => ret (Next ce)
    | UpDone ce =>
        let! d := down_direction bidir index_down master_fd in
        match d with
        | DownBreak => ret (Break ce)
        | DownDone => ret (Next ce)
        end
    end.

(** Lines 603-670: the loop, cut after [fuel] tests of its condition. *)
Fixpoint relay_loop (fuel : nat) (bidir : bool) (index_up index_down master_fd : Z)
  (consecutive_errors : Z) : M J (flow unit) :=
  match fuel with
  | O => ret OutOfFuel
  | S fuel' =>
      arrivals ;;
      let! stop := read_do_exit in
      if stop then ret (Go tt)
      else
        let! e := relay_iteration bidir index_up index_down master_fd consecutive_errors in
        match e with
        | Next ce => relay_loop fuel' bidir index_up index_down master_fd ce
        | Break _ => ret (Go tt)
        end
  end.

(** Lines 678-714: the [finally] block. [jlink] tells whether the variable
    holds a session; the descriptors and the path are [None] when unset. *)
Definition teardown (jlink : bool) (master_fd slave_fd : option Z)
  (symlink_path : option string) : M J unit :=
  eprint "Cleaning up..." ;;
  (if jlink then
     try_except (jcall JRttStop jl_rtt_stop)
       (fun e => Some (eprint ("Warning: Failed to stop RTT: " +:+ str_exn e)))
   else ret tt) ;;
  (match master_fd with
   | Some fd =>
       try_except (with_os (Os.close fd))
         (fun e => if isinstance_OSError e then Some (ret tt) else None)
   | None => ret tt
   end) ;;
  (match slave_fd with
   | Some fd =>
       try_except (with_os (Os.close fd))
         (fun e => if isinstance_OSError e then Some (ret tt) else None)
   | None => ret tt
   end) ;;
  (match truthy_str symlink_path with
   | Some path =>
       let! present := os_path_exists path in
       if present then
         try_except
           (let! is_link := os_path_islink path in
            if is_link then with_os (Os.remove path) else ret tt)
           (fun e => if isinstance_OSError e
                     then Some (eprint ("Warning: Failed to remove symlink: " +:+ str_exn e))
                     else None)
       else ret tt
   | None => ret tt
   end) ;;
  (if jlink then
     try_except jlink_close
       (fun e => Some (eprint ("Warning: Failed to close J-Link: " +:+ str_exn e)))
   else ret tt).

(** Lines 672-716: what follows the loop.  [r] is how the loop ended:
    normally, or with an exception for the clause of line 674; then the
    [finally] block and [return 0]. *)
Definition main_after_loop (master_fd slave_fd : Z) (symlink_path : option string)
  (r : result (flow unit)) : M J (flow Z) :=
  match r with
  | Ok OutOfFuel => ret OutOfFuel
  | Ok _ =>
      teardown true (Some master_fd) (Some slave_fd) symlink_path ;;
      ret (Go 0)
  | Raise e =>
      eprint (nl +:+ "Unexpected error in main loop: " +:+ str_exn e) ;;
      emit EvTraceback ;;
      teardown true (Some master_fd) (Some slave_fd) symlink_path ;;
      ret (Go 0)
  end.

(** Lines 585-716: handlers, loop, and what follows it. *)
Definition main_bridge (fuel : nat) (args : Args) (index_up index_down : Z)
  (master_fd slave_fd : Z) (symlink_path : option string) : M J (flow Z) :=
  install_handlers ;;
  print "RTT bridge active. Press Ctrl+C to exit." ;;
  fun w =>
    let '(r, w') := relay_loop fuel (bidir args) index_up index_down master_fd 0 w in
    main_after_loop master_fd slave_fd symlink_path r w'.

(** Lines 414-510: from the creation of the session to RTT found active. *)
Definition main_startup (fuel : nat) (args : Args) : M J (flow unit) :=
  let? _ := main_open args in
  let? _ := main_connect args in
  let? _ := main_start_rtt args in
  main_wait_rtt fuel.

(** Lines 413-716: what stands inside the outer [try]. *)
Definition main_session (fuel : nat) (args : Args) : M J (flow Z) :=
  let? _ := main_startup fuel args in
  let? _ := main_print_bufs args in
  let? up := main_find args true in
  let? down := main_find_down args in
  let? pty := main_create_pty args in
  main_bridge fuel args up.1 down.1 pty.1.1 pty.1.2 pty.2.

(** Lines 718-731: the [except] clauses of the outer [try]. *)
Definition main_handlers (e : exn) : option (M J (flow Z)) :=
  match e with
  | RTTBridgeError _ => Some (eprint ("Error: " +:+ str_exn e) ;; ret (Return 1))
  | JLinkException _ | JLinkRTTException _ =>
      Some (eprint ("J-Link error: " +:+ str_exn e) ;; ret (Return 1))
  | _ => Some (eprint ("Unexpected error: " +:+ str_exn e) ;;
               emit EvTraceback ;;
               ret (Return 1))
  end.

(** [sys.exit(main())]: the status of the process.  An exception nothing
    catches ends the interpreter with a traceback and status 1. *)
Definition exit_code (r : result (flow Z)) : option Z :=
  match r with
  | Ok (Go code) | Ok (Return code) => Some code
  | Ok OutOfFuel => None
  | Raise _ => Some 1
  end.

Definition uncaught {A} (r : result A) : M J unit :=
  match r with
  | Raise _ => emit EvTraceback
  | Ok _ => ret tt
  end.

(** Lines 348-731.  The result is the exit status of the process, [None]
    when the loops are still running after [fuel] turns. *)
Definition main (fuel : nat) (args : Args) (w : World J) : option Z * World J :=
  match main_validate args w with
  | (Ok (Go _), w1) =>
      let '(r, w2) := try_except (main_session fuel args) main_handlers w1 in
      (exit_code r, (uncaught r w2).2)
  | (Ok (Return code), w1) => (Some code, w1)
  | (Ok OutOfFuel, w1) => (None, w1)
  | (Raise e, w1) => (Some 1, (emit EvTraceback w1).2)
  end.

End Relay.

(** ** A scripted probe, to run the program on

    A probe is described by fixed answers: its flags, its buffer tables,
    whether it has the [rtt_is_active] method, and the exception [rtt_write]
    raises, if any.  The only thing that changes during a run is the script
    of answers [rtt_read] still has to give; after the script, no data. *)

Module Probe.

Record t : Type := mk {
  with_is_active : bool;
  is_open : bool;
  connected : bool;
  target_connected : bool;
  rtt_active : bool;
  up_buffers : list BufDesc.t;
  down_buffers : list BufDesc.t;
  write_error : option exn
}.

Definition script : Type := list (result (list Byte.byte)).

Definition answer {A} (a : A) (s : script) : result A * script := (Ok a, s).

Definition descriptor (p : t) (index : Z) (up : bool) (s : script)
  : result (option BufDesc.t) * script :=
  let table := if up then up_buffers p else down_buffers p in
  if index <? 0 then (Raise (JLinkRTTException "invalid buffer index"), s)
  else match table !! Z.to_nat index with
       | Some d => (Ok (Some d), s)
       | None => (Raise (JLinkRTTException "invalid buffer index"), s)
       end.

Definition read (s : script) : result (list Byte.byte) * script :=
  match s with
  | r :: rest => (r, rest)
  | [] => (Ok [], s)
  end.

Definition write (p : t) (data : list Byte.byte) (s : script) : result Z * script :=
  match write_error p with
  | Some e => (Raise e, s)
  | None => (Ok (Os.len data), s)
  end.

Definition api (p : t) : JLinkLike script := {|
  has_rtt_is_active := with_is_active p;
  jl_new := answer tt;
  jl_open := fun _ => answer tt;
  jl_close := answer tt;
  jl_opened := answer (is_open p);
  jl_connected := answer (connected p);
  jl_target_connected := answer (target_connected p);
  jl_product_name := answer "J-Link";
  jl_serial_number := answer 12345;
  jl_set_tif := answer tt;
  jl_set_speed := fun _ => answer tt;
  jl_connect := fun _ => answer tt;
  jl_rtt_start := fun _ => answer tt;
  jl_rtt_stop := answer tt;
  jl_rtt_is_active := answer (rtt_active p);
  jl_rtt_get_num_up_buffers := answer (Os.len (up_buffers p));
  jl_rtt_get_num_down_buffers := answer (Os.len (down_buffers p));
  jl_rtt_get_buf_descriptor := descriptor p;
  jl_rtt_read := fun _ _ => read;
  jl_rtt_write := fun _ => write p
|}.

Definition terminal : BufDesc.t := BufDesc.mk (NameBytes "Terminal") 1024.

(** A live session with one up-buffer and one down-buffer. *)
Definition live : t := mk true true true true true [terminal] [terminal] None.

Definition empty_os : OS := mkOS ∅ ∅ [Some "/dev/pts/3"] [] ∅.

(** The world at process start, with the reads the probe will answer. *)
Definition world (reads : script) : World script :=
  mkWorld reads empty_os 0 false [] [] [].

Definition default_args : Args :=
  mkArgs "NRF54L15_M33" None 4000 "Terminal" false None None false.

End Probe.

(** ** Worlds and probes the properties are run on *)

Module Runs.

Import Probe.

(** The world once the PTY exists and the handlers are installed:
    descriptor 3 is the PTY master, descriptor 4 its slave. *)
Definition active_os (io : list io_outcome) : OS :=
  mkOS {[3 := FdPtyMaster (Some "/dev/pts/3"); 4 := FdPtySlave (Some "/dev/pts/3")]}
       {["/dev/pts/3" := NChar]} [] io ∅.

Definition active (reads : script) (io : list io_outcome) : World script :=
  mkWorld reads (active_os io) 0 false [SIGINT; SIGTERM; SIGQUIT] [] [].

(** The probe reports that it lost the target. *)
Definition target_lost : Probe.t := mk true true true false true [terminal] [terminal] None.

(** The DLL reports that it is not open; the other flags are fine. *)
Definition not_open : Probe.t := mk true false true true true [terminal] [terminal] None.

(** [rtt_write] fails with the exception of the RTT layer. *)
Definition write_rtt_error : Probe.t :=
  mk true true true true true [terminal] [terminal] (Some (JLinkRTTException "buffer full")).

(** [rtt_write] fails because the connection to the probe is gone. *)
Definition write_link_error : Probe.t :=
  mk true true true true true [terminal] [terminal] (Some (JLinkException "connection lost")).

Definition operator_types : list io_outcome := [IoSelect true; IoRead [Byte.x70]].

(** The same with a symlink published at /tmp/rtt. *)
Definition linked_os : OS :=
  mkOS {[3 := FdPtyMaster (Some "/dev/pts/3"); 4 := FdPtySlave (Some "/dev/pts/3")]}
       {["/dev/pts/3" := NChar; "/tmp/rtt" := NSymlink "/dev/pts/3"]} [] [] ∅.

Definition linked : World script := mkWorld [] linked_os 0 true [] [] [].

End Runs.

(** A probe with RTT running and no buffer at all. *)
Definition no_buffers_probe : Probe.t :=
  Probe.mk true true true true true [] [] None.

(** The same probe without the [rtt_is_active] method: activity is then
    inferred from the number of up-buffers. *)
Definition no_buffers_probe_fallback : Probe.t :=
  Probe.mk false true true true true [] [] None.

(** A probe whose one up-buffer has the name asked for and size 0. *)
Definition zero_size_probe : Probe.t :=
  Probe.mk true true true true true [BufDesc.mk (NameStr "Terminal") 0] [] None.

Definition missing_args : Args :=
  mkArgs "NRF54L15_M33" None 4000 "Missing" false None None false.

Definition missing_listing_args : Args :=
  mkArgs "NRF54L15_M33" None 4000 "Missing" false None None true.

(** ** Vocabulary of the statements *)

(** The three kinds of parse error of the specification, read off the
    message of the [ValueError]: each [raise] of [parse_address] has its own
    wording. *)
Inductive parse_error_kind : Type := EmptyInput | InvalidRange | InvalidAddress.

Definition parse_error_kind_of (msg : string) : option parse_error_kind :=
  if String.eqb msg "Empty address string" then Some EmptyInput
  else if Py.startswith "Invalid search range format: " msg
          || Py.startswith "Invalid number format in search range " msg
          || Py.startswith "Invalid start address: " msg
          || Py.startswith "Invalid size: " msg
          || Py.startswith "Size too large: " msg
  then Some InvalidRange
  else if Py.startswith "Invalid address format " msg
          || Py.startswith "Invalid address: " msg
          || Py.startswith "Address too large: " msg
  then Some InvalidAddress
  else None.

Definition sleep_of (ev : event) : option Z :=
  match ev with EvSleep ms => Some ms | _ => None end.

(** The pauses of a run, in order. *)
Definition sleeps (l : list event) : list Z := omap sleep_of l.

Definition stderr_line (text : string) : event := EvPrint Stderr text.

(** The guard of an iteration passes when both flags are read as true. *)
Definition guard_passes (connected target : result bool) : bool :=
  match connected, target with
  | Ok true, Ok true => true
  | _, _ => false
  end.

(** What the guard does, from the answers to its two queries: the target is
    asked only when the probe says it is connected. *)
Definition guard_events (connected target : result bool) : list event :=
  match connected with
  | Ok true =>
      EvJLink JConnected :: EvJLink JTargetConnected ::
      match target with
      | Ok true => []
      | Ok false => [stderr_line (nl +:+ "Error: Connection lost")]
      | Raise _ => [stderr_line (nl +:+ "Error: Connection check failed")]
      end
  | Ok false => [EvJLink JConnected; stderr_line (nl +:+ "Error: Connection lost")]
  | Raise _ => [EvJLink JConnected; stderr_line (nl +:+ "Error: Connection check failed")]
  end.

(** The queries [verify_jlink_connection] makes, from the answers it gets:
    open flag, connected flag, target flag, product name, serial number,
    each asked only if everything before it succeeded. *)
Definition verify_events (opened connected target : result bool)
  (product : result string) : list event :=
  EvJLink JOpened ::
  match opened with
  | Ok true =>
      EvJLink JConnected ::
      match connected with
      | Ok true =>
          EvJLink JTargetConnected ::
          match target with
          | Ok true =>
              EvJLink JProductName ::
              match product with
              | Ok _ => [EvJLink JSerialNumber]
              | Raise _ => []
              end
          | _ => []
          end
      | _ => []
      end
  | _ => []
  end.

Definition verify_passes (opened connected target : result bool)
  (product : result string) (serial : result Z) : bool :=
  match opened, connected, target, product, serial with
  | Ok true, Ok true, Ok true, Ok _, Ok _ => true
  | _, _, _, _, _ => false
  end.

Definition counter_of (e : iter_end) : Z :=
  match e with Next c | Break c => c end.

Definition jop_of (ev : event) : option jop :=
  match ev with EvJLink op => Some op | _ => None end.

(** The calls made on the probe SDK during a run, in order. *)
Definition hardware_ops (l : list event) : list jop := omap jop_of l.

Definition up_counter (u : up_end) : Z :=
  match u with UpDone c | UpBreak c | UpContinue c => c end.

(** What the [finally] block does to descriptors and paths. *)
Definition close_quiet (fd : option Z) (o : OS) : OS :=
  match fd with
  | Some fd => (Os.close fd o).2
  | None => o
  end.

Definition unlink_quiet (symlink_path : option string) (o : OS) : OS :=
  match truthy_str symlink_path with
  | Some path =>
      if Os.path_exists path o && Os.path_islink path o then (Os.remove path o).2 else o
  | None => o
  end.

Definition os_teardown (master_fd slave_fd : option Z) (symlink_path : option string)
  (o : OS) : OS :=
  unlink_quiet symlink_path (close_quiet slave_fd (close_quiet master_fd o)).

Definition delete_fd (fd : option Z) (f : gmap Z fdesc) : gmap Z fdesc :=
  match fd with
  | Some fd => delete fd f
  | None => f
  end.

(** The paths left when [fd] is closed: the node of the slave goes with the
    master. *)
Definition release_node (fd : option Z) (f : gmap Z fdesc) (s : gmap string node)
  : gmap string node :=
  match fd with
  | Some fd =>
      match f !! fd with
      | Some d => match Os.node_of d with Some p => delete p s | None => s end
      | None => s
      end
  | None => s
  end.

Definition unlink_fs (symlink_path : option string) (denied : gset string)
  (s : gmap string node) : gmap string node :=
  match truthy_str symlink_path with
  | Some path =>
      if Os.resolves 40 s path then
        match s !! path with
        | Some (NSymlink _) => if bool_decide (path ∈ denied) then s else delete path s
        | _ => s
        end
      else s
  | None => s
  end.

(** The answer for an index the search of lines 147-161 goes past: no
    descriptor, a descriptor of another name, or an exception the clause of
    line 159 swallows. *)
Definition passed_over (name : string) (r : result (option BufDesc.t)) : Prop :=
  match r with
  | Ok None => True
  | Ok (Some d) => String.eqb (buffer_name_of d) name = false
  | Raise (JLinkRTTException _) | Raise (UnicodeDecodeError _) => True
  | Raise _ => False
  end.

Section Vocabulary.

Context {J : Type} `{JLinkLike J}.

(** The number of buffers of one direction, as line 137 asks for it. *)
Definition num_buffers (up : bool) : J -> result Z * J :=
  if up then jl_rtt_get_num_up_buffers else jl_rtt_get_num_down_buffers.

(** Why the search for [name] fails, as a fact about what the probe answers
    on every query, with the text of the error raised for it: RTT is never
    found active (line 135); RTT is active and there is no buffer of the
    direction (line 145); RTT is active, and the first buffer of that name,
    at index [k], has size 0 (line 156). *)
Definition fails_because (name : string) (up : bool) (cause : string) : Prop :=
  (cause = msg_rtt_not_active
   /\ forall w : World J, (is_rtt_active w).1 = Ok false)
  \/ (cause = msg_no_buffers up
      /\ (forall w : World J, (is_rtt_active w).1 = Ok true)
      /\ forall j : J, (num_buffers up j).1 = Ok 0)
  \/ (cause = msg_zero_size name
      /\ (forall w : World J, (is_rtt_active w).1 = Ok true)
      /\ exists (n k : Z) (d : BufDesc.t),
           0 <= k < n
           /\ (forall j : J, (num_buffers up j).1 = Ok n)
           /\ (forall j : J, (jl_rtt_get_buf_descriptor k up j).1 = Ok (Some d))
           /\ buffer_name_of d = name
           /\ BufDesc.SizeOfBuffer d = 0
           /\ forall (i : Z) (j : J),
                0 <= i < k -> passed_over name (jl_rtt_get_buf_descriptor i up j).1).

(** The loop test passes at [w0]: what arrives leaves [do_exit] unset. *)
Definition loop_test_passes (w0 w : World J) : Prop :=
  arrivals w0 = (Ok tt, w) /\ do_exit w = false.

End Vocabulary.


(** ** Vocabulary of the further properties *)

(** Every character of the string passes the test. *)
Fixpoint string_forall (q : ascii -> bool) (s : string) : bool :=
  match s with
  | EmptyString => true
  | String c r => q c && string_forall q r
  end.

(** An ASCII digit or letter. *)
Definition is_alnum (c : ascii) : bool :=
  let n := Py.code c in
  ((48 <=? n) && (n <=? 57)) || ((65 <=? n) && (n <=? 90)) || ((97 <=? n) && (n <=? 122)).

(** The number a sequence of hexadecimal digits denotes, read after [acc]. *)
Fixpoint hex_value (acc : Z) (d : Hexadecimal.uint) : Z :=
  match d with
  | Hexadecimal.Nil => acc
  | Hexadecimal.D0 l => hex_value (acc * 16 + 0) l
  | Hexadecimal.D1 l => hex_value (acc * 16 + 1) l
  | Hexadecimal.D2 l => hex_value (acc * 16 + 2) l
  | Hexadecimal.D3 l => hex_value (acc * 16 + 3) l
  | Hexadecimal.D4 l => hex_value (acc * 16 + 4) l
  | Hexadecimal.D5 l => hex_value (acc * 16 + 5) l
  | Hexadecimal.D6 l => hex_value (acc * 16 + 6) l
  | Hexadecimal.D7 l => hex_value (acc * 16 + 7) l
  | Hexadecimal.D8 l => hex_value (acc * 16 + 8) l
  | Hexadecimal.D9 l => hex_value (acc * 16 + 9) l
  | Hexadecimal.Da l => hex_value (acc * 16 + 10) l
  | Hexadecimal.Db l => hex_value (acc * 16 + 11) l
  | Hexadecimal.Dc l => hex_value (acc * 16 + 12) l
  | Hexadecimal.Dd l => hex_value (acc * 16 + 13) l
  | Hexadecimal.De l => hex_value (acc * 16 + 14) l
  | Hexadecimal.Df l => hex_value (acc * 16 + 15) l
  end.

(** The same for decimal digits. *)
Fixpoint dec_value (acc : Z) (d : Decimal.uint) : Z :=
  match d with
  | Decimal.Nil => acc
  | Decimal.D0 l => dec_value (acc * 10 + 0) l
  | Decimal.D1 l => dec_value (acc * 10 + 1) l
  | Decimal.D2 l => dec_value (acc * 10 + 2) l
  | Decimal.D3 l => dec_value (acc * 10 + 3) l
  | Decimal.D4 l => dec_value (acc * 10 + 4) l
  | Decimal.D5 l => dec_value (acc * 10 + 5) l
  | Decimal.D6 l => dec_value (acc * 10 + 6) l
  | Decimal.D7 l => dec_value (acc * 10 + 7) l
  | Decimal.D8 l => dec_value (acc * 10 + 8) l
  | Decimal.D9 l => dec_value (acc * 10 + 9) l
  end.

(** An upper-case hexadecimal digit; a decimal digit. *)
Definition is_upper_hex (c : ascii) : bool :=
  let n := Py.code c in ((48 <=? n) && (n <=? 57)) || ((65 <=? n) && (n <=? 70)).

Definition is_digit (c : ascii) : bool :=
  let n := Py.code c in (48 <=? n) && (n <=? 57).

(** ** Vocabulary of the further properties: what a step leaves alone *)

Section Frames.

Context {J : Type}.

(** From [w] to [w'] only the session and the record of events changed,
    and the pauses taken were [pause], in milliseconds. *)
Definition paused (pause : list Z) (w w' : World J) : Prop :=
  os w' = os w /\ do_exit w' = do_exit w
  /\ handled w' = handled w /\ sigsched w' = sigsched w
  /\ sleeps (log w') = sleeps (log w) ++ pause
  /\ clock w' = clock w + foldr Z.add 0 pause.

(** The same, and the lines added on standard error were [errs]. *)
Definition told (errs : list string) (w w' : World J) : Prop :=
  paused [] w w' /\ output Stderr (log w') = output Stderr (log w) ++ errs.

(** A step that leaves descriptors and paths as they are. *)
Definition keeps_os {A} (m : M J A) : Prop :=
  forall w, os (m w).2 = os w.

(** A part of [main] that executes [return] only with 0 or 1, and goes on
    only with a value for which [Q] holds. *)
Definition ends_with {A} (Q : A -> Prop) (m : M J (flow A)) : Prop :=
  forall w,
    match (m w).1 with
    | Ok (Return code) => code = 0 \/ code = 1
    | Ok (Go a) => Q a
    | _ => True
    end.

End Frames.

(** ** Further worlds the properties are run on *)

Module Scenes.

Import Probe.

Definition at_os (o : OS) : World script := mkWorld [] o 0 false [] [] [].

(** A regular file stands where the symlink is wanted. *)
Definition occupied : World script :=
  at_os (mkOS ∅ {["/tmp" := NDir; "/tmp/rtt" := NFile]} [] [] ∅).

(** A symlink is left there whose target is gone. *)
Definition dangling : World script :=
  at_os (mkOS ∅ {["/tmp" := NDir; "/tmp/rtt" := NSymlink "/dev/pts/9"]} [] [] ∅).

(** Nothing is there, nor the directory above it. *)
Definition bare : World script :=
  at_os (mkOS ∅ {["/dev/pts/3" := NChar]} [] [] ∅).

(** The system has no PTY left to hand out. *)
Definition no_pty : World script := at_os (mkOS ∅ ∅ [] [] ∅).

End Scenes.

(** ** The integration test's reader of the program's output
    (src/testing/test_integration.py, lines 23-37) *)

Module Testing.

(** [s[len(pre):]] when [s] starts with [pre] *)
Fixpoint drop_prefix (pre s : string) : option string :=
  match pre, s with
  | EmptyString, _ => Some s
  | String a p, String b r => if Py.ascii_eqb a b then drop_prefix p r else None
  | String _ _, EmptyString => None
  end.

(** The text before the first [sep] in [s], and the text after it if
    there is one. *)
Fixpoint split_first (sep s : string) : string * option string :=
  match drop_prefix sep s with
  | Some rest => (EmptyString, Some rest)
  | None =>
      match s with
      | EmptyString => (EmptyString, None)
      | String c r => let '(h, t) := split_first sep r in (String c h, t)
      end
  end.

Fixpoint split_pieces (fuel : nat) (sep s : string) : list string :=
  match fuel with
  | O => [s]
  | S fuel' =>
      match split_first sep s with
      | (h, Some rest) => h :: split_pieces fuel' sep rest
      | (h, None) => [h]
      end
  end.

(** [s.split(sep)] for a separator that is not empty *)
Definition split (sep s : string) : list string :=
  split_pieces (S (String.length s)) sep s.

Definition marker : string := "PTY name is".

(** Lines 23-37. *)
Fixpoint find_pty_from_output (output_lines : list string) : option string :=
  match output_lines with
  | [] => None
  | line :: rest =>
      if Py.contains marker line then
        match split marker line with
        | _ :: part :: _ => Some (Py.strip part)
        | _ => find_pty_from_output rest
        end
      else find_pty_from_output rest
  end.

End Testing.

(** * Properties *)

(** ** Text *)

Section TextFacts.

Lemma count_char_lstrip (p : ascii -> bool) (c : ascii) (s : string) :
  p c = false -> Py.count_char c (Py.lstrip_by p s) = Py.count_char c s.
Proof.
  intros Hc. induction s as [|d r IH]; simpl; [reflexivity|].
  destruct (p d) eqn:Hd; [|reflexivity].
  rewrite IH. unfold Py.ascii_eqb. case_bool_decide; [congruence|reflexivity].
Qed.

Lemma count_char_empty (c : ascii) (s : string) :
  Py.is_empty s = true -> Py.count_char c s = O.
Proof. destruct s; [reflexivity|discriminate]. Qed.

Lemma count_char_rstrip (p : ascii -> bool) (c : ascii) (s : string) :
  p c = false -> Py.count_char c (Py.rstrip_by p s) = Py.count_char c s.
Proof.
  intros Hc. induction s as [|d r IH]; simpl; [reflexivity|].
  destruct (p d && Py.is_empty (Py.rstrip_by p r)) eqn:Hd; simpl.
  - apply andb_true_iff in Hd as [Hd He].
    rewrite <- IH, (count_char_empty _ _ He).
    unfold Py.ascii_eqb. case_bool_decide; [congruence|reflexivity].
  - by rewrite IH.
Qed.

Lemma count_char_strip (c : ascii) (s : string) :
  Py.isspace c = false -> Py.count_char c (Py.strip s) = Py.count_char c s.
Proof.
  intros Hc. unfold Py.strip.
  by rewrite count_char_rstrip, count_char_lstrip.
Qed.

Lemma split_char_length (c : ascii) (s : string) :
  length (Py.split_char c s) = S (Py.count_char c s).
Proof.
  induction s as [|d r IH]; simpl; [reflexivity|].
  destruct (Py.ascii_eqb d c); simpl; [by rewrite IH|].
  destruct (Py.split_char c r); simpl in *; [discriminate|exact IH].
Qed.

Lemma contains_char_count (c : ascii) (s : string) :
  (0 < Py.count_char c s)%nat -> Py.contains_char c s = true.
Proof.
  induction s as [|d r IH]; simpl; [lia|].
  destruct (Py.ascii_eqb d c); simpl; [reflexivity|exact IH].
Qed.

End TextFacts.

(** ** The address parser *)

Example parse_address_hex : parse_address "0x200044E0" = Ok (536888544, None).
Proof. reflexivity. Qed.

Example parse_address_range :
  parse_address " 0x20000000 , 4_096 " = Ok (536870912, Some 4096).
Proof. reflexivity. Qed.

Example parse_address_bad :
  parse_address "12g" =
  Raise (ValueError "Invalid address format '12g': invalid literal for int() with base 10: '12g'").
Proof. reflexivity. Qed.

Example parse_address_neg_size :
  parse_address "16,-0xff" =
  Raise (ValueError "Invalid number format in search range '16,-0xff': invalid literal for int() with base 10: '-0xff'").
Proof. reflexivity. Qed.

Example parse_address_size_large :
  parse_address "0,0x100000000" =
  Raise (ValueError "Size too large: 0x100000000 (maximum: 0xFFFFFFFF)").
Proof. reflexivity. Qed.

Lemma msg_range_format_kind (t : string) :
  parse_error_kind_of (msg_range_format t) = Some InvalidRange.
Proof. reflexivity. Qed.

(** C5, as amended.  An address string with more than one comma is taken
    down the search-range branch: [parse_address] raises the range-format
    [ValueError] ("expected 'start,size'") on the stripped input, an error
    of the search-range kind and not of the single-value kind. *)
Theorem parse_address_many_commas (s : string) :
  (1 < Py.count_char comma s)%nat ->
  parse_address s = Raise (ValueError (msg_range_format (Py.strip s)))
  /\ parse_error_kind_of (msg_range_format (Py.strip s)) = Some InvalidRange.
Proof.
  intros Hn. split; [|apply msg_range_format_kind].
  assert (Hc : Py.count_char comma (Py.strip s) = Py.count_char comma s)
    by (apply count_char_strip; reflexivity).
  unfold parse_address.
  destruct (Py.is_empty s) eqn:Es.
  { rewrite (count_char_empty _ _ Es) in Hn. lia. }
  destruct (Py.is_empty (Py.strip s)) eqn:Et.
  { rewrite (count_char_empty _ _ Et) in Hc. lia. }
  simpl. rewrite contains_char_count by lia.
  pose proof (split_char_length comma (Py.strip s)) as Hl.
  destruct (Py.split_char comma (Py.strip s)) as [|p0 [|p1 [|p2 ps]]];
    simpl in Hl; try reflexivity; lia.
Qed.

Lemma parse_address_many_commas_witness :
  parse_address " 1,2,3 " = Raise (ValueError (msg_range_format (Py.strip " 1,2,3 ")))
  /\ parse_error_kind_of (msg_range_format (Py.strip " 1,2,3 ")) = Some InvalidRange.
Proof. apply parse_address_many_commas. vm_compute. lia. Defined.

(** C5, as stated, fails: on ["1,2,3"] the error is not of the single-value
    kind. *)
Lemma parse_address_many_commas_counterexample :
  (1 < Py.count_char comma "1,2,3")%nat /\
  ~ (exists detail, parse_address "1,2,3" = Raise (ValueError detail)
                    /\ parse_error_kind_of detail = Some InvalidAddress).
Proof.
  split; [vm_compute; lia|].
  intros (detail & Hp & Hk). vm_compute in Hp. inversion Hp; subst.
  vm_compute in Hk. discriminate.
Qed.

(** ** The buffer locator *)

Example find_terminal :
  (@find_buffer_by_name _ (Probe.api Probe.live) "Terminal" true 3 (Probe.world [])).1
  = Ok (0, Some Probe.terminal).
Proof. vm_compute. reflexivity. Qed.

Example find_other_case :
  (@find_buffer_by_name _ (Probe.api Probe.live) "terminal" true 3 (Probe.world [])).1
  = Ok (-1, None).
Proof. vm_compute. reflexivity. Qed.

Section LocatorFacts.

Context {J : Type} `{JLinkLike J}.

Lemma is_rtt_active_total (w : World J) :
  exists b op,
    is_rtt_active w
    = (Ok b, mkWorld (snd (if has_rtt_is_active
                           then (Ok tt, (jl_rtt_is_active (jl w)).2)
                           else (Ok tt, (jl_rtt_get_num_up_buffers (jl w)).2)))
                     (os w) (clock w) (do_exit w) (handled w) (sigsched w)
                     (log w ++ [EvJLink op])).
Proof.
  unfold is_rtt_active, try_except, jcall, bind, ret.
  destruct has_rtt_is_active.
  - destruct (jl_rtt_is_active (jl w)) as [[b|e] j]; simpl; eauto.
  - destruct (jl_rtt_get_num_up_buffers (jl w)) as [[n|e] j]; simpl; eauto.
Qed.

Lemma is_rtt_active_sleeps (w : World J) :
  sleeps (log (is_rtt_active w).2) = sleeps (log w).
Proof.
  destruct (is_rtt_active_total w) as (b & op & ->). simpl.
  unfold sleeps. rewrite omap_app. simpl. apply app_nil_r.
Qed.

Lemma is_rtt_active_ok (w : World J) : exists b, (is_rtt_active w).1 = Ok b.
Proof. destruct (is_rtt_active_total w) as (b & op & ->). eauto. Qed.

Lemma msg_unexpected_prefix (name m : string) :
  Py.startswith "Unexpected error while searching for buffer" (msg_unexpected name m) = true.
Proof. reflexivity. Qed.

Lemma string_length_app (a b : string) :
  String.length (a +:+ b) = (String.length a + String.length b)%nat.
Proof.
  induction a as [|c a IH]; [reflexivity|].
  change (String c a +:+ b) with (String c (a +:+ b)).
  cbn [String.length]. by rewrite IH.
Qed.

Lemma msg_unexpected_longer (name m : string) : msg_unexpected name m <> m.
Proof.
  intros E. apply (f_equal String.length) in E.
  unfold msg_unexpected in E. rewrite !string_length_app in E.
  cbn [String.length] in E. lia.
Qed.

(** An [RTTBridgeError] raised inside the [try] of an attempt is caught by
    the catch-all clause of line 171 and raised again inside its prefix. *)
Lemma attempt_error_is_wrapped
  (name : string) (up : bool) (attempt max_retries : Z) (rest : list Z)
  (w w' : World J) (m : string) :
  attempt_body name up attempt max_retries w = (Raise (RTTBridgeError m), w') ->
  find_attempts name up max_retries (attempt :: rest) w
  = (Raise (RTTBridgeError (msg_unexpected name m)), w').
Proof.
  intros Hbody. cbn [find_attempts]. unfold bind, find_attempt, try_except.
  rewrite Hbody. reflexivity.
Qed.

(** No bridge error leaves the function bare: every exception of
    [find_buffer_by_name] was built by one of the two clauses of lines
    166-172. *)
Lemma find_attempts_error_shape
  (name : string) (up : bool) (max_retries : Z) (attempts : list Z)
  (w w' : World J) (e : exn) :
  find_attempts name up max_retries attempts w = (Raise e, w') ->
  exists detail,
    e = RTTBridgeError (msg_unexpected name detail)
    \/ e = RTTBridgeError (msg_query_failed detail).
Proof.
  revert w. induction attempts as [|attempt rest IH]; intros w; [discriminate|].
  cbn [find_attempts]. unfold bind at 1, find_attempt, try_except.
  destruct (attempt_body name up attempt max_retries w) as [[[|index desc|]|ex] w1].
  - apply IH.
  - discriminate.
  - discriminate.
  - unfold attempt_handlers.
    destruct ex as [m|m|m|m|errno m|m|m|m];
      try (unfold raise; intros [= <- <-]; eexists; left; reflexivity).
    destruct (attempt <? max_retries - 1).
    + unfold bind, sleep, ret. apply IH.
    + unfold raise. intros [= <- <-]. eexists; right; reflexivity.
Qed.

(** *** A session that always reports zero buffers *)

Section ZeroBuffers.

Variables (up : bool) (name : string) (max_retries : Z).

(** Every query finds RTT active and no buffer of the direction. *)
Hypothesis active_always : forall w : World J, (is_rtt_active w).1 = Ok true.
Hypothesis zero_always : forall j : J, (num_buffers up j).1 = Ok 0.

Lemma attempt_body_zero (attempt : Z) (w : World J) :
  exists w',
    attempt_body name up attempt max_retries w
    = (if attempt <? max_retries - 1 then Ok Retry
       else Raise (RTTBridgeError (msg_no_buffers up)), w')
    /\ sleeps (log w')
       = sleeps (log w) ++ (if attempt <? max_retries - 1 then [200] else []).
Proof.
  unfold attempt_body, bind at 1.
  pose proof (active_always w) as Ha. pose proof (is_rtt_active_sleeps w) as Hs.
  destruct (is_rtt_active w) as [r w1]. simpl in Ha, Hs. subst r.
  cbn [negb]. unfold bind at 1.
  assert (exists j', (if up then jcall JNumUp jl_rtt_get_num_up_buffers
                      else jcall JNumDown jl_rtt_get_num_down_buffers) w1
                     = (Ok 0, mkWorld j' (os w1) (clock w1) (do_exit w1) (handled w1)
                                      (sigsched w1)
                                      (log w1 ++ [EvJLink (if up then JNumUp else JNumDown)])))
    as [j' ->].
  { pose proof (zero_always (jl w1)) as Hz. unfold num_buffers in Hz.
    unfold jcall. destruct up.
    - destruct (jl_rtt_get_num_up_buffers (jl w1)) as [r j']. simpl in Hz. subst r. eauto.
    - destruct (jl_rtt_get_num_down_buffers (jl w1)) as [r j']. simpl in Hz. subst r. eauto. }
  change (0 =? 0) with true. cbv iota.
  destruct (attempt <? max_retries - 1).
  - unfold bind, sleep, ret. simpl. eexists; split; [reflexivity|].
    simpl. unfold sleeps in *. rewrite !omap_app, Hs. simpl.
    destruct up; simpl; by rewrite app_nil_r.
  - unfold raise. eexists; split; [reflexivity|].
    simpl. unfold sleeps in *. rewrite !omap_app, Hs. simpl.
    destruct up; simpl; by rewrite !app_nil_r.
Qed.

Lemma find_attempts_zero (k : nat) (first : Z) (w : World J) :
  first + Z.of_nat k = max_retries - 1 ->
  exists w',
    find_attempts name up max_retries (seqZ first (Z.of_nat (S k))) w
    = (Raise (RTTBridgeError (msg_unexpected name (msg_no_buffers up))), w')
    /\ sleeps (log w') = sleeps (log w) ++ replicate k 200.
Proof.
  revert first w. induction k as [|k IH]; intros first w Hk.
  - rewrite seqZ_cons, seqZ_nil by lia.
    destruct (attempt_body_zero first w) as (w' & Hb & Hs).
    replace (first <? max_retries - 1) with false in * by (symmetry; apply Z.ltb_ge; lia).
    exists w'. split; [|by rewrite Hs].
    cbn [find_attempts]. unfold bind, find_attempt, try_except. rewrite Hb. reflexivity.
  - rewrite seqZ_cons by lia.
    replace (Z.pred (Z.of_nat (S (S k)))) with (Z.of_nat (S k)) by lia.
    destruct (attempt_body_zero first w) as (w1 & Hb & Hs).
    replace (first <? max_retries - 1) with true in * by (symmetry; apply Z.ltb_lt; lia).
    destruct (IH (Z.succ first) w1) as (w' & Hf & Hs'); [lia|].
    exists w'. split.
    + cbn [find_attempts]. unfold bind at 1, find_attempt, try_except.
      rewrite Hb. exact Hf.
    + rewrite Hs', Hs. rewrite <- app_assoc. reflexivity.
Qed.

End ZeroBuffers.

(** *** The three causes, through the whole function *)

(** Attempts that either ask for another turn, which the last one cannot,
    or raise the bridge error [cause]: the loop ends with [cause] inside
    the wrapper. *)
Lemma find_attempts_last (name : string) (up : bool) (max_retries : Z) (cause : string) :
  (forall attempt (w : World J),
      exists w',
        (attempt_body name up attempt max_retries w = (Ok Retry, w')
         /\ attempt < max_retries - 1)
        \/ attempt_body name up attempt max_retries w
           = (Raise (RTTBridgeError cause), w')) ->
  forall (k : nat) (first : Z) (w : World J),
    first + Z.of_nat k = max_retries - 1 ->
    exists w',
      find_attempts name up max_retries (seqZ first (Z.of_nat (S k))) w
      = (Raise (RTTBridgeError (msg_unexpected name cause)), w').
Proof.
  intros Hbody. induction k as [|k IH]; intros first w Hk;
    rewrite seqZ_cons by lia;
    destruct (Hbody first w) as [w1 [[Hb Hlt]|Hb]];
    try (exists w1; by apply attempt_error_is_wrapped).
  - lia.
  - replace (Z.pred (Z.of_nat (S (S k)))) with (Z.of_nat (S k)) by lia.
    destruct (IH (Z.succ first) w1) as [w' Hf]; [lia|].
    exists w'. cbn [find_attempts]. unfold bind at 1, find_attempt, try_except.
    rewrite Hb. exact Hf.
Qed.

Lemma attempt_body_inactive (name : string) (up : bool) (attempt max_retries : Z)
  (w : World J) :
  (forall w : World J, (is_rtt_active w).1 = Ok false) ->
  exists w',
    attempt_body name up attempt max_retries w
    = (if attempt <? max_retries - 1 then Ok Retry
       else Raise (RTTBridgeError msg_rtt_not_active), w').
Proof.
  intros Hnever. unfold attempt_body, bind at 1.
  pose proof (Hnever w) as Ha.
  destruct (is_rtt_active w) as [r w1]. cbn [fst] in Ha. subst r. cbn [negb].
  destruct (attempt <? max_retries - 1); eexists; reflexivity.
Qed.

(** The scan reaches the buffer of size 0 at index [k] and raises. *)
Lemma scan_descriptors_zero_size (name : string) (up : bool) (k : Z) (d : BufDesc.t) :
  (forall j : J, (jl_rtt_get_buf_descriptor k up j).1 = Ok (Some d)) ->
  buffer_name_of d = name ->
  BufDesc.SizeOfBuffer d = 0 ->
  (forall (i : Z) (j : J),
      0 <= i < k -> passed_over name (jl_rtt_get_buf_descriptor i up j).1) ->
  forall (dist : nat) (i len : Z) (w : World J),
    i + Z.of_nat dist = k -> 0 <= i -> k < i + len ->
    exists w',
      scan_descriptors name up (seqZ i len) w
      = (Raise (RTTBridgeError (msg_zero_size name)), w').
Proof.
  intros Hd Hname Hsize Hpast.
  induction dist as [|dist IH]; intros i len w Hi Hi0 Hlen;
    rewrite seqZ_cons by lia; cbn [scan_descriptors];
    unfold bind at 1, try_except, bind at 1, jcall.
  - assert (i = k) as -> by lia. pose proof (Hd (jl w)) as Hk.
    destruct (jl_rtt_get_buf_descriptor k up (jl w)) as [r j']. cbn [fst] in Hk. subst r.
    rewrite Hname, String.eqb_refl, Hsize. cbn [Z.eqb]. unfold raise.
    eexists. reflexivity.
  - pose proof (Hpast i (jl w) ltac:(lia)) as Hp.
    destruct (IH (Z.succ i) (Z.pred len)
                (mkWorld (jl_rtt_get_buf_descriptor i up (jl w)).2 (os w) (clock w)
                         (do_exit w) (handled w) (sigsched w)
                         (log w ++ [EvJLink (JGetDesc i up)]))
                ltac:(lia) ltac:(lia) ltac:(lia)) as [w' Hscan].
    exists w'.
    destruct (jl_rtt_get_buf_descriptor i up (jl w)) as [[[d'|]|e] j'];
      cbn [fst snd passed_over] in *.
    + rewrite Hp. unfold ret. exact Hscan.
    + unfold ret. exact Hscan.
    + destruct e as [m|m|m|m|errno m|m|m|m]; try contradiction; unfold ret; exact Hscan.
Qed.

Lemma attempt_body_zero_size (name : string) (up : bool) (attempt max_retries : Z)
  (n k : Z) (d : BufDesc.t) (w : World J) :
  (forall w : World J, (is_rtt_active w).1 = Ok true) ->
  0 <= k < n ->
  (forall j : J, (num_buffers up j).1 = Ok n) ->
  (forall j : J, (jl_rtt_get_buf_descriptor k up j).1 = Ok (Some d)) ->
  buffer_name_of d = name ->
  BufDesc.SizeOfBuffer d = 0 ->
  (forall (i : Z) (j : J),
      0 <= i < k -> passed_over name (jl_rtt_get_buf_descriptor i up j).1) ->
  exists w',
    attempt_body name up attempt max_retries w
    = (Raise (RTTBridgeError (msg_zero_size name)), w').
Proof.
  intros Hactive Hk Hnum Hd Hname Hsize Hpast. unfold attempt_body, bind at 1.
  pose proof (Hactive w) as Ha.
  destruct (is_rtt_active w) as [r w1]. cbn [fst] in Ha. subst r. cbn [negb].
  unfold bind at 1.
  assert (exists w2, (if up then jcall JNumUp jl_rtt_get_num_up_buffers
                      else jcall JNumDown jl_rtt_get_num_down_buffers) w1 = (Ok n, w2))
    as [w2 ->].
  { pose proof (Hnum (jl w1)) as Hn. unfold num_buffers in Hn. unfold jcall. destruct up.
    - destruct (jl_rtt_get_num_up_buffers (jl w1)) as [r j']. cbn [fst] in Hn. subst r. eauto.
    - destruct (jl_rtt_get_num_down_buffers (jl w1)) as [r j']. cbn [fst] in Hn. subst r.
      eauto. }
  replace (n =? 0) with false by (symmetry; apply Z.eqb_neq; lia).
  destruct (scan_descriptors_zero_size name up k d Hd Hname Hsize Hpast
              (Z.to_nat k) 0 n w2 ltac:(lia) ltac:(lia) ltac:(lia)) as [w' Hscan].
  exists w'. unfold bind. by rewrite Hscan.
Qed.

(** C9.  Let the name be non-blank and let there be at least one attempt.
    If the search fails because RTT is never found active, or because RTT
    is active and there is no buffer of the direction, or because the
    first buffer of that name has size 0, then [find_buffer_by_name] raises
    the [RTTBridgeError] built by the catch-all clause of line 171: its
    message is the prefix "Unexpected error while searching for buffer
    '<name>': " followed by the text of the cause, never that text
    alone. *)
Theorem find_buffer_by_name_rewraps_bridge_errors
  (name : string) (up : bool) (max_retries : Z) (w : World J) (cause : string) :
  Py.is_empty (Py.strip name) = false ->
  1 <= max_retries ->
  fails_because (Py.strip name) up cause ->
  (find_buffer_by_name name up max_retries w).1
  = Raise (RTTBridgeError (msg_unexpected (Py.strip name) cause))
  /\ Py.startswith "Unexpected error while searching for buffer"
       (msg_unexpected (Py.strip name) cause) = true
  /\ (find_buffer_by_name name up max_retries w).1 <> Raise (RTTBridgeError cause).
Proof.
  intros Hname Hmax Hcause.
  assert (Hbody : forall attempt (w : World J),
             exists w',
               (attempt_body (Py.strip name) up attempt max_retries w = (Ok Retry, w')
                /\ attempt < max_retries - 1)
               \/ attempt_body (Py.strip name) up attempt max_retries w
                  = (Raise (RTTBridgeError cause), w')).
  { intros attempt w0.
    destruct Hcause as [[-> Hnever]|[[-> [Hactive Hzero]]|[-> [Hactive Hsize]]]].
    - destruct (attempt_body_inactive (Py.strip name) up attempt max_retries w0 Hnever)
        as [w' Hb].
      exists w'. destruct (attempt <? max_retries - 1) eqn:Hlt; [left|by right].
      split; [exact Hb|]. by apply Z.ltb_lt.
    - destruct (attempt_body_zero up (Py.strip name) max_retries Hactive Hzero attempt w0)
        as (w' & Hb & _).
      exists w'. destruct (attempt <? max_retries - 1) eqn:Hlt; [left|by right].
      split; [exact Hb|]. by apply Z.ltb_lt.
    - destruct Hsize as (n & k & d & Hk & Hnum & Hd & Hn & Hs & Hpast).
      destruct (attempt_body_zero_size (Py.strip name) up attempt max_retries n k d w0
                  Hactive Hk Hnum Hd Hn Hs Hpast) as [w' Hb].
      exists w'. by right. }
  destruct (find_attempts_last (Py.strip name) up max_retries cause Hbody
              (Z.to_nat (max_retries - 1)) 0 w) as [w' Hf]; [lia|].
  replace (Z.of_nat (S (Z.to_nat (max_retries - 1)))) with max_retries in Hf by lia.
  assert (Hfb : find_buffer_by_name name up max_retries w
                = (Raise (RTTBridgeError (msg_unexpected (Py.strip name) cause)), w')).
  { unfold find_buffer_by_name. rewrite Hname.
    destruct (Py.is_empty name) eqn:En.
    - destruct name; [discriminate Hname|discriminate En].
    - exact Hf. }
  rewrite Hfb. cbn [fst]. split; [reflexivity|]. split; [apply msg_unexpected_prefix|].
  intros [= E]. exact (msg_unexpected_longer _ _ E).
Qed.

(** C1, as amended.  Let the requested name be non-blank and let there be
    at least one attempt.  If on every query the session is found active
    and reports zero buffers of the requested direction, then
    [find_buffer_by_name] pauses 200 ms after each attempt but the last and
    then raises [RTTBridgeError] with the text "No UP buffers available"
    (resp. "No DOWN ...") inside the catch-all wrapper of line 172; it does
    not return the not-found pair [(-1, None)]. *)
Theorem find_buffer_by_name_no_buffers
  (name : string) (up : bool) (max_retries : Z) (w : World J) :
  Py.is_empty (Py.strip name) = false ->
  1 <= max_retries ->
  (forall w : World J, (is_rtt_active w).1 = Ok true) ->
  (forall j : J, (num_buffers up j).1 = Ok 0) ->
  exists w',
    find_buffer_by_name name up max_retries w
    = (Raise (RTTBridgeError (msg_unexpected (Py.strip name) (msg_no_buffers up))), w')
    /\ sleeps (log w') = sleeps (log w) ++ replicate (Z.to_nat (max_retries - 1)) 200
    /\ (find_buffer_by_name name up max_retries w).1 <> Ok (-1, None).
Proof.
  intros Hname Hmax Ha Hz.
  destruct (find_attempts_zero up (Py.strip name) max_retries Ha Hz
              (Z.to_nat (max_retries - 1)) 0 w) as (w' & Hf & Hs); [lia|].
  replace (Z.of_nat (S (Z.to_nat (max_retries - 1)))) with max_retries in Hf by lia.
  assert (Hfb : find_buffer_by_name name up max_retries w
                = (Raise (RTTBridgeError (msg_unexpected (Py.strip name) (msg_no_buffers up))), w')).
  { unfold find_buffer_by_name. rewrite Hname.
    destruct (Py.is_empty name) eqn:En.
    - destruct name; [discriminate Hname|discriminate En].
    - exact Hf. }
  exists w'. rewrite Hfb. repeat split; [exact Hs|discriminate].
Qed.

End LocatorFacts.

Lemma find_buffer_by_name_no_buffers_witness :
  exists w',
    @find_buffer_by_name _ (Probe.api no_buffers_probe) "Terminal" false 3 (Probe.world [])
    = (Raise (RTTBridgeError (msg_unexpected (Py.strip "Terminal") (msg_no_buffers false))), w')
    /\ sleeps (log w') = sleeps (log (Probe.world [])) ++ replicate (Z.to_nat (3 - 1)) 200
    /\ (@find_buffer_by_name _ (Probe.api no_buffers_probe) "Terminal" false 3
          (Probe.world [])).1 <> Ok (-1, None).
Proof.
  apply (@find_buffer_by_name_no_buffers _ (Probe.api no_buffers_probe)).
  - reflexivity.
  - lia.
  - intros w. reflexivity.
  - intros j. reflexivity.
Defined.

(** C1, as stated, fails: this session reports zero up-buffers on every
    query, and after three attempts the error is the one for inactive RTT;
    its text does not mention missing buffers.  And on a session with RTT
    running and no buffers, a blank name is answered with the not-found pair
    at once. *)
Lemma find_buffer_by_name_no_buffers_counterexample :
  (forall j, (@num_buffers _ (Probe.api no_buffers_probe_fallback) true j).1 = Ok 0)
  /\ (exists w',
        @find_buffer_by_name _ (Probe.api no_buffers_probe_fallback) "Terminal" true 3
          (Probe.world [])
        = (Raise (RTTBridgeError (msg_unexpected "Terminal" msg_rtt_not_active)), w')
        /\ sleeps (log w') = [200; 200]
        /\ Py.contains (msg_no_buffers true) (msg_unexpected "Terminal" msg_rtt_not_active)
           = false)
  /\ @find_buffer_by_name _ (Probe.api no_buffers_probe) "  " true 3 (Probe.world [])
     = (Ok (-1, None), Probe.world []).
Proof.
  split; [intros j; reflexivity|]. split; [|reflexivity].
  eexists. split; [vm_compute; reflexivity|]. split; reflexivity.
Qed.

Lemma find_buffer_by_name_rewraps_bridge_errors_witness :
  (@find_buffer_by_name _ (Probe.api zero_size_probe) "Terminal" true 3 (Probe.world [])).1
  = Raise (RTTBridgeError (msg_unexpected (Py.strip "Terminal") (msg_zero_size "Terminal")))
  /\ Py.startswith "Unexpected error while searching for buffer"
       (msg_unexpected (Py.strip "Terminal") (msg_zero_size "Terminal")) = true
  /\ (@find_buffer_by_name _ (Probe.api zero_size_probe) "Terminal" true 3 (Probe.world [])).1
     <> Raise (RTTBridgeError (msg_zero_size "Terminal")).
Proof.
  apply (@find_buffer_by_name_rewraps_bridge_errors _ (Probe.api zero_size_probe)
           "Terminal" true 3 (Probe.world []) (msg_zero_size "Terminal")).
  - reflexivity.
  - lia.
  - right. right. split; [reflexivity|]. split; [intros w; reflexivity|].
    exists 1, 0, (BufDesc.mk (NameStr "Terminal") 0).
    split; [lia|]. split; [intros j; reflexivity|]. split; [intros j; reflexivity|].
    split; [reflexivity|]. split; [reflexivity|]. intros i j Hi. lia.
Defined.

(** The first cause, and the third once more, run through the whole
    function. *)
Example inactive_is_rewrapped :
  (@find_buffer_by_name _ (Probe.api (Probe.mk true true true true false [] [] None))
     "Terminal" true 3 (Probe.world [])).1
  = Raise (RTTBridgeError
             "Unexpected error while searching for buffer 'Terminal': RTT is not active. Ensure RTT has been started successfully.").
Proof. vm_compute. reflexivity. Qed.

Example zero_size_is_rewrapped :
  (@find_buffer_by_name _
     (Probe.api (Probe.mk true true true true true [BufDesc.mk (NameStr "Terminal") 0] [] None))
     "Terminal" true 3 (Probe.world [])).1
  = Raise (RTTBridgeError
             "Unexpected error while searching for buffer 'Terminal': Buffer 'Terminal' has invalid size (0)").
Proof. vm_compute. reflexivity. Qed.

(** ** The relay loop *)

Section RelayFacts.

Context {J : Type} `{JLinkLike J}.

Lemma relay_loop_step (fuel : nat) (bidir : bool) (iu id mfd ce : Z) (w0 w : World J) :
  loop_test_passes w0 w ->
  relay_loop (S fuel) bidir iu id mfd ce w0
  = match relay_iteration bidir iu id mfd ce w with
    | (Ok (Next ce'), w') => relay_loop fuel bidir iu id mfd ce' w'
    | (Ok (Break _), w') => (Ok (Go tt), w')
    | (Raise e, w') => (Raise e, w')
    end.
Proof.
  intros [Ha Hd]. cbn [relay_loop]. unfold bind at 1. rewrite Ha.
  unfold bind at 1, read_do_exit. rewrite Hd. unfold bind at 1.
  destruct (relay_iteration bidir iu id mfd ce w) as [[[ce'|ce']|e] w']; reflexivity.
Qed.

(** Case analysis on an innermost scrutinee of the goal. *)
Ltac break_match :=
  match goal with
  | |- context [match ?x with _ => _ end] =>
      lazymatch x with
      | context [match _ with _ => _ end] => fail
      | _ => destruct x eqn:?
      end
  end.

Ltac run_steps :=
  unfold try_except, bind, jcall, with_os, eprint, print, emit, ret, raise, sleep;
  repeat (break_match; cbn [jl os clock do_exit handled sigsched log fst snd]).

Ltac close_extension :=
  cbn [jl os clock do_exit handled sigsched log fst snd];
  rewrite <- ?app_assoc; first [reflexivity | symmetry; apply app_nil_r].

(** The parts of an iteration only add to the record of events. *)
Lemma up_direction_extends (iu mfd ce : Z) (w : World J) :
  exists tail, log (up_direction iu mfd ce w).2 = log w ++ tail.
Proof.
  unfold up_direction. run_steps; eexists; close_extension.
Qed.

Lemma forward_down_extends (id : Z) (data : list Byte.byte) (w : World J) :
  exists tail, log (forward_down id data w).2 = log w ++ tail.
Proof.
  unfold forward_down. run_steps; eexists; close_extension.
Qed.

Lemma down_direction_extends (bidir : bool) (id mfd : Z) (w : World J) :
  exists tail, log (down_direction bidir id mfd w).2 = log w ++ tail.
Proof.
  unfold down_direction, forward_down. run_steps; eexists; close_extension.
Qed.

(** The Session Guard proper: [verify_jlink_connection] asks the open flag,
    the connected flag, the target flag and the identity in this order and
    stops at the first failure, which it reports by an exception; it prints
    nothing. *)
Lemma verify_jlink_connection_order (w : World J) :
  let o := jl_opened (jl w) in
  let c := jl_connected o.2 in
  let t := jl_target_connected c.2 in
  let p := jl_product_name t.2 in
  let n := jl_serial_number p.2 in
  log (verify_jlink_connection w).2 = log w ++ verify_events o.1 c.1 t.1 p.1
  /\ (if verify_passes o.1 c.1 t.1 p.1 n.1
      then (verify_jlink_connection w).1 = Ok tt
      else exists e, (verify_jlink_connection w).1 = Raise e).
Proof.
  unfold verify_jlink_connection, try_except, bind, jcall, raise, ret.
  destruct (jl_opened (jl w)) as [[[|]|e1] j1]; cbn;
    [destruct (jl_connected j1) as [[[|]|e2] j2]; cbn;
       [destruct (jl_target_connected j2) as [[[|]|e3] j3]; cbn;
          [destruct (jl_product_name j3) as [[s|e4] j4]; cbn;
             [destruct (jl_serial_number j4) as [[n|e5] j5]; cbn|]|..]|..]|..];
    try (destruct e1 as [m|m|m|m|errno m|m|m|m]; cbn);
    try (destruct e2 as [m|m|m|m|errno m|m|m|m]; cbn);
    try (destruct e3 as [m|m|m|m|errno m|m|m|m]; cbn);
    (split; [rewrite <- ?app_assoc; reflexivity|eauto]).
Qed.

(** C2, as amended.  Each iteration of the loop opens with a lighter check
    than the Session Guard of [verify_jlink_connection] (open flag,
    connected flag, target flag, identity, in this order, stopping at the
    first failure): it asks the probe-connected flag and, only if that is
    true, the target-connected flag; the probe-open flag and the identity
    are not asked.  These queries are the first events of the iteration.
    If either flag is false or either query raises, a line goes to standard
    error, the iteration ends in [break], the loop is left, and what follows
    the loop is the teardown. *)
Theorem relay_iteration_guard
  (fuel : nat) (bidir : bool) (iu id mfd sfd ce : Z) (path : option string)
  (w0 w : World J) :
  loop_test_passes w0 w ->
  let c := jl_connected (jl w) in
  let t := jl_target_connected c.2 in
  exists w1,
    connection_check w = (Ok (guard_passes c.1 t.1), w1)
    /\ log w1 = log w ++ guard_events c.1 t.1
    /\ (exists tail,
          log (relay_iteration bidir iu id mfd ce w).2
          = log w ++ guard_events c.1 t.1 ++ tail)
    /\ (guard_passes c.1 t.1 = false ->
        relay_iteration bidir iu id mfd ce w = (Ok (Break ce), w1)
        /\ relay_loop (S fuel) bidir iu id mfd ce w0 = (Ok (Go tt), w1)
        /\ main_after_loop mfd sfd path (relay_loop (S fuel) bidir iu id mfd ce w0).1 w1
           = (teardown true (Some mfd) (Some sfd) path ;; ret (Go 0)) w1)
    /\ (let o := jl_opened (jl w) in
        let c' := jl_connected o.2 in
        let t' := jl_target_connected c'.2 in
        let p := jl_product_name t'.2 in
        let n := jl_serial_number p.2 in
        log (verify_jlink_connection w).2 = log w ++ verify_events o.1 c'.1 t'.1 p.1
        /\ (if verify_passes o.1 c'.1 t'.1 p.1 n.1
            then (verify_jlink_connection w).1 = Ok tt
            else exists e, (verify_jlink_connection w).1 = Raise e)).
Proof.
  intros Hpass c t.
  assert (exists w1, connection_check w = (Ok (guard_passes c.1 t.1), w1)
                     /\ log w1 = log w ++ guard_events c.1 t.1) as (w1 & Hc & Hl).
  { subst c t. unfold connection_check, try_except, bind, jcall, eprint, emit, ret.
    destruct (jl_connected (jl w)) as [[[|]|e] j1]; simpl;
      [destruct (jl_target_connected j1) as [[[|]|e] j2]; simpl|..];
      eexists; (split; [reflexivity|]); simpl;
      rewrite <- ?app_assoc; reflexivity. }
  exists w1. split; [exact Hc|]. split; [exact Hl|]. split; [|split].
  - unfold relay_iteration, bind at 1. rewrite Hc.
    destruct (guard_passes c.1 t.1); cbn [negb].
    + unfold bind at 1.
      destruct (up_direction_extends iu mfd ce w1) as [tu Hu].
      destruct (up_direction iu mfd ce w1) as [[[ce'|ce'|ce']|e] w2]; cbn [snd] in *.
      * unfold bind at 1.
        destruct (down_direction_extends bidir id mfd w2) as [td Hd].
        destruct (down_direction bidir id mfd w2) as [[[|]|e] w3]; cbn [snd] in *;
          exists (tu ++ td); unfold ret; cbn [snd];
          rewrite Hd, Hu, Hl, <- !app_assoc; reflexivity.
      * exists tu. unfold ret. cbn [snd]. rewrite Hu, Hl, <- !app_assoc. reflexivity.
      * exists tu. unfold ret. cbn [snd]. rewrite Hu, Hl, <- !app_assoc. reflexivity.
      * exists tu. cbn [snd]. rewrite Hu, Hl, <- !app_assoc. reflexivity.
    + exists []. unfold ret. cbn [snd]. rewrite Hl, app_nil_r. reflexivity.
  - intros Hfail.
    assert (Hi : relay_iteration bidir iu id mfd ce w = (Ok (Break ce), w1)).
    { unfold relay_iteration, bind at 1. rewrite Hc, Hfail. reflexivity. }
    assert (Hloop : relay_loop (S fuel) bidir iu id mfd ce w0 = (Ok (Go tt), w1)).
    { rewrite (relay_loop_step _ _ _ _ _ _ _ _ Hpass), Hi. reflexivity. }
    split; [exact Hi|]. split; [exact Hloop|].
    rewrite Hloop. reflexivity.
  - apply verify_jlink_connection_order.
Qed.

Lemma relay_iteration_counter
  (bidir : bool) (iu id mfd ce : Z) (w w' : World J) (e : iter_end) :
  relay_iteration bidir iu id mfd ce w = (Ok e, w') ->
  (connection_check w).1 = Ok false /\ counter_of e = ce
  \/ (connection_check w).1 = Ok true
     /\ exists u w2, up_direction iu mfd ce (connection_check w).2 = (Ok u, w2)
                     /\ counter_of e = up_counter u.
Proof.
  unfold relay_iteration, bind.
  destruct (connection_check w) as [[[|]|ex] w1]; cbn [negb fst snd].
  - destruct (up_direction iu mfd ce w1) as [[u|ex] w2]; [|discriminate].
    intros Hr. right. split; [reflexivity|]. exists u, w2. split; [reflexivity|].
    destruct u as [c|c|c]; [|by inversion Hr..].
    destruct (down_direction bidir id mfd w2) as [[[|]|ex] w3];
      by inversion Hr.
  - intros [= <- <-]. left. split; reflexivity.
  - discriminate.
Qed.

Lemma os_write_raises (fd : Z) (data : list Byte.byte) (o o' : OS) (e : exn) :
  Os.write fd data o = (Raise e, o') -> exists errno, e = Os.error errno.
Proof.
  unfold Os.write. destruct (fds o !! fd); [|intros [= <- <-]; eauto].
  destruct (io o) as [|[n|d|r|errno] rest]; intros [= <- <-] || intros [=]; eauto.
Qed.

(** The ways the up-direction part can end, from what [rtt_read] and
    [os.write] answer. *)
Lemma up_direction_cases (iu mfd ce : Z) (w : World J) :
  match jl_rtt_read iu 4096 (jl w) with
  | (Ok [], j') =>
      up_direction iu mfd ce w
      = (Ok (UpDone ce),
         mkWorld j' (os w) (clock w) (do_exit w) (handled w) (sigsched w)
                 (log w ++ [EvJLink (JRttRead iu 4096)]))
  | (Ok data, _) =>
      match Os.write mfd data (os w) with
      | (Ok _, _) => (up_direction iu mfd ce w).1 = Ok (UpDone 0)
      | (Raise e, _) =>
          exists errno,
            e = Os.error errno
            /\ (up_direction iu mfd ce w).1
               = if errno =? EBADF then Ok (UpBreak ce) else Raise e
      end
  | (Raise (JLinkRTTException _), _) => (up_direction iu mfd ce w).1 = Ok (UpDone 0)
  | (Raise (JLinkException _), _) =>
      (up_direction iu mfd ce w).1
      = Ok (if ce + 1 >=? max_consecutive_errors then UpBreak (ce + 1)
            else UpContinue (ce + 1))
  | (Raise e, _) => (up_direction iu mfd ce w).1 = Raise e
  end.
Proof.
  unfold up_direction, try_except, bind, jcall, with_os, eprint, emit, ret, raise, sleep.
  destruct (jl_rtt_read iu 4096 (jl w)) as [[[|b data]|ex] j']; cbn [is_nil negb os].
  - reflexivity.
  - destruct (Os.write mfd (b :: data) (os w)) as [[n|ex] o'] eqn:Hw.
    + destruct (negb (n =? Os.len (b :: data))); reflexivity.
    + destruct (os_write_raises _ _ _ _ _ Hw) as [errno ->].
      exists errno. split; [reflexivity|]. unfold Os.error.
      destruct (errno =? EBADF); reflexivity.
  - destruct ex as [m|m|m|m|errno m|m|m|m]; try reflexivity.
    destruct (ce + 1 >=? max_consecutive_errors); reflexivity.
Qed.

(** C10.  Once the guard has passed, an [rtt_read] that returns an empty
    chunk without raising leaves [consecutive_errors] as it was.  The counter
    is set to zero when [rtt_read] raises [JLinkRTTException] (no data) and
    when a non-empty chunk has been read and [os.write] on the PTY master
    has returned; and an iteration that starts with a positive counter ends
    with the counter at zero only in these two cases. *)
Theorem consecutive_errors_reset
  (bidir : bool) (iu id mfd ce : Z) (w : World J) :
  let w1 := (connection_check w).2 in
  (forall j', jl_rtt_read iu 4096 (jl w1) = (Ok [], j') ->
     up_direction iu mfd ce w1
     = (Ok (UpDone ce),
        mkWorld j' (os w1) (clock w1) (do_exit w1) (handled w1) (sigsched w1)
                (log w1 ++ [EvJLink (JRttRead iu 4096)]))
     /\ forall e w', relay_iteration bidir iu id mfd ce w = (Ok e, w') -> counter_of e = ce)
  /\ (forall detail j',
        jl_rtt_read iu 4096 (jl w1) = (Raise (JLinkRTTException detail), j') ->
        (up_direction iu mfd ce w1).1 = Ok (UpDone 0))
  /\ (forall data j' n o',
        jl_rtt_read iu 4096 (jl w1) = (Ok data, j') ->
        data <> [] ->
        Os.write mfd data (os w1) = (Ok n, o') ->
        (up_direction iu mfd ce w1).1 = Ok (UpDone 0))
  /\ (forall e w',
        relay_iteration bidir iu id mfd ce w = (Ok e, w') ->
        0 < ce -> counter_of e = 0 ->
        (exists detail j',
            jl_rtt_read iu 4096 (jl w1) = (Raise (JLinkRTTException detail), j'))
        \/ (exists data j' n o',
               jl_rtt_read iu 4096 (jl w1) = (Ok data, j')
               /\ data <> []
               /\ Os.write mfd data (os w1) = (Ok n, o'))).
Proof.
  intros w1. pose proof (up_direction_cases iu mfd ce w1) as Hcases.
  split; [|split; [|split]].
  - intros j' Hr. rewrite Hr in Hcases. split; [exact Hcases|].
    intros e w' Hi.
    destruct (relay_iteration_counter _ _ _ _ _ _ _ _ Hi)
      as [[_ Hc]|(_ & u & w2 & Hu & Hc)]; [exact Hc|].
    fold w1 in Hu. rewrite Hcases in Hu. inversion Hu; subst. exact Hc.
  - intros detail j' Hr. rewrite Hr in Hcases. exact Hcases.
  - intros data j' n o' Hr Hdata Hw. rewrite Hr in Hcases.
    destruct data as [|b data]; [congruence|]. rewrite Hw in Hcases. exact Hcases.
  - intros e w' Hi Hpos Hzero.
    destruct (relay_iteration_counter _ _ _ _ _ _ _ _ Hi)
      as [[_ Hc]|(_ & u & w2 & Hu & Hc)]; [lia|].
    fold w1 in Hu. rewrite Hzero in Hc.
    destruct (jl_rtt_read iu 4096 (jl w1)) as [[[|b data]|ex] j'] eqn:Hr.
    + rewrite Hcases in Hu. inversion Hu; subst. simpl in Hc. lia.
    + right. exists (b :: data), j'.
      destruct (Os.write mfd (b :: data) (os w1)) as [[n|ex] o'] eqn:Hw.
      * exists n, o'. repeat split. discriminate.
      * exfalso. destruct Hcases as (errno & -> & Hcases).
        rewrite Hu in Hcases. simpl in Hcases.
        destruct (errno =? EBADF); [|discriminate].
        inversion Hcases; subst. simpl in Hc. lia.
    + rewrite Hu in Hcases. simpl in Hcases.
      destruct ex as [m|m|m|m|errno m|m|m|m]; try discriminate.
      * exfalso. inversion Hcases; subst.
        unfold max_consecutive_errors in Hc.
        destruct (ce + 1 >=? 10); simpl in Hc; lia.
      * left. eauto.
Qed.

(** C7, as amended.  In bidirectional mode, when operator input has been
    read from the PTY master and [rtt_write] raises, what follows depends on
    the exception.  A [JLinkRTTException] is a warning: the iteration
    prints "Warning: Failed to write to RTT buffer: ..." on standard error
    and ends normally, and the loop goes on to its next test with the
    counter the up-direction part left.  An [OSError] with errno EBADF or
    EIO is caught by the clause around the read of the PTY (line 655): a
    line is printed and the loop is left by [break], to the teardown.  Any
    other exception is caught by no clause of the iteration: it leaves the
    loop, is reported by the clause of line 674, and the teardown
    follows. *)
Theorem down_write_error_outcomes
  (fuel : nat) (iu id mfd sfd ce ce' : Z) (symlink_path : option string)
  (w0 w w1 w2 : World J) (o3 o4 : OS)
  (data : list Byte.byte) (e : exn) (j5 : J) :
  loop_test_passes w0 w ->
  0 <= id ->
  connection_check w = (Ok true, w1) ->
  up_direction iu mfd ce w1 = (Ok (UpDone ce'), w2) ->
  Os.select mfd (os w2) = (Ok true, o3) ->
  Os.read mfd 4096 o3 = (Ok data, o4) ->
  data <> [] ->
  jl_rtt_write id data (jl w2) = (Raise e, j5) ->
  let after (said : list event) :=
    mkWorld j5 o4 (clock w2) (do_exit w2) (handled w2) (sigsched w2)
            (log w2 ++ EvJLink (JRttWrite id data) :: said) in
  let warned (line : string) :=
    relay_iteration true iu id mfd ce w = (Ok (Next ce'), after [stderr_line line])
    /\ relay_loop (S fuel) true iu id mfd ce w0
       = relay_loop fuel true iu id mfd ce' (after [stderr_line line]) in
  let broke (line : string) :=
    relay_iteration true iu id mfd ce w = (Ok (Break ce'), after [stderr_line line])
    /\ relay_loop (S fuel) true iu id mfd ce w0 = (Ok (Go tt), after [stderr_line line])
    /\ main_after_loop mfd sfd symlink_path (Ok (Go tt)) (after [stderr_line line])
       = (teardown true (Some mfd) (Some sfd) symlink_path ;; ret (Go 0))
           (after [stderr_line line]) in
  let escaped :=
    relay_iteration true iu id mfd ce w = (Raise e, after [])
    /\ relay_loop (S fuel) true iu id mfd ce w0 = (Raise e, after [])
    /\ main_after_loop mfd sfd symlink_path (Raise e) (after [])
       = (teardown true (Some mfd) (Some sfd) symlink_path ;; ret (Go 0))
           (mkWorld j5 o4 (clock w2) (do_exit w2) (handled w2) (sigsched w2)
                    (log w2 ++ [EvJLink (JRttWrite id data);
                                stderr_line (nl +:+ "Unexpected error in main loop: "
                                             +:+ str_exn e);
                                EvTraceback])) in
  match e with
  | JLinkRTTException detail =>
      warned (nl +:+ "Warning: Failed to write to RTT buffer: " +:+ detail)
  | OSError errno _ =>
      if errno =? EBADF then broke (nl +:+ "Error: PTY file descriptor invalid")
      else if errno =? EIO then broke (nl +:+ "PTY closed by slave")
      else escaped
  | _ => escaped
  end.
Proof.
  intros Hpass Hid Hc Hu Hsel Hread Hdata Hwrite after warned broke escaped.
  assert (Hstep : relay_loop (S fuel) true iu id mfd ce w0
                  = match relay_iteration true iu id mfd ce w with
                    | (Ok (Next c), w') => relay_loop fuel true iu id mfd c w'
                    | (Ok (Break _), w') => (Ok (Go tt), w')
                    | (Raise ex, w') => (Raise ex, w')
                    end)
    by exact (relay_loop_step _ _ _ _ _ _ _ _ Hpass).
  assert (Hi : relay_iteration true iu id mfd ce w
               = match forward_down id data
                         (mkWorld (jl w2) o4 (clock w2) (do_exit w2) (handled w2)
                                  (sigsched w2) (log w2)) with
                 | (Ok DownDone, w') => (Ok (Next ce'), w')
                 | (Ok DownBreak, w') => (Ok (Break ce'), w')
                 | (Raise (OSError errno m), w') =>
                     if errno =? EBADF then
                       (Ok (Break ce'),
                        (eprint (nl +:+ "Error: PTY file descriptor invalid") w').2)
                     else if errno =? EIO then
                       (Ok (Break ce'), (eprint (nl +:+ "PTY closed by slave") w').2)
                     else (Raise (OSError errno m), w')
                 | (Raise ex, w') => (Raise ex, w')
                 end).
  { unfold relay_iteration, bind. rewrite Hc. cbn [negb]. rewrite Hu.
    unfold down_direction. replace (id >=? 0) with true by (symmetry; apply Z.geb_le; lia).
    cbn [andb]. unfold try_except, bind, with_os. rewrite Hsel. cbn [os].
    rewrite Hread. destruct data as [|b data]; [congruence|]. cbn [is_nil negb].
    destruct (forward_down id (b :: data) _) as [[[]|ex] w'].
    - reflexivity.
    - reflexivity.
    - destruct ex as [m|m|m|m|errno m|m|m|m]; try reflexivity.
      destruct (errno =? EBADF) eqn:Hb; [reflexivity|].
      destruct (errno =? EIO) eqn:Hio; [reflexivity|].
      unfold raise. by rewrite Hb. }
  assert (Hf : forward_down id data
                 (mkWorld (jl w2) o4 (clock w2) (do_exit w2) (handled w2)
                          (sigsched w2) (log w2))
               = match e with
                 | JLinkRTTException detail =>
                     (Ok DownDone,
                      after [stderr_line (nl +:+ "Warning: Failed to write to RTT buffer: "
                                          +:+ detail)])
                 | _ => (Raise e, after [])
                 end).
  { unfold forward_down, try_except, bind, jcall. cbn [jl].
    rewrite Hwrite. subst after.
    destruct e as [m|m|m|m|errno m|m|m|m]; unfold eprint, emit, ret;
      cbn [jl os clock do_exit handled sigsched log str_exn fst snd];
      rewrite <- ?app_assoc; reflexivity. }
  rewrite Hf in Hi. subst warned broke escaped. cbv beta.
  rewrite Hstep, Hi. clear Hstep Hi Hf.
  destruct e as [m|m|m|m|errno m|m|m|m];
    try (split; [reflexivity|split; [reflexivity|]];
         unfold main_after_loop, bind, eprint, emit; subst after;
         cbn [jl os clock do_exit handled sigsched log str_exn fst snd];
         rewrite <- ?app_assoc; reflexivity).
  - split; reflexivity.
  - destruct (errno =? EBADF); [|destruct (errno =? EIO)].
    + unfold eprint, emit. subst after.
      cbn [jl os clock do_exit handled sigsched log fst snd].
      rewrite <- ?app_assoc. split; [reflexivity|split; reflexivity].
    + unfold eprint, emit. subst after.
      cbn [jl os clock do_exit handled sigsched log fst snd].
      rewrite <- ?app_assoc. split; [reflexivity|split; reflexivity].
    + split; [reflexivity|split; [reflexivity|]].
      unfold main_after_loop, bind, eprint, emit. subst after.
      cbn [jl os clock do_exit handled sigsched log str_exn fst snd].
      rewrite <- ?app_assoc. reflexivity.
Qed.

(** C3, as amended.  While the three registrations of lines 593-595 are in
    force, the delivery of SIGINT, SIGTERM or SIGQUIT sets [do_exit] and
    prints one line, "Shutting down...", on standard error; the session,
    the descriptors and files, and the clock are left as they were. *)
Theorem signal_handler_effect (s : signal) (w : World J) :
  handled w = [SIGINT; SIGTERM; SIGQUIT] ->
  deliver s w
  = (Ok tt, mkWorld (jl w) (os w) (clock w) true (handled w) (sigsched w)
                    (log w ++ [stderr_line (nl +:+ "Shutting down...")])).
Proof.
  intros Hh. unfold deliver.
  replace (existsb (signal_eqb s) (handled w)) with true
    by (rewrite Hh; destruct s; reflexivity).
  reflexivity.
Qed.

(** *** Teardown *)

Lemma os_close_raises (fd : Z) (o o' : OS) (e : exn) :
  Os.close fd o = (Raise e, o') -> isinstance_OSError e = true.
Proof. unfold Os.close. destruct (fds o !! fd); intros [= <- <-]. reflexivity. Qed.

Lemma os_remove_raises (p : string) (o o' : OS) (e : exn) :
  Os.remove p o = (Raise e, o') -> isinstance_OSError e = true.
Proof.
  unfold Os.remove. destruct (fs o !! p) as [[| | |t]|]; try case_bool_decide;
    intros [= <- <-]; reflexivity.
Qed.

Lemma teardown_runs (jlink : bool) (master_fd slave_fd : option Z)
  (symlink_path : option string) (w : World J) :
  exists w1,
    teardown jlink master_fd slave_fd symlink_path w = (Ok tt, w1)
    /\ os w1 = os_teardown master_fd slave_fd symlink_path (os w).
Proof.
  unfold teardown, os_teardown, close_quiet, unlink_quiet.
  unfold bind at 1. unfold eprint at 1, emit at 1.
  set (wa := mkWorld _ _ _ _ _ _ _). change (os w) with (os wa). clearbody wa.
  (* stop RTT *)
  unfold bind at 1.
  assert (exists wb, (if jlink
                      then try_except (jcall JRttStop jl_rtt_stop)
                             (fun e => Some (eprint ("Warning: Failed to stop RTT: "
                                                     +:+ str_exn e)))
                      else ret tt) wa = (Ok tt, wb) /\ os wb = os wa) as (wb & -> & <-).
  { destruct jlink; [|eexists; split; reflexivity].
    unfold try_except, jcall, eprint, emit.
    destruct (jl_rtt_stop (jl wa)) as [[[]|e] j]; eexists; split; reflexivity. }
  (* close the master *)
  unfold bind at 1.
  assert (exists wc, match master_fd with
                     | Some fd =>
                         try_except (with_os (Os.close fd))
                           (fun e => if isinstance_OSError e then Some (ret tt) else None)
                     | None => ret tt
                     end wb = (Ok tt, wc)
                     /\ os wc = match master_fd with
                                | Some fd => (Os.close fd (os wb)).2
                                | None => os wb
                                end) as (wc & -> & <-).
  { destruct master_fd as [fd|]; [|eexists; split; reflexivity].
    unfold try_except, with_os.
    destruct (Os.close fd (os wb)) as [[[]|e] o'] eqn:Hc; [eexists; split; reflexivity|].
    rewrite (os_close_raises _ _ _ _ Hc). eexists; split; reflexivity. }
  (* close the slave *)
  unfold bind at 1.
  assert (exists wd, match slave_fd with
                     | Some fd =>
                         try_except (with_os (Os.close fd))
                           (fun e => if isinstance_OSError e then Some (ret tt) else None)
                     | None => ret tt
                     end wc = (Ok tt, wd)
                     /\ os wd = match slave_fd with
                                | Some fd => (Os.close fd (os wc)).2
                                | None => os wc
                                end) as (wd & -> & <-).
  { destruct slave_fd as [fd|]; [|eexists; split; reflexivity].
    unfold try_except, with_os.
    destruct (Os.close fd (os wc)) as [[[]|e] o'] eqn:Hc; [eexists; split; reflexivity|].
    rewrite (os_close_raises _ _ _ _ Hc). eexists; split; reflexivity. }
  (* remove the symlink *)
  unfold bind at 1.
  assert (exists we,
             match truthy_str symlink_path with
             | Some path =>
                 let! present := os_path_exists path in
                 if present then
                   try_except
                     (let! is_link := os_path_islink path in
                      if is_link then with_os (Os.remove path) else ret tt)
                     (fun e => if isinstance_OSError e
                               then Some (eprint ("Warning: Failed to remove symlink: "
                                                  +:+ str_exn e))
                               else None)
                 else ret tt
             | None => ret tt
             end wd = (Ok tt, we)
             /\ os we = match truthy_str symlink_path with
                        | Some path =>
                            if Os.path_exists path (os wd) && Os.path_islink path (os wd)
                            then (Os.remove path (os wd)).2 else os wd
                        | None => os wd
                        end) as (we & -> & <-).
  { destruct (truthy_str symlink_path) as [path|]; [|eexists; split; reflexivity].
    unfold bind at 1, os_path_exists.
    destruct (Os.path_exists path (os wd)); [|eexists; split; reflexivity].
    unfold try_except, bind, os_path_islink.
    destruct (Os.path_islink path (os wd)); [|eexists; split; reflexivity].
    unfold with_os.
    destruct (Os.remove path (os wd)) as [[[]|e] o'] eqn:Hr; [eexists; split; reflexivity|].
    rewrite (os_remove_raises _ _ _ _ Hr). eexists; split; reflexivity. }
  (* close the session *)
  destruct jlink; [|eexists; split; reflexivity].
  unfold try_except, jlink_close, jcall, eprint, emit.
  destruct (jl_close (jl we)) as [[[]|e] j]; eexists; split; reflexivity.
Qed.

Lemma close_quiet_os (fd : option Z) (o : OS) :
  close_quiet fd o
  = mkOS (delete_fd fd (fds o)) (release_node fd (fds o) (fs o))
         (ptys o) (io o) (rm_denied o).
Proof.
  destruct o as [f s p i r]. destruct fd as [fd|]; [|reflexivity].
  unfold close_quiet, Os.close, release_node, delete_fd. cbn [fds fs ptys io rm_denied].
  destruct (f !! fd) eqn:Hf; [reflexivity|].
  cbn [snd]. by rewrite delete_id.
Qed.

Lemma close_quiet_fds (fd : option Z) (o : OS) :
  fds (close_quiet fd o) = delete_fd fd (fds o).
Proof. by rewrite close_quiet_os. Qed.

(** Closing what is not open changes nothing. *)
Lemma close_quiet_absent (fd : option Z) (o : OS) :
  match fd with Some k => fds o !! k = None | None => True end ->
  close_quiet fd o = o.
Proof.
  intros Hk. destruct fd as [k|]; [|reflexivity].
  unfold close_quiet, Os.close. by rewrite Hk.
Qed.

Lemma unlink_quiet_fs (symlink_path : option string) (o : OS) :
  unlink_quiet symlink_path o
  = Os.set_fs (unlink_fs symlink_path (rm_denied o) (fs o)) o.
Proof.
  destruct o as [f s p i r]. unfold unlink_quiet, unlink_fs.
  destruct (truthy_str symlink_path) as [path|]; [|reflexivity].
  unfold Os.path_exists, Os.path_islink, Os.remove. cbn [fs rm_denied].
  destruct (Os.resolves 40 s path); [|reflexivity]. cbn [andb].
  destruct (s !! path) as [[| | |t]|]; try reflexivity.
  case_bool_decide; reflexivity.
Qed.

Lemma delete_fd_twice (m sl : option Z) (f : gmap Z fdesc) :
  delete_fd sl (delete_fd m (delete_fd sl (delete_fd m f)))
  = delete_fd sl (delete_fd m f).
Proof.
  apply map_eq. intros k. unfold delete_fd.
  destruct sl as [sf|], m as [mf|];
    repeat (rewrite lookup_delete; case_decide); first [reflexivity|congruence].
Qed.

Lemma unlink_fs_twice (symlink_path : option string) (denied : gset string)
  (s : gmap string node) :
  unlink_fs symlink_path denied (unlink_fs symlink_path denied s)
  = unlink_fs symlink_path denied s.
Proof.
  unfold unlink_fs. destruct (truthy_str symlink_path) as [path|]; [|reflexivity].
  destruct (Os.resolves 40 s path) eqn:Hex; [|by rewrite Hex].
  destruct (s !! path) as [[| | |t]|] eqn:Hl; try (by rewrite Hex, Hl).
  case_bool_decide as Hd.
  - by rewrite Hex, Hl.
  - assert (Hgone : Os.resolves 40 (delete path s) path = false).
    { cbn [Os.resolves]. by rewrite lookup_delete_eq. }
    by rewrite Hgone.
Qed.

Lemma unlink_quiet_fds (symlink_path : option string) (o : OS) :
  fds (unlink_quiet symlink_path o) = fds o.
Proof. by rewrite unlink_quiet_fs. Qed.

Lemma unlink_quiet_twice (symlink_path : option string) (o : OS) :
  unlink_quiet symlink_path (unlink_quiet symlink_path o) = unlink_quiet symlink_path o.
Proof.
  rewrite !unlink_quiet_fs. destruct o as [f s p i r]. unfold Os.set_fs.
  cbn [fds fs ptys io rm_denied]. by rewrite unlink_fs_twice.
Qed.

Lemma os_teardown_idempotent (master_fd slave_fd : option Z) (symlink_path : option string)
  (o : OS) :
  os_teardown master_fd slave_fd symlink_path
    (os_teardown master_fd slave_fd symlink_path o)
  = os_teardown master_fd slave_fd symlink_path o.
Proof.
  unfold os_teardown.
  set (o1 := close_quiet slave_fd (close_quiet master_fd o)).
  assert (Hfds : fds (unlink_quiet symlink_path o1)
                 = delete_fd slave_fd (delete_fd master_fd (fds o))).
  { subst o1. by rewrite unlink_quiet_fds, !close_quiet_fds. }
  assert (Hm : close_quiet master_fd (unlink_quiet symlink_path o1)
               = unlink_quiet symlink_path o1).
  { apply close_quiet_absent. destruct master_fd as [mf|]; [|exact I].
    rewrite Hfds. unfold delete_fd.
    destruct slave_fd as [sf|];
      repeat (rewrite lookup_delete; case_decide); first [reflexivity|congruence]. }
  rewrite Hm.
  assert (Hs : close_quiet slave_fd (unlink_quiet symlink_path o1)
               = unlink_quiet symlink_path o1).
  { apply close_quiet_absent. destruct slave_fd as [sf|]; [|exact I].
    rewrite Hfds. unfold delete_fd.
    destruct master_fd as [mf|];
      repeat (rewrite lookup_delete; case_decide); first [reflexivity|congruence]. }
  rewrite Hs. apply unlink_quiet_twice.
Qed.

(** C4.  The teardown sequence returns without raising, and so does a
    second run right after it; the second run finds the descriptors closed
    (the [OSError] of [os.close] is swallowed) and nothing left for it to
    remove, and leaves descriptors and paths exactly as the first run left
    them. *)
Theorem teardown_twice (jlink : bool) (master_fd slave_fd : option Z)
  (symlink_path : option string) (w : World J) :
  exists w1 w2,
    teardown jlink master_fd slave_fd symlink_path w = (Ok tt, w1)
    /\ teardown jlink master_fd slave_fd symlink_path w1 = (Ok tt, w2)
    /\ os w2 = os w1.
Proof.
  destruct (teardown_runs jlink master_fd slave_fd symlink_path w) as (w1 & H1 & Ho1).
  destruct (teardown_runs jlink master_fd slave_fd symlink_path w1) as (w2 & H2 & Ho2).
  exists w1, w2. split; [exact H1|]. split; [exact H2|].
  rewrite Ho2, Ho1. apply os_teardown_idempotent.
Qed.

End RelayFacts.

(** ** The whole program *)

Example run_until_signal :
  let w := mkWorld [] Probe.empty_os 0 false [] [None; Some SIGTERM] [] in
  let r := @main _ (Probe.api Probe.live) 5 Probe.default_args w in
  r.1 = Some 0 /\
  output Stderr (log r.2) = [nl +:+ "Shutting down..."; "Cleaning up..."] /\
  fds (os r.2) = ∅.
Proof. vm_compute. repeat split; reflexivity. Qed.

Section MainFacts.

Context {J : Type} `{JLinkLike J}.

Lemma validate_speed_ok (n v : Z) : validate_speed n = Ok v -> 5 <= n <= 50000.
Proof.
  unfold validate_speed.
  destruct (n <? 5) eqn:Hlo; [discriminate|].
  destruct (n >? 50000) eqn:Hhi; [discriminate|].
  intros _. apply Z.ltb_ge in Hlo. rewrite Z.gtb_ltb in Hhi. apply Z.ltb_ge in Hhi. lia.
Qed.

Lemma validate_speed_raises (n : Z) (e : exn) :
  validate_speed n = Raise e -> exists m, e = ValueError m.
Proof.
  unfold validate_speed. destruct (n <? 5); [intros [= <-]; eauto|].
  destruct (n >? 50000); [intros [= <-]; eauto|discriminate].
Qed.

Lemma parse_range_numbers_raises (t a b : string) (e : exn) :
  parse_range_numbers t a b = Raise e -> exists m, e = ValueError m.
Proof.
  unfold parse_range_numbers.
  destruct (parse_range_number a); [|intros [= <-]; eauto].
  destruct (parse_range_number b); [discriminate|intros [= <-]; eauto].
Qed.

(** Every failure of [parse_address] is a [ValueError], the one exception
    [main] catches around it. *)
Lemma parse_address_raises (s : string) (e : exn) :
  parse_address s = Raise e -> exists m, e = ValueError m.
Proof.
  unfold parse_address.
  destruct (Py.is_empty s || Py.is_empty (Py.strip s)); [intros [= <-]; eauto|].
  destruct (Py.contains_char comma (Py.strip s)).
  - destruct (Py.split_char comma (Py.strip s)) as [|p0 [|p1 [|p2 ps]]];
      try (intros [= <-]; eauto; fail).
    destruct (Py.is_empty (Py.strip p0) || Py.is_empty (Py.strip p1));
      [intros [= <-]; eauto|].
    destruct (parse_range_numbers (Py.strip s) (Py.strip p0) (Py.strip p1))
      as [[start size]|e'] eqn:Hn.
    + destruct (start <? 0); [intros [= <-]; eauto|].
      destruct (size <=? 0); [intros [= <-]; eauto|].
      destruct (size >? 4294967295); [intros [= <-]; eauto|discriminate].
    + intros [= <-]. eapply parse_range_numbers_raises, Hn.
  - destruct (parse_single_number (Py.strip s)) as [addr|e']; [|intros [= <-]; eauto].
    destruct (addr <? 0); [intros [= <-]; eauto|].
    destruct (addr >? 18446744073709551615); [intros [= <-]; eauto|discriminate].
Qed.

(** C8, as amended.  If the speed is below 5 or above 50000, or a
    non-empty address string is given that [parse_address] rejects, or the
    buffer name is empty or blank, then [main] prints one line on standard
    error and returns 1, for every loop bound; nothing else happens: no
    call is made on the probe SDK, and session, descriptors, paths and
    clock are untouched. *)
Theorem main_rejects_invalid_arguments (fuel : nat) (args : Args) (w : World J) :
  speed args < 5 \/ 50000 < speed args
  \/ (exists a e, address args = Some a /\ a <> EmptyString /\ parse_address a = Raise e)
  \/ Py.is_empty (Py.strip (buffer args)) = true ->
  exists message,
    main fuel args w
    = (Some 1, mkWorld (jl w) (os w) (clock w) (do_exit w) (handled w) (sigsched w)
                       (log w ++ [stderr_line message]))
    /\ hardware_ops (log (main fuel args w).2) = hardware_ops (log w).
Proof.
  intros Hbad.
  assert (exists message,
             main_validate args w
             = (Ok (Return 1),
                mkWorld (jl w) (os w) (clock w) (do_exit w) (handled w) (sigsched w)
                        (log w ++ [stderr_line message]))) as [message Hv].
  { unfold main_validate, and_then, try_except, lift_result, bind, raise, ret, eprint, emit.
    destruct (validate_speed (speed args)) as [v|e] eqn:Hs.
    2:{ destruct (validate_speed_raises _ _ Hs) as [m ->]. eexists; reflexivity. }
    apply validate_speed_ok in Hs.
    destruct (truthy_str (address args)) as [a|] eqn:Ha.
    - destruct (parse_address a) as [r|e] eqn:Hp.
      2:{ destruct (parse_address_raises _ _ Hp) as [m ->]. eexists; reflexivity. }
      destruct Hbad as [Hlo|[Hhi|[(a' & e & Ha' & Hne & Hp')|Hb]]]; [lia|lia|..].
      + rewrite Ha' in Ha. cbn [truthy_str] in Ha.
        destruct a' as [|c a']; [congruence|]. cbn [Py.is_empty] in Ha.
        injection Ha as <-. congruence.
      + rewrite Hb, orb_true_r. eexists; reflexivity.
    - destruct Hbad as [Hlo|[Hhi|[(a' & e & Ha' & Hne & Hp')|Hb]]]; [lia|lia|..].
      + rewrite Ha' in Ha. cbn [truthy_str] in Ha.
        destruct a' as [|c a']; [congruence|]. discriminate Ha.
      + rewrite Hb, orb_true_r. eexists; reflexivity. }
  exists message. unfold main. rewrite Hv. split; [reflexivity|].
  cbn [snd log]. unfold hardware_ops. rewrite omap_app. cbn. apply app_nil_r.
Qed.

Lemma print_buffers_total (w : World J) :
  exists b w', print_buffers w = (Ok b, w').
Proof.
  unfold print_buffers, try_except.
  match goal with |- context [match ?body w with _ => _ end] => destruct (body w) as [[b|e] w'] end;
    eauto.
Qed.

(** C6, as amended.  Take an invocation whose arguments pass validation,
    whose startup (session opened, connected and verified, RTT started and
    found active) succeeds, and which does not ask for the listing only.
    If the search for the up-buffer comes back not found, the process
    prints "Error: Failed to find matching up-buffer '<name>'" and the
    header "Available buffers:" on standard error, runs [print_buffers],
    closes the probe session, and exits with status 1. *)
Theorem main_up_buffer_not_found
  (fuel : nat) (args : Args) (w w0 w1 w2 : World J) (index : Z) (desc : option BufDesc.t) :
  main_validate args w = (Ok (Go tt), w0) ->
  main_startup fuel args w0 = (Ok (Go tt), w1) ->
  print_bufs args = false ->
  find_buffer_by_name (buffer args) true 3 w1 = (Ok (index, desc), w2) ->
  index < 0 ->
  let w3 :=
    mkWorld (jl w2) (os w2) (clock w2) (do_exit w2) (handled w2) (sigsched w2)
            (log w2 ++ [stderr_line ("Error: Failed to find matching up-buffer '"
                                     +:+ buffer args +:+ "'")]
                    ++ [stderr_line (nl +:+ "Available buffers:")]) in
  exists w5 rest,
    main fuel args w = (Some 1, w5)
    /\ log w5 = log (print_buffers w3).2 ++ EvJLink JClose :: rest
    /\ hardware_ops rest = [].
Proof.
  intros Hv Hs Hpb Hf Hneg w3.
  unfold main. rewrite Hv.
  unfold try_except, main_session, and_then. unfold bind at 1. rewrite Hs.
  unfold bind at 1, main_print_bufs. rewrite Hpb. unfold ret at 1.
  unfold bind at 1, main_find, bind at 1, try_except, bind at 1. rewrite Hf.
  unfold ret at 1. replace (index <? 0) with true by (symmetry; apply Z.ltb_lt; lia).
  unfold report_unavailable, direction_word.
  unfold bind at 1. unfold eprint at 1, emit at 1.
  unfold bind at 1. unfold eprint at 1, emit at 1. cbn [jl os clock do_exit handled sigsched log].
  fold (stderr_line ("Error: Failed to find matching " +:+ "up" +:+ "-buffer '"
                     +:+ buffer args +:+ "'")).
  fold (stderr_line (nl +:+ "Available buffers:")).
  change ("Error: Failed to find matching " +:+ "up" +:+ "-buffer '" +:+ buffer args +:+ "'")
    with ("Error: Failed to find matching up-buffer '" +:+ buffer args +:+ "'").
  rewrite <- app_assoc. fold w3.
  destruct (print_buffers_total w3) as (b & w4 & Hp).
  unfold bind at 1. rewrite Hp. cbn [snd].
  unfold bind at 1, jlink_close, jcall.
  destruct (jl_close (jl w4)) as [[[]|e] j5].
  - unfold ret. cbn. do 2 eexists. split; [reflexivity|].
    split; [reflexivity|reflexivity].
  - unfold main_handlers, bind, eprint, emit, ret.
    destruct e; cbn; do 2 eexists; (split; [reflexivity|]);
      (split; [cbn; rewrite <- ?app_assoc; reflexivity|reflexivity]).
Qed.

End MainFacts.

(** ** The properties at concrete runs *)

Lemma relay_iteration_guard_witness :
  let w := Runs.active [] [] in
  exists w1,
    @relay_loop _ (Probe.api Runs.target_lost) 1 false 0 (-1) 3 0 w = (Ok (Go tt), w1)
    /\ log w1 = [EvJLink JConnected; EvJLink JTargetConnected;
                 stderr_line (nl +:+ "Error: Connection lost")]
    /\ @main_after_loop _ (Probe.api Runs.target_lost) 3 4 None (Ok (Go tt)) w1
       = (@teardown _ (Probe.api Runs.target_lost) true (Some 3) (Some 4) None ;; ret (Go 0)) w1.
Proof.
  intros w.
  destruct (@relay_iteration_guard _ (Probe.api Runs.target_lost) 0 false 0 (-1) 3 4 0 None w w)
    as (w1 & Hc & Hl & _ & Hfail & _); [split; reflexivity|].
  destruct (Hfail eq_refl) as (Hi & Hloop & Hafter).
  exists w1. split; [exact Hloop|]. split; [exact Hl|].
  rewrite Hloop in Hafter. exact Hafter.
Defined.

(** C2, as stated, fails: with the probe-open flag false, the Session Guard
    refuses the session, yet an iteration of the loop asks only the two
    connection flags, goes on to read the up-buffer, and does not break. *)
Lemma relay_iteration_guard_counterexample :
  let w := Runs.active [] [] in
  (@verify_jlink_connection _ (Probe.api Runs.not_open) w).1
  = Raise (RTTBridgeError "J-Link DLL is not open")
  /\ exists w',
      @relay_iteration _ (Probe.api Runs.not_open) false 0 (-1) 3 0 w = (Ok (Next 0), w')
      /\ log w' = [EvJLink JConnected; EvJLink JTargetConnected;
                   EvJLink (JRttRead 0 4096); EvSleep 100].
Proof.
  split; [reflexivity|]. eexists. split; reflexivity.
Qed.

Lemma signal_handler_effect_witness :
  let w := Runs.active [] [] in
  deliver SIGTERM w
  = (Ok tt, mkWorld (jl w) (os w) (clock w) true (handled w) (sigsched w)
                    (log w ++ [stderr_line (nl +:+ "Shutting down...")])).
Proof.
  intros w. apply (signal_handler_effect SIGTERM w). reflexivity.
Defined.

(** C3, as stated, fails: the handler does more than set the flag, it
    writes a line to standard error. *)
Lemma signal_handler_counterexample :
  let w := Runs.active [] [] in
  let w' := (deliver SIGINT w).2 in
  w' <> mkWorld (jl w) (os w) (clock w) true (handled w) (sigsched w) (log w)
  /\ output Stderr (log w') = [nl +:+ "Shutting down..."].
Proof.
  split; [|reflexivity]. intros E. apply (f_equal log) in E. discriminate E.
Qed.

Lemma down_write_error_outcomes_witness :
  let api := Probe.api Runs.write_rtt_error in
  let w := Runs.active [] Runs.operator_types in
  exists w5,
    @relay_iteration _ api true 0 0 3 0 w = (Ok (Next 0), w5)
    /\ @relay_loop _ api 2 true 0 0 3 0 w = @relay_loop _ api 1 true 0 0 3 0 w5
    /\ output Stderr (log w5) = [nl +:+ "Warning: Failed to write to RTT buffer: buffer full"].
Proof.
  intros api w.
  pose proof (@down_write_error_outcomes _ api 1 0 0 3 4 0 0 None w w
                (@connection_check _ api w).2
                (@up_direction _ api 0 3 0 (@connection_check _ api w).2).2
                (Os.select 3 (os w)).2
                (Os.read 3 4096 (Os.select 3 (os w)).2).2
                [Byte.x70] (JLinkRTTException "buffer full") []) as Hthm.
  eexists.
  destruct Hthm as [Hi Hl];
    [split; reflexivity|lia|reflexivity|reflexivity|reflexivity|reflexivity
    |discriminate|reflexivity|].
  split; [exact Hi|]. split; [exact Hl|]. reflexivity.
Defined.

(** C7, as stated, fails: [rtt_write] raising a [JLinkException] that is not
    of the RTT layer is caught by no clause of the iteration; it leaves the
    loop by the clause of line 674, and the teardown follows. *)
Lemma down_write_error_counterexample :
  let api := Probe.api Runs.write_link_error in
  let w := Runs.active [] Runs.operator_types in
  (@relay_iteration _ api true 0 0 3 0 w).1 = Raise (JLinkException "connection lost")
  /\ (@relay_loop _ api 5 true 0 0 3 0 w).1 = Raise (JLinkException "connection lost")
  /\ let r := main_after_loop 3 4 None (@relay_loop _ api 5 true 0 0 3 0 w).1
                (@relay_loop _ api 5 true 0 0 3 0 w).2 in
     r.1 = Ok (Go 0)
     /\ output Stderr (log r.2)
        = [nl +:+ "Unexpected error in main loop: connection lost"; "Cleaning up..."]
     /\ fds (os r.2) = ∅.
Proof.
  vm_compute. repeat split; reflexivity.
Qed.

Lemma consecutive_errors_reset_witness :
  let api := Probe.api Probe.live in
  let w := Runs.active [] [] in
  (@up_direction _ api 0 3 7 (@connection_check _ api w).2).1 = Ok (UpDone 7)
  /\ forall e w', @relay_iteration _ api false 0 (-1) 3 7 w = (Ok e, w') -> counter_of e = 7.
Proof.
  intros api w.
  destruct (@consecutive_errors_reset _ api false 0 (-1) 3 7 w) as [Hempty _].
  destruct (Hempty [] eq_refl) as [Hu Hc].
  split; [rewrite Hu; reflexivity|exact Hc].
Defined.

(** The two ways the counter is reset, and the way it grows. *)
Example counter_reset_by_no_data :
  (@up_direction _ (Probe.api Probe.live) 0 3 7
     (Runs.active [Raise (JLinkRTTException "no data")] [])).1 = Ok (UpDone 0).
Proof. reflexivity. Qed.

Example counter_reset_by_write :
  (@up_direction _ (Probe.api Probe.live) 0 3 7
     (Runs.active [Ok [Byte.x68; Byte.x69]] [IoWritten 1])).1 = Ok (UpDone 0).
Proof. reflexivity. Qed.

Example counter_grows_on_error :
  (@up_direction _ (Probe.api Probe.live) 0 3 7
     (Runs.active [Raise (JLinkException "probe busy")] [])).1 = Ok (UpContinue 8).
Proof. reflexivity. Qed.

Lemma teardown_twice_witness :
  exists w1 w2,
    @teardown _ (Probe.api Probe.live) true (Some 3) (Some 4) (Some "/tmp/rtt") Runs.linked
    = (Ok tt, w1)
    /\ @teardown _ (Probe.api Probe.live) true (Some 3) (Some 4) (Some "/tmp/rtt") w1
       = (Ok tt, w2)
    /\ os w2 = os w1.
Proof.
  exact (@teardown_twice _ (Probe.api Probe.live) true (Some 3) (Some 4) (Some "/tmp/rtt")
           Runs.linked).
Defined.

Example teardown_releases :
  let w1 := (@teardown _ (Probe.api Probe.live) true (Some 3) (Some 4) (Some "/tmp/rtt")
               Runs.linked).2 in
  fds (os w1) = ∅ /\ fs (os w1) = {["/tmp/rtt" := NSymlink "/dev/pts/3"]}
  /\ hardware_ops (log w1) = [JRttStop; JClose].
Proof. vm_compute. repeat split; reflexivity. Qed.

Lemma main_rejects_invalid_arguments_witness :
  let args := mkArgs "NRF54L15_M33" None 4000 "Terminal" false (Some "0x20000000,0") None false in
  let w := Probe.world [] in
  exists message,
    @main _ (Probe.api Probe.live) 5 args w
    = (Some 1, mkWorld (jl w) (os w) (clock w) (do_exit w) (handled w) (sigsched w)
                       (log w ++ [stderr_line message]))
    /\ hardware_ops (log (@main _ (Probe.api Probe.live) 5 args w).2) = hardware_ops (log w).
Proof.
  intros args w. apply (@main_rejects_invalid_arguments _ (Probe.api Probe.live)).
  right. right. left. eexists _, _. split; [reflexivity|]. split; [discriminate|].
  vm_compute. reflexivity.
Defined.

(** C8, as stated, fails: the empty address string is one [parse_address]
    rejects, but [main] does not parse an empty [-a] value (line 397); with
    the other arguments valid it opens the session and runs the bridge. *)
Lemma main_rejects_invalid_arguments_counterexample :
  let args := mkArgs "NRF54L15_M33" None 4000 "Terminal" false (Some EmptyString) None false in
  let w := mkWorld [] Probe.empty_os 0 false [] [Some SIGINT] [] in
  let r := @main _ (Probe.api Probe.live) 5 args w in
  parse_address EmptyString = Raise (ValueError "Empty address string")
  /\ r.1 = Some 0
  /\ hardware_ops (log r.2)
     = [JNew; JOpen None; JOpened; JSetTif; JSetSpeed 4000; JConnect "NRF54L15_M33";
        JOpened; JConnected; JTargetConnected; JProductName; JSerialNumber;
        JProductName; JSerialNumber; JRttStart StartAuto; JRttIsActive;
        JRttIsActive; JNumUp; JGetDesc 0 true; JRttStop; JClose].
Proof.
  vm_compute. repeat split; reflexivity.
Qed.

Lemma main_up_buffer_not_found_witness :
  let api := Probe.api Probe.live in
  let w := Probe.world [] in
  exists w5, @main _ api 5 missing_args w = (Some 1, w5).
Proof.
  intros api w.
  destruct (@main_up_buffer_not_found _ api 5 missing_args w w
              (@main_startup _ api 5 missing_args w).2
              (@find_buffer_by_name _ api "Missing" true 3
                 (@main_startup _ api 5 missing_args w).2).2
              (-1) None) as (w5 & rest & Hm & _);
    [vm_compute; reflexivity|vm_compute; reflexivity|reflexivity
    |vm_compute; reflexivity|lia|].
  exists w5. exact Hm.
Defined.

(** C6, as stated, fails: the exit status is 1, but standard error carries
    only the error line and the header; the lines of the listing are on
    standard output.  And when the listing alone is asked for, the name is
    never looked up and the status is 0. *)
Lemma main_up_buffer_not_found_counterexample :
  let r := @main _ (Probe.api Probe.live) 5 missing_args (Probe.world []) in
  let l := @main _ (Probe.api Probe.live) 5 missing_listing_args (Probe.world []) in
  r.1 = Some 1
  /\ output Stderr (log r.2)
     = ["Error: Failed to find matching up-buffer 'Missing'"; nl +:+ "Available buffers:"]
  /\ In "  #0 Terminal (size=1024)" (output Stdout (log r.2))
  /\ ~ In "  #0 Terminal (size=1024)" (output Stderr (log r.2))
  /\ l.1 = Some 0.
Proof.
  vm_compute. split; [reflexivity|]. split; [reflexivity|]. split; [|split].
  - do 9 right. left. reflexivity.
  - intros [E|[E|[]]]; discriminate E.
  - reflexivity.
Qed.

(** * Further properties *)

(** ** Stripping and reading numbers *)

Lemma lstrip_by_clean (p : ascii -> bool) (s : string) :
  string_forall (fun c => negb (p c)) s = true -> Py.lstrip_by p s = s.
Proof.
  destruct s as [|c r]; [reflexivity|]. cbn [string_forall Py.lstrip_by].
  intros Hq. apply andb_true_iff in Hq as [Hc _].
  apply negb_true_iff in Hc. by rewrite Hc.
Qed.

Lemma rstrip_by_clean (p : ascii -> bool) (s : string) :
  string_forall (fun c => negb (p c)) s = true -> Py.rstrip_by p s = s.
Proof.
  induction s as [|c r IH]; [reflexivity|]. cbn [string_forall Py.rstrip_by].
  intros Hq. apply andb_true_iff in Hq as [Hc Hr].
  apply negb_true_iff in Hc. rewrite Hc, (IH Hr). reflexivity.
Qed.

Lemma string_forall_impl (q q' : ascii -> bool) (s : string) :
  (forall c, q c = true -> q' c = true) ->
  string_forall q s = true -> string_forall q' s = true.
Proof.
  intros Hqq. induction s as [|c r IH]; [reflexivity|]. cbn [string_forall].
  intros Hq. apply andb_true_iff in Hq as [Hc Hr].
  by rewrite (Hqq _ Hc), (IH Hr).
Qed.

Lemma string_forall_app (q : ascii -> bool) (a b : string) :
  string_forall q (a +:+ b) = string_forall q a && string_forall q b.
Proof.
  induction a as [|c a IH]; [reflexivity|].
  change (String c a +:+ b) with (String c (a +:+ b)).
  cbn [string_forall]. by rewrite IH, andb_assoc.
Qed.

(** An implication between character tests, decided by running through the
    256 characters. *)
Lemma ascii_impl (P Q : ascii -> bool) :
  forallb (fun n => implb (P (ascii_of_nat n)) (Q (ascii_of_nat n))) (seq 0 256) = true ->
  forall c, P c = true -> Q c = true.
Proof.
  intros Hall c Hp. rewrite <- (ascii_nat_embedding c) in *.
  rewrite forallb_forall in Hall.
  specialize (Hall (nat_of_ascii c)). rewrite Hp in Hall. apply Hall.
  apply in_seq. pose proof (nat_ascii_bounded c). lia.
Qed.

Lemma alnum_not_space (c : ascii) : is_alnum c = true -> negb (Py.isspace c) = true.
Proof. revert c. apply ascii_impl. vm_compute. reflexivity. Qed.

Lemma alnum_not_int_space (c : ascii) :
  is_alnum c = true -> negb (Py.int_isspace c) = true.
Proof. revert c. apply ascii_impl. vm_compute. reflexivity. Qed.

Lemma alnum_not_comma (c : ascii) : is_alnum c = true -> Py.ascii_eqb c comma = false.
Proof.
  intros Hc. apply negb_true_iff. revert c Hc.
  apply (ascii_impl is_alnum (fun c => negb (Py.ascii_eqb c comma))). vm_compute. reflexivity.
Qed.

Lemma strip_clean (s : string) :
  string_forall (fun c => negb (Py.isspace c)) s = true -> Py.strip s = s.
Proof.
  intros Hs. unfold Py.strip. rewrite (lstrip_by_clean _ _ Hs). by apply rstrip_by_clean.
Qed.

Lemma contains_char_clean (c : ascii) (s : string) :
  string_forall (fun d => negb (Py.ascii_eqb d c)) s = true -> Py.contains_char c s = false.
Proof.
  induction s as [|d r IH]; [reflexivity|]. cbn [string_forall Py.contains_char].
  intros Hq. apply andb_true_iff in Hq as [Hd Hr].
  apply negb_true_iff in Hd. by rewrite Hd, (IH Hr).
Qed.

(** *** Printed numbers read back *)

Lemma digits_cons (base acc k : Z) (c : ascii) (r : string) :
  Py.ascii_eqb c Py.underscore = false ->
  Py.digit_val c = Some k ->
  (k <? base) = true ->
  Py.digits base acc false (String c r) = Py.digits base (acc * base + k) false r.
Proof. intros Hu Hd Hk. cbn [Py.digits]. by rewrite Hu, Hd, Hk. Qed.

Lemma digits_printed_hex (d : Hexadecimal.uint) (acc : Z) :
  Py.digits 16 acc false (Py.map_string Py.upper_hex (HexadecimalString.NilEmpty.string_of_uint d))
  = Some (hex_value acc d).
Proof.
  revert acc. induction d as [|d IH|d IH|d IH|d IH|d IH|d IH|d IH|d IH|d IH
                              |d IH|d IH|d IH|d IH|d IH|d IH|d IH]; intros acc;
    cbn [HexadecimalString.NilEmpty.string_of_uint Py.map_string hex_value]; [reflexivity|..];
    (erewrite digits_cons; [apply IH|reflexivity..]).
Qed.

Lemma digits_printed_dec (d : Decimal.uint) (acc : Z) :
  Py.digits 10 acc false (DecimalString.NilEmpty.string_of_uint d) = Some (dec_value acc d).
Proof.
  revert acc. induction d as [|d IH|d IH|d IH|d IH|d IH|d IH|d IH|d IH|d IH|d IH];
    intros acc; cbn [DecimalString.NilEmpty.string_of_uint dec_value]; [reflexivity|..];
    (erewrite digits_cons; [apply IH|reflexivity..]).
Qed.

Lemma hex_value_pos (d : Hexadecimal.uint) (p : positive) :
  hex_value (Zpos p) d = Zpos (Pos.of_hex_uint_acc d p).
Proof.
  revert p. induction d as [|d IH|d IH|d IH|d IH|d IH|d IH|d IH|d IH|d IH
                            |d IH|d IH|d IH|d IH|d IH|d IH|d IH]; intros p;
    cbn [hex_value Pos.of_hex_uint_acc]; [reflexivity|..];
    rewrite <- IH; f_equal; lia.
Qed.

Lemma hex_value_zero (d : Hexadecimal.uint) :
  hex_value 0 d = Z.of_N (Pos.of_hex_uint d).
Proof.
  induction d as [|d IH|d IH|d IH|d IH|d IH|d IH|d IH|d IH|d IH
                  |d IH|d IH|d IH|d IH|d IH|d IH|d IH];
    cbn [hex_value Pos.of_hex_uint]; [reflexivity|exact IH|..];
    apply hex_value_pos.
Qed.

Lemma dec_value_pos (d : Decimal.uint) (p : positive) :
  dec_value (Zpos p) d = Zpos (Pos.of_uint_acc d p).
Proof.
  revert p. induction d as [|d IH|d IH|d IH|d IH|d IH|d IH|d IH|d IH|d IH|d IH];
    intros p; cbn [dec_value Pos.of_uint_acc]; [reflexivity|..];
    rewrite <- IH; f_equal; lia.
Qed.

Lemma dec_value_zero (d : Decimal.uint) : dec_value 0 d = Z.of_N (Pos.of_uint d).
Proof.
  induction d as [|d IH|d IH|d IH|d IH|d IH|d IH|d IH|d IH|d IH|d IH];
    cbn [dec_value Pos.of_uint]; [reflexivity|exact IH|..];
    apply dec_value_pos.
Qed.

Lemma printed_hex_chars (d : Hexadecimal.uint) :
  string_forall is_upper_hex
    (Py.map_string Py.upper_hex (HexadecimalString.NilEmpty.string_of_uint d)) = true.
Proof.
  induction d as [|d IH|d IH|d IH|d IH|d IH|d IH|d IH|d IH|d IH
                  |d IH|d IH|d IH|d IH|d IH|d IH|d IH];
    cbn [HexadecimalString.NilEmpty.string_of_uint Py.map_string string_forall];
    [reflexivity|rewrite IH; reflexivity..].
Qed.

Lemma printed_dec_chars (d : Decimal.uint) :
  string_forall is_digit (DecimalString.NilEmpty.string_of_uint d) = true.
Proof.
  induction d as [|d IH|d IH|d IH|d IH|d IH|d IH|d IH|d IH|d IH|d IH];
    cbn [DecimalString.NilEmpty.string_of_uint string_forall];
    [reflexivity|rewrite IH; reflexivity..].
Qed.

(** What [f"{n:X}"] and [str(n)] print for a natural number: digits only, at
    least one, and [Py.digits] reads the number back. *)
Lemma format_X_spec (n : Z) :
  0 <= n ->
  Py.format_X n <> EmptyString
  /\ string_forall is_upper_hex (Py.format_X n) = true
  /\ Py.digits 16 0 false (Py.format_X n) = Some n.
Proof.
  intros Hn. unfold Py.format_X. destruct n as [|p|p]; [by repeat split| |lia].
  cbn [Z.to_hex_int HexadecimalString.NilZero.string_of_int].
  pose proof (HexadecimalPos.Unsigned.of_to p) as Hp.
  pose proof (hex_value_zero (Pos.to_hex_uint p)) as Hv. rewrite Hp in Hv.
  destruct (Pos.to_hex_uint p) as [|d|d|d|d|d|d|d|d|d|d|d|d|d|d|d|d] eqn:Hd;
    [discriminate Hp|..];
    (unfold HexadecimalString.NilZero.string_of_uint;
     split; [discriminate|split; [apply printed_hex_chars|]];
     rewrite digits_printed_hex; f_equal; exact Hv).
Qed.

Lemma str_int_spec (n : Z) :
  0 <= n ->
  Py.str_int n <> EmptyString
  /\ string_forall is_digit (Py.str_int n) = true
  /\ Py.digits 10 0 false (Py.str_int n) = Some n.
Proof.
  intros Hn. unfold Py.str_int. destruct n as [|p|p]; [by repeat split| |lia].
  cbn [Z.to_int DecimalString.NilZero.string_of_int].
  pose proof (DecimalPos.Unsigned.of_to p) as Hp.
  pose proof (dec_value_zero (Pos.to_uint p)) as Hv. rewrite Hp in Hv.
  destruct (Pos.to_uint p) as [|d|d|d|d|d|d|d|d|d|d] eqn:Hd;
    [discriminate Hp|..];
    (unfold DecimalString.NilZero.string_of_uint;
     split; [discriminate|split; [apply printed_dec_chars|]];
     rewrite digits_printed_dec; f_equal; exact Hv).
Qed.

Lemma upper_hex_alnum (c : ascii) : is_upper_hex c = true -> is_alnum c = true.
Proof. revert c. apply ascii_impl. vm_compute. reflexivity. Qed.

Lemma digit_alnum (c : ascii) : is_digit c = true -> is_alnum c = true.
Proof. revert c. apply ascii_impl. vm_compute. reflexivity. Qed.

Lemma alnum_not_underscore (c : ascii) :
  is_alnum c = true -> Py.ascii_eqb c Py.underscore = false.
Proof.
  intros Hc. apply negb_true_iff. revert c Hc.
  apply (ascii_impl is_alnum (fun c => negb (Py.ascii_eqb c Py.underscore))).
  vm_compute. reflexivity.
Qed.

Lemma alnum_not_sign (c : ascii) :
  is_alnum c = true ->
  Py.ascii_eqb c "-"%char = false /\ Py.ascii_eqb c "+"%char = false.
Proof.
  intros Hc.
  assert (Hb : negb (Py.ascii_eqb c "-"%char) && negb (Py.ascii_eqb c "+"%char) = true).
  { revert c Hc.
    apply (ascii_impl is_alnum
             (fun c => negb (Py.ascii_eqb c "-"%char) && negb (Py.ascii_eqb c "+"%char))).
    vm_compute. reflexivity. }
  apply andb_true_iff in Hb as [H1 H2]. by rewrite <- !negb_true_iff.
Qed.

(** A string of ASCII letters and digits is left alone by the strippers. *)
Lemma alnum_clean (s : string) :
  string_forall is_alnum s = true ->
  Py.strip s = s
  /\ Py.rstrip_by Py.int_isspace (Py.lstrip_by Py.int_isspace s) = s
  /\ Py.contains_char comma s = false.
Proof.
  intros Hs. split; [|split].
  - apply strip_clean. revert Hs. apply string_forall_impl, alnum_not_space.
  - assert (Hi : string_forall (fun c => negb (Py.int_isspace c)) s = true)
      by (revert Hs; apply string_forall_impl, alnum_not_int_space).
    rewrite (lstrip_by_clean _ _ Hi). by apply rstrip_by_clean.
  - apply contains_char_clean. revert Hs. apply string_forall_impl.
    intros c Hc. apply negb_true_iff. by apply alnum_not_comma.
Qed.

Lemma int_literal_hex (n : Z) :
  0 <= n -> Py.int_literal 16 ("0x" +:+ Py.format_X n) = Some n.
Proof.
  intros Hn. destruct (format_X_spec n Hn) as (Hne & Hch & Hd).
  assert (Ha : string_forall is_alnum ("0x" +:+ Py.format_X n) = true).
  { rewrite string_forall_app. apply andb_true_iff. split; [reflexivity|].
    revert Hch. apply string_forall_impl, upper_hex_alnum. }
  unfold Py.int_literal. destruct (alnum_clean _ Ha) as (_ & -> & _).
  destruct (Py.format_X n) as [|c r] eqn:Hf; [congruence|].
  cbn [string_forall] in Hch. apply andb_true_iff in Hch as [Hc _].
  pose proof (alnum_not_underscore c (upper_hex_alnum c Hc)) as Hu.
  change ("0x" +:+ String c r) with (String "0" (String "x" (String c r))).
  cbn [Py.drop_sign]. change (Py.ascii_eqb "0" "-") with false.
  change (Py.ascii_eqb "0" "+") with false. cbv iota.
  cbn [Py.drop_hex_prefix]. change (16 =? 16) with true.
  change (Py.ascii_eqb "0" "0") with true. change (Py.ascii_eqb "x" "x") with true.
  cbn [andb orb]. rewrite Hu. cbv iota. rewrite Hd, Hu. reflexivity.
Qed.

Lemma int_literal_dec (n : Z) :
  0 <= n -> Py.int_literal 10 (Py.str_int n) = Some n.
Proof.
  intros Hn. destruct (str_int_spec n Hn) as (Hne & Hch & Hd).
  assert (Ha : string_forall is_alnum (Py.str_int n) = true)
    by (revert Hch; apply string_forall_impl, digit_alnum).
  unfold Py.int_literal. destruct (alnum_clean _ Ha) as (_ & -> & _).
  destruct (Py.str_int n) as [|c r] eqn:Hf; [congruence|].
  cbn [string_forall] in Hch. apply andb_true_iff in Hch as [Hc _].
  pose proof (digit_alnum c Hc) as Hal.
  pose proof (alnum_not_underscore c Hal) as Hu.
  destruct (alnum_not_sign c Hal) as [Hm Hp].
  cbn [Py.drop_sign]. rewrite Hm, Hp.
  assert (Hpre : Py.drop_hex_prefix 10 (String c r) = String c r).
  { unfold Py.drop_hex_prefix. destruct r; reflexivity. }
  rewrite Hpre. cbv iota. rewrite Hd, Hu. reflexivity.
Qed.

Lemma rstrip_by_idem (p : ascii -> bool) (s : string) :
  Py.rstrip_by p (Py.rstrip_by p s) = Py.rstrip_by p s.
Proof.
  induction s as [|c r IH]; [reflexivity|]. cbn [Py.rstrip_by].
  destruct (p c && Py.is_empty (Py.rstrip_by p r)) eqn:Hc; [reflexivity|].
  cbn [Py.rstrip_by]. by rewrite IH, Hc.
Qed.

Lemma lstrip_by_head (p : ascii -> bool) (s : string) :
  match Py.lstrip_by p s with
  | EmptyString => True
  | String c _ => p c = false
  end.
Proof.
  induction s as [|c r IH]; [exact I|]. cbn [Py.lstrip_by].
  destruct (p c) eqn:Hc; [exact IH|exact Hc].
Qed.

Lemma strip_idem (s : string) : Py.strip (Py.strip s) = Py.strip s.
Proof.
  unfold Py.strip. pose proof (lstrip_by_head Py.isspace s) as Hh.
  assert (Hl : Py.lstrip_by Py.isspace (Py.rstrip_by Py.isspace (Py.lstrip_by Py.isspace s))
               = Py.rstrip_by Py.isspace (Py.lstrip_by Py.isspace s)).
  { destruct (Py.lstrip_by Py.isspace s) as [|c r]; [reflexivity|].
    cbn [Py.rstrip_by]. rewrite Hh. cbn [andb Py.lstrip_by]. by rewrite Hh. }
  rewrite Hl. apply rstrip_by_idem.
Qed.

Lemma strip_blank (s : string) :
  string_forall Py.isspace s = true -> Py.strip s = EmptyString.
Proof.
  intros Hs. unfold Py.strip.
  assert (Hl : Py.lstrip_by Py.isspace s = EmptyString).
  { induction s as [|c r IH]; [reflexivity|]. cbn [string_forall] in Hs.
    apply andb_true_iff in Hs as [Hc Hr]. cbn [Py.lstrip_by]. rewrite Hc. by apply IH. }
  by rewrite Hl.
Qed.

Lemma split_char_clean (c : ascii) (s : string) :
  Py.contains_char c s = false -> Py.split_char c s = [s].
Proof.
  induction s as [|d r IH]; [reflexivity|]. cbn [Py.contains_char Py.split_char].
  intros Hq. apply orb_false_iff in Hq as [Hd Hr]. by rewrite Hd, (IH Hr).
Qed.

Lemma split_char_app (c : ascii) (a b : string) :
  Py.contains_char c a = false ->
  Py.split_char c (a +:+ String c b) = a :: Py.split_char c b.
Proof.
  induction a as [|d r IH]; intros Hq.
  - change (EmptyString +:+ String c b) with (String c b). cbn [Py.split_char].
    unfold Py.ascii_eqb. by rewrite bool_decide_eq_true_2.
  - cbn [Py.contains_char] in Hq. apply orb_false_iff in Hq as [Hd Hr].
    change (String d r +:+ String c b) with (String d (r +:+ String c b)).
    cbn [Py.split_char]. by rewrite Hd, (IH Hr).
Qed.

Lemma prefix_cons (a b : ascii) (s t : string) :
  String.prefix (String a s) (String b t)
  = if ascii_dec a b then String.prefix s t else false.
Proof. reflexivity. Qed.

Lemma digits_no_hex_prefix (s : string) :
  string_forall is_digit s = true ->
  Py.startswith "0x" s = false /\ Py.startswith "0X" s = false.
Proof.
  unfold Py.startswith.
  destruct s as [|c [|d r]]; cbn [string_forall]; intros Hs.
  - by split.
  - rewrite !prefix_cons. destruct (ascii_dec "0" c); by split.
  - apply andb_true_iff in Hs as [_ Hs]. apply andb_true_iff in Hs as [Hd _].
    assert (Hx : "x"%char <> d /\ "X"%char <> d).
    { split; intros <-; vm_compute in Hd; discriminate. }
    destruct Hx as [Hx HX]. rewrite !prefix_cons.
    destruct (ascii_dec "0" c); [|by split].
    destruct (ascii_dec "x" d), (ascii_dec "X" d); by split.
Qed.

Lemma startswith_0x (t : string) : Py.startswith "0x" ("0x" +:+ t) = true.
Proof.
  unfold Py.startswith. change ("0x" +:+ t) with (String "0" (String "x" t)).
  rewrite !prefix_cons.
  destruct (ascii_dec "0" "0"); [|congruence].
  destruct (ascii_dec "x" "x"); [|congruence].
  by destruct t.
Qed.

(** ** The address parser, further *)

(** X1.  Whatever [parse_address] accepts is in range: a single address
    lies in [0, 2^64 - 1] and comes from an input without comma; a search
    range has a start that is not negative (it has no upper bound) and a
    size in [1, 0xFFFFFFFF], and comes from an input with a comma. *)
Theorem parse_address_bounds (s : string) (a : Z) (o : option Z) :
  parse_address s = Ok (a, o) ->
  0 <= a
  /\ match o with
     | None => a <= 18446744073709551615 /\ Py.contains_char comma (Py.strip s) = false
     | Some size => 0 < size <= 4294967295 /\ Py.contains_char comma (Py.strip s) = true
     end.
Proof.
  unfold parse_address.
  destruct (Py.is_empty s || Py.is_empty (Py.strip s)); [discriminate|].
  destruct (Py.contains_char comma (Py.strip s)).
  - destruct (Py.split_char comma (Py.strip s)) as [|p0 [|p1 [|p2 ps]]]; try discriminate.
    destruct (Py.is_empty (Py.strip p0) || Py.is_empty (Py.strip p1)); [discriminate|].
    destruct (parse_range_numbers (Py.strip s) (Py.strip p0) (Py.strip p1))
      as [[start size]|e]; [|discriminate].
    destruct (start <? 0) eqn:H0; [discriminate|].
    destruct (size <=? 0) eqn:H1; [discriminate|].
    destruct (size >? 4294967295) eqn:H2; [discriminate|].
    intros [= <- <-]. apply Z.ltb_ge in H0. apply Z.leb_gt in H1.
    rewrite Z.gtb_ltb in H2. apply Z.ltb_ge in H2. repeat split; lia.
  - destruct (parse_single_number (Py.strip s)) as [addr|e]; [|discriminate].
    destruct (addr <? 0) eqn:H0; [discriminate|].
    destruct (addr >? 18446744073709551615) eqn:H1; [discriminate|].
    intros [= <- <-]. apply Z.ltb_ge in H0.
    rewrite Z.gtb_ltb in H1. apply Z.ltb_ge in H1. repeat split; lia.
Qed.

Lemma parse_address_bounds_witness :
  0 <= 536870912
  /\ (0 < 4096 <= 4294967295
      /\ Py.contains_char comma (Py.strip "0x20000000,0x1000") = true).
Proof. exact (parse_address_bounds "0x20000000,0x1000" 536870912 (Some 4096) eq_refl). Defined.

(** X2.  White space around the whole input does not matter:
    [parse_address] gives the same answer on the stripped string. *)
Theorem parse_address_ignores_outer_space (s : string) :
  parse_address (Py.strip s) = parse_address s.
Proof.
  unfold parse_address. rewrite strip_idem.
  destruct s as [|c r]; [reflexivity|].
  cbn [Py.is_empty orb]. by rewrite orb_diag.
Qed.

(** X3.  An input made of white space only, the empty string included, is
    rejected with "Empty address string". *)
Theorem parse_address_blank (s : string) :
  string_forall Py.isspace s = true ->
  parse_address s = Raise (ValueError "Empty address string").
Proof.
  intros Hs. unfold parse_address. rewrite (strip_blank s Hs).
  cbn [Py.is_empty]. by rewrite orb_true_r.
Qed.

Lemma parse_address_blank_witness :
  parse_address (String " " (String (ascii_of_N 9) EmptyString))
  = Raise (ValueError "Empty address string").
Proof. apply parse_address_blank. reflexivity. Defined.

(** X4.  An address in [0, 2^64 - 1] printed the way the program prints it,
    as "0x" followed by upper-case hexadecimal digits, is read back by
    [parse_address]; so is its decimal notation. *)
Theorem parse_address_reads_printed_address (n : Z) :
  0 <= n <= 18446744073709551615 ->
  parse_address ("0x" +:+ Py.format_X n) = Ok (n, None)
  /\ parse_address (Py.str_int n) = Ok (n, None).
Proof.
  intros [Hlo Hhi].
  destruct (format_X_spec n Hlo) as (HneX & HchX & _).
  destruct (str_int_spec n Hlo) as (HneD & HchD & _).
  assert (Hrange : (n <? 0) = false /\ (n >? 18446744073709551615) = false).
  { split; [apply Z.ltb_ge; lia|]. rewrite Z.gtb_ltb. apply Z.ltb_ge. lia. }
  destruct Hrange as [H0 H1]. split.
  - assert (Ha : string_forall is_alnum ("0x" +:+ Py.format_X n) = true).
    { rewrite string_forall_app. apply andb_true_iff. split; [reflexivity|].
      revert HchX. apply string_forall_impl, upper_hex_alnum. }
    destruct (alnum_clean _ Ha) as (Hs & _ & Hc).
    unfold parse_address. rewrite Hs, Hc.
    change (Py.is_empty ("0x" +:+ Py.format_X n)) with false. cbn [orb].
    unfold parse_single_number.
    rewrite startswith_0x. cbn [orb].
    unfold py_int. rewrite (int_literal_hex n Hlo). by rewrite H0, H1.
  - assert (Ha : string_forall is_alnum (Py.str_int n) = true)
      by (revert HchD; apply string_forall_impl, digit_alnum).
    destruct (alnum_clean _ Ha) as (Hs & _ & Hc).
    destruct (digits_no_hex_prefix _ HchD) as [Hx HX].
    unfold parse_address. rewrite Hs, Hc.
    destruct (Py.str_int n) as [|c r] eqn:Hf; [congruence|]. cbn [Py.is_empty orb].
    unfold parse_single_number. rewrite Hx, HX. cbn [orb].
    unfold py_int. rewrite <- Hf, (int_literal_dec n Hlo). by rewrite H0, H1.
Qed.

Lemma parse_address_reads_printed_address_witness :
  parse_address ("0x" +:+ Py.format_X 536888544) = Ok (536888544, None)
  /\ parse_address (Py.str_int 536888544) = Ok (536888544, None).
Proof. apply parse_address_reads_printed_address. lia. Defined.

(** X5.  A search range whose start is printed in hexadecimal with the
    "0x" prefix and whose size is printed in decimal is read back: each of
    the two numbers is read in its own base.  The start may be any natural
    number, the size must be in [1, 0xFFFFFFFF]. *)
Theorem parse_address_reads_printed_range (start size : Z) :
  0 <= start ->
  0 < size <= 4294967295 ->
  parse_address ("0x" +:+ Py.format_X start +:+ "," +:+ Py.str_int size)
  = Ok (start, Some size).
Proof.
  intros Hstart [Hlo Hhi].
  destruct (format_X_spec start Hstart) as (HneX & HchX & _).
  destruct (str_int_spec size ltac:(lia)) as (HneD & HchD & _).
  assert (HaX : string_forall is_alnum ("0x" +:+ Py.format_X start) = true).
  { rewrite string_forall_app. apply andb_true_iff. split; [reflexivity|].
    revert HchX. apply string_forall_impl, upper_hex_alnum. }
  assert (HaD : string_forall is_alnum (Py.str_int size) = true)
    by (revert HchD; apply string_forall_impl, digit_alnum).
  destruct (alnum_clean _ HaX) as (HsX & _ & HcX).
  destruct (alnum_clean _ HaD) as (HsD & _ & HcD).
  destruct (digits_no_hex_prefix _ HchD) as [Hx HX].
  set (a := "0x" +:+ Py.format_X start) in *.
  set (b := Py.str_int size) in *.
  assert (Hshape : "0x" +:+ Py.format_X start +:+ "," +:+ b = a +:+ String comma b).
  { subst a. clear. induction (Py.format_X start) as [|c r IH]; [reflexivity|].
    change ("0x" +:+ String c r +:+ "," +:+ b)
      with (String "0" (String "x" (String c (r +:+ "," +:+ b)))).
    change (("0x" +:+ String c r) +:+ String comma b)
      with (String "0" (String "x" (String c (r +:+ String comma b)))).
    reflexivity. }
  rewrite Hshape.
  assert (Hclean : string_forall (fun c => negb (Py.isspace c)) (a +:+ String comma b) = true).
  { rewrite string_forall_app. apply andb_true_iff. split.
    - revert HaX. apply string_forall_impl, alnum_not_space.
    - cbn [string_forall]. apply andb_true_iff. split; [reflexivity|].
      revert HaD. apply string_forall_impl, alnum_not_space. }
  assert (Hcomma : Py.contains_char comma (a +:+ String comma b) = true).
  { apply contains_char_count.
    clear -a. induction a as [|c r IH].
    { change (EmptyString +:+ String comma b) with (String comma b).
      cbn [Py.count_char]. change (Py.ascii_eqb comma comma) with true. cbv iota. lia. }
    change (String c r +:+ String comma b) with (String c (r +:+ String comma b)).
    cbn [Py.count_char]. lia. }
  unfold parse_address. rewrite (strip_clean _ Hclean), Hcomma.
  assert (Hne : Py.is_empty (a +:+ String comma b) = false) by (subst a; reflexivity).
  rewrite Hne. cbn [orb].
  rewrite (split_char_app _ _ _ HcX), (split_char_clean _ _ HcD), HsX, HsD.
  assert (HeA : Py.is_empty a = false) by (subst a; reflexivity).
  assert (HeB : Py.is_empty b = false) by (destruct b; [congruence|reflexivity]).
  rewrite HeA, HeB. cbn [orb].
  unfold parse_range_numbers, parse_range_number.
  assert (HpA : Py.startswith "0x" a = true) by (subst a; apply startswith_0x).
  rewrite HpA, Hx, HX. unfold py_int. subst a b.
  rewrite (int_literal_hex start Hstart), (int_literal_dec size ltac:(lia)).
  replace (start <? 0) with false by (symmetry; apply Z.ltb_ge; lia).
  replace (size <=? 0) with false by (symmetry; apply Z.leb_gt; lia).
  replace (size >? 4294967295) with false
    by (symmetry; rewrite Z.gtb_ltb; apply Z.ltb_ge; lia).
  reflexivity.
Qed.

Lemma parse_address_reads_printed_range_witness :
  parse_address ("0x" +:+ Py.format_X 536870912 +:+ "," +:+ Py.str_int 4096)
  = Ok (536870912, Some 4096).
Proof. apply parse_address_reads_printed_range; lia. Defined.

(** ** Steps of the monad, read backwards *)

Section MonadFacts.

Context {J : Type}.

Lemma bind_inv {A B} (m : M J A) (k : A -> M J B) (w w' : World J) (r : result B) :
  bind m k w = (r, w') ->
  (exists a w1, m w = (Ok a, w1) /\ k a w1 = (r, w'))
  \/ (exists e, m w = (Raise e, w') /\ r = Raise e).
Proof.
  unfold bind. destruct (m w) as [[a|e] w1]; [eauto|].
  intros [= <- <-]. right. eauto.
Qed.

Lemma try_except_inv {A} (m : M J A) (h : exn -> option (M J A))
  (w w' : World J) (r : result A) :
  try_except m h w = (r, w') ->
  (exists a, m w = (Ok a, w') /\ r = Ok a)
  \/ (exists e w1, m w = (Raise e, w1)
                  /\ match h e with
                     | Some k => k w1 = (r, w')
                     | None => r = Raise e /\ w' = w1
                     end).
Proof.
  unfold try_except. destruct (m w) as [[a|e] w1].
  - intros [= <- <-]. left. eauto.
  - intros Hh. right. exists e, w1. split; [reflexivity|].
    destruct (h e); [exact Hh|]. by injection Hh as <- <-.
Qed.

Lemma with_os_inv {A} (f : OS -> result A * OS) (w w' : World J) (r : result A) :
  with_os f w = (r, w') ->
  exists o', f (os w) = (r, o')
             /\ w' = mkWorld (jl w) o' (clock w) (do_exit w) (handled w) (sigsched w) (log w).
Proof.
  unfold with_os. destruct (f (os w)) as [r' o']. intros [= <- <-]. eauto.
Qed.

End MonadFacts.


(** ** The buffer locator, further *)

Section LocatorMore.

Context {J : Type} `{JLinkLike J}.

Lemma paused_refl (w : World J) : paused [] w w.
Proof. repeat split; [by rewrite app_nil_r|cbn; lia]. Qed.

Lemma paused_trans (p1 p2 : list Z) (w1 w2 w3 : World J) :
  paused p1 w1 w2 -> paused p2 w2 w3 -> paused (p1 ++ p2) w1 w3.
Proof.
  intros (?&?&?&?&Hs1&Hc1) (?&?&?&?&Hs2&Hc2). repeat split; try congruence.
  - by rewrite Hs2, Hs1, app_assoc.
  - rewrite Hc2, Hc1, foldr_app.
    assert (Hsum : forall l a, foldr Z.add a l = foldr Z.add 0 l + a).
    { induction l as [|x l IH]; intros a; cbn; [lia|]. rewrite IH. lia. }
    rewrite (Hsum p1 (foldr Z.add 0 p2)). lia.
Qed.

Lemma paused_quiet (w1 w2 w3 : World J) (p : list Z) :
  paused [] w1 w2 -> paused p w2 w3 -> paused p w1 w3.
Proof. intros H1 H2. exact (paused_trans [] p _ _ _ H1 H2). Qed.

Lemma jcall_quiet {A} (op : jop) (f : J -> result A * J) (w : World J) :
  paused [] w (jcall op f w).2.
Proof.
  unfold jcall. destruct (f (jl w)) as [r j]. repeat split; cbn; [|lia].
  unfold sleeps. rewrite omap_app. cbn. by rewrite !app_nil_r.
Qed.

Lemma emit_print_quiet (f : stream) (text : string) (w : World J) :
  paused [] w (emit (EvPrint f text) w).2.
Proof.
  repeat split; cbn; [|lia]. unfold sleeps. rewrite omap_app. cbn. by rewrite !app_nil_r.
Qed.

Lemma sleep_paused (ms : Z) (w : World J) : paused [ms] w (sleep ms w).2.
Proof.
  repeat split; cbn; [|lia]. unfold sleeps. rewrite omap_app. reflexivity.
Qed.

Lemma is_rtt_active_quiet_frame (w : World J) : paused [] w (is_rtt_active w).2.
Proof.
  destruct (is_rtt_active_total w) as (b & op & ->). repeat split; cbn; [|lia].
  unfold sleeps. rewrite omap_app. cbn. by rewrite !app_nil_r.
Qed.

Lemma scan_descriptors_found
  (name : string) (up : bool) (indexes : list Z) (w w' : World J)
  (index : Z) (desc : BufDesc.t) :
  scan_descriptors name up indexes w = (Ok (Some (index, desc)), w') ->
  In index indexes /\ buffer_name_of desc = name /\ BufDesc.SizeOfBuffer desc <> 0.
Proof.
  revert w. induction indexes as [|i rest IH]; intros w; [discriminate|].
  cbn [scan_descriptors]. unfold bind at 1, try_except, bind at 1, jcall.
  destruct (jl_rtt_get_buf_descriptor i up (jl w)) as [[[d|]|e] j].
  - destruct (String.eqb (buffer_name_of d) name) eqn:Hn.
    + destruct (BufDesc.SizeOfBuffer d =? 0) eqn:Hz.
      * unfold raise. discriminate.
      * unfold ret. intros [= <- <- <-]. split; [by left|].
        apply String.eqb_eq in Hn. apply Z.eqb_neq in Hz. by split.
    + unfold ret at 1. intros Hr. destruct (IH _ Hr) as (? & ? & ?).
      split; [by right|by split].
  - unfold ret at 1. intros Hr. destruct (IH _ Hr) as (? & ? & ?).
    split; [by right|by split].
  - destruct e as [m|m|m|m|errno m|m|m|m]; try discriminate;
      unfold ret at 1; intros Hr; destruct (IH _ Hr) as (? & ? & ?);
      (split; [by right|by split]).
Qed.

Lemma scan_descriptors_quiet
  (name : string) (up : bool) (indexes : list Z) (w : World J) :
  paused [] w (scan_descriptors name up indexes w).2.
Proof.
  revert w. induction indexes as [|i rest IH]; intros w; [apply paused_refl|].
  cbn [scan_descriptors]. unfold bind at 1, try_except, bind at 1.
  pose proof (jcall_quiet (JGetDesc i up) (jl_rtt_get_buf_descriptor i up) w) as Hq.
  destruct (jcall (JGetDesc i up) (jl_rtt_get_buf_descriptor i up) w) as [[[d|]|e] w1];
    cbn [snd] in Hq.
  - destruct (String.eqb (buffer_name_of d) name).
    + destruct (BufDesc.SizeOfBuffer d =? 0); exact Hq.
    + unfold ret at 1. eapply paused_quiet; [exact Hq|apply IH].
  - unfold ret at 1. eapply paused_quiet; [exact Hq|apply IH].
  - destruct e as [m|m|m|m|errno m|m|m|m]; try exact Hq;
      unfold ret at 1; (eapply paused_quiet; [exact Hq|apply IH]).
Qed.

Lemma attempt_handlers_cases
  (name : string) (attempt max_retries : Z) (e : exn) (w : World J) :
  exists k,
    attempt_handlers name attempt max_retries e = Some k
    /\ ((k w).1 = Ok Retry /\ attempt < max_retries - 1 /\ paused [200] w (k w).2
        \/ (exists e', (k w).1 = Raise e') /\ paused [] w (k w).2).
Proof.
  unfold attempt_handlers.
  destruct e as [m|m|m|m|errno m|m|m|m];
    try (eexists; split; [reflexivity|]; right; split; [by eexists|apply paused_refl]).
  eexists; split; [reflexivity|].
  destruct (attempt <? max_retries - 1) eqn:Ha.
  - left. apply Z.ltb_lt in Ha. repeat split; [exact Ha|apply sleep_paused..].
  - right. split; [by eexists|apply paused_refl].
Qed.

(** How one attempt ends, and what it costs: at most one pause of 200 ms,
    taken only when the attempt is to be repeated. *)
Lemma find_attempt_cases
  (name : string) (up : bool) (attempt max_retries : Z) (w : World J) :
  let r := find_attempt name up attempt max_retries w in
  match r.1 with
  | Ok (Found index desc) =>
      0 <= index /\ buffer_name_of desc = name /\ BufDesc.SizeOfBuffer desc <> 0
  | Ok Retry => attempt < max_retries - 1
  | _ => True
  end
  /\ exists pause,
      (pause = [] \/ (pause = [200] /\ r.1 = Ok Retry))
      /\ paused pause w r.2.
Proof.
  cbv zeta.
  set (P := fun r : result attempt_end * World J =>
    match r.1 with
    | Ok (Found index desc) =>
        0 <= index /\ buffer_name_of desc = name /\ BufDesc.SizeOfBuffer desc <> 0
    | Ok Retry => attempt < max_retries - 1
    | _ => True
    end
    /\ exists pause,
        (pause = [] \/ (pause = [200] /\ r.1 = Ok Retry))
        /\ paused pause w r.2).
  change (P (find_attempt name up attempt max_retries w)).
  assert (Hfail : forall (e : exn) (w2 : World J),
             paused [] w w2 ->
             P (match attempt_handlers name attempt max_retries e with
                | Some k => k w2
                | None => (Raise e, w2)
                end)).
  { intros e w2 Hq. unfold P.
    destruct (attempt_handlers_cases name attempt max_retries e w2)
      as (k & -> & [(Hr & Ha & Hp)|([e' Hr] & Hp)]); rewrite Hr.
    - split; [exact Ha|]. exists [200]. split; [by right|].
      eapply paused_quiet; eassumption.
    - split; [exact I|]. exists []. split; [by left|].
      eapply paused_quiet; eassumption. }
  assert (Hretry : forall w2 : World J,
             paused [] w w2 -> (attempt <? max_retries - 1) = true ->
             P (bind (sleep 200) (fun _ => ret Retry) w2)).
  { intros w2 Hq Ha. unfold P, bind, sleep, ret. cbn [fst snd]. apply Z.ltb_lt in Ha.
    split; [exact Ha|]. exists [200]. split; [by right|].
    eapply paused_quiet; [exact Hq|]. apply sleep_paused. }
  unfold find_attempt, try_except, attempt_body. unfold bind at 1.
  pose proof (is_rtt_active_quiet_frame w) as Hq1.
  destruct (is_rtt_active_ok w) as [b Hb].
  destruct (is_rtt_active w) as [ra w1]. cbn [fst snd] in *. subst ra.
  destruct b; cbn [negb].
  - unfold bind at 1.
    set (q := if up then jcall JNumUp jl_rtt_get_num_up_buffers
              else jcall JNumDown jl_rtt_get_num_down_buffers).
    assert (Hq2 : paused [] w1 (q w1).2) by (subst q; destruct up; apply jcall_quiet).
    destruct (q w1) as [[n|e] w2]; cbn [snd] in Hq2.
    2:{ apply Hfail. eapply paused_quiet; eassumption. }
    assert (Hq12 : paused [] w w2) by (eapply paused_quiet; eassumption).
    destruct (n =? 0) eqn:Hn.
    + destruct (attempt <? max_retries - 1) eqn:Ha.
      * specialize (Hretry w2 Hq12 eq_refl).
        destruct ((sleep 200 ;; ret Retry) w2) as [[v|e] w3] eqn:Hs; [exact Hretry|].
        unfold bind, sleep, ret in Hs. discriminate.
      * unfold raise. apply Hfail, Hq12.
    + unfold bind at 1.
      pose proof (scan_descriptors_quiet name up (seqZ 0 n) w2) as Hq3.
      pose proof (scan_descriptors_found name up (seqZ 0 n) w2) as Hfound.
      destruct (scan_descriptors name up (seqZ 0 n) w2) as [[[[i d]|]|e] w3];
        cbn [snd] in Hq3.
      * unfold ret, P. cbn [fst snd].
        destruct (Hfound w3 i d eq_refl) as (Hin & Hname & Hsize).
        apply list_elem_of_In, elem_of_seqZ in Hin.
        split; [repeat split; [lia|assumption..]|].
        exists []. split; [by left|]. eapply paused_quiet; eassumption.
      * unfold ret, P. cbn [fst snd]. split; [exact I|].
        exists []. split; [by left|]. eapply paused_quiet; eassumption.
      * apply Hfail. eapply paused_quiet; eassumption.
  - destruct (attempt <? max_retries - 1) eqn:Ha.
    + specialize (Hretry w1 Hq1 eq_refl).
      destruct ((sleep 200 ;; ret Retry) w1) as [[v|e] w3] eqn:Hs; [exact Hretry|].
      unfold bind, sleep, ret in Hs. discriminate.
    + unfold raise. apply Hfail, Hq1.
Qed.

Lemma find_attempts_step
  (name : string) (up : bool) (max_retries a : Z) (rest : list Z) (w : World J) :
  find_attempts name up max_retries (a :: rest) w
  = match find_attempt name up a max_retries w with
    | (Ok Retry, w1) => find_attempts name up max_retries rest w1
    | (Ok (Found index desc), w1) => (Ok (index, Some desc), w1)
    | (Ok NotFound, w1) => (Ok (-1, None), w1)
    | (Raise e, w1) => (Raise e, w1)
    end.
Proof.
  cbn [find_attempts]. unfold bind.
  by destruct (find_attempt name up a max_retries w) as [[[|index desc|]|e] w1].
Qed.

(** The attempts [a, a+1, ..., max_retries - 1]: what comes back, and how
    long the search waited. *)
Lemma find_attempts_cases
  (name : string) (up : bool) (max_retries : Z) (len : nat) :
  forall (a : Z) (w : World J),
    0 <= a -> a + Z.of_nat len = max_retries ->
    let r := find_attempts name up max_retries (seqZ a (Z.of_nat len)) w in
    match r.1 with
    | Ok (index, Some desc) =>
        0 <= index /\ buffer_name_of desc = name /\ BufDesc.SizeOfBuffer desc <> 0
    | Ok (index, None) => index = -1
    | Raise e => exists m, e = RTTBridgeError m
    end
    /\ exists n : nat, (n <= pred len)%nat /\ paused (replicate n 200) w r.2.
Proof.
  induction len as [|len IH]; intros a w Ha Hlen; cbv zeta.
  { cbn. split; [reflexivity|]. exists 0%nat. split; [lia|apply paused_refl]. }
  rewrite seqZ_cons by lia.
  replace (Z.pred (Z.of_nat (S len))) with (Z.of_nat len) by lia.
  replace (Z.succ a) with (a + 1) by lia.
  rewrite find_attempts_step.
  pose proof (find_attempt_cases name up a max_retries w) as Hc. cbv zeta in Hc.
  pose proof (find_attempts_error_shape name up max_retries [a] w) as Hshape.
  rewrite find_attempts_step in Hshape.
  destruct (find_attempt name up a max_retries w) as [[[|index desc|]|e] w1];
    cbn [fst snd] in Hc; destruct Hc as (Hres & pause & Hpause & Hp).
  - specialize (IH (a + 1) w1 ltac:(lia) ltac:(lia)). cbv zeta in IH.
    destruct IH as (Hres' & n & Hn & Hp'). split; [exact Hres'|].
    destruct Hpause as [->|[-> _]].
    + exists n. split; [lia|]. eapply paused_quiet; eassumption.
    + exists (S n). split; [lia|]. exact (paused_trans [200] _ _ _ _ Hp Hp').
  - cbn [fst snd]. split; [exact Hres|].
    destruct Hpause as [->|[_ [=]]]. exists 0%nat. split; [lia|exact Hp].
  - cbn [fst snd]. split; [reflexivity|].
    destruct Hpause as [->|[_ [=]]]. exists 0%nat. split; [lia|exact Hp].
  - cbn [fst snd]. split.
    + destruct (Hshape w1 e eq_refl) as [detail [->| ->]]; eexists; reflexivity.
    + destruct Hpause as [->|[_ [=]]]. exists 0%nat. split; [lia|exact Hp].
Qed.

Lemma find_buffer_by_name_cases
  (name : string) (up : bool) (max_retries : Z) (w : World J) :
  let r := find_buffer_by_name name up max_retries w in
  match r.1 with
  | Ok (index, Some desc) =>
      0 <= index /\ buffer_name_of desc = Py.strip name
      /\ BufDesc.SizeOfBuffer desc <> 0
  | Ok (index, None) => index = -1
  | Raise e => exists m, e = RTTBridgeError m
  end
  /\ exists n : nat,
      Z.of_nat n <= Z.max 0 (max_retries - 1) /\ paused (replicate n 200) w r.2.
Proof.
  cbv zeta. unfold find_buffer_by_name.
  destruct (Py.is_empty name || Py.is_empty (Py.strip name)).
  { unfold ret. cbn [fst snd]. split; [reflexivity|].
    exists 0%nat. split; [lia|apply paused_refl]. }
  destruct (Z.le_gt_cases max_retries 0) as [Hle|Hgt].
  { rewrite seqZ_nil by lia. cbn. split; [reflexivity|].
    exists 0%nat. split; [lia|apply paused_refl]. }
  pose proof (find_attempts_cases (Py.strip name) up max_retries
                (Z.to_nat max_retries) 0 w ltac:(lia) ltac:(lia)) as Hc.
  cbv zeta in Hc. rewrite Z2Nat.id in Hc by lia.
  destruct Hc as (Hres & n & Hn & Hp). split; [exact Hres|].
  exists n. split; [lia|exact Hp].
Qed.

(** X6. Whatever the probe answers, [find_buffer_by_name] returns one of
    two shapes: [(-1, None)], or an index that is not negative together
    with a descriptor whose name is the stripped name asked for and whose
    size is not zero; and nothing but an [RTTBridgeError] leaves it. *)
Theorem find_buffer_by_name_result
  (name : string) (up : bool) (max_retries : Z) (w : World J) :
  match (find_buffer_by_name name up max_retries w).1 with
  | Ok (index, Some desc) =>
      0 <= index /\ buffer_name_of desc = Py.strip name
      /\ BufDesc.SizeOfBuffer desc <> 0
  | Ok (index, None) => index = -1
  | Raise e => exists m, e = RTTBridgeError m
  end.
Proof. exact (proj1 (find_buffer_by_name_cases name up max_retries w)). Qed.

(** X7. The search waits only between attempts: every pause is 200 ms, there
    are at most [max_retries - 1] of them, the clock advances by their sum,
    and the files, descriptors, signal schedule and shutdown flag are as
    before. *)
Theorem find_buffer_by_name_backoff
  (name : string) (up : bool) (max_retries : Z) (w : World J) :
  exists n : nat,
    Z.of_nat n <= Z.max 0 (max_retries - 1)
    /\ paused (replicate n 200) w (find_buffer_by_name name up max_retries w).2.
Proof. exact (proj2 (find_buffer_by_name_cases name up max_retries w)). Qed.

(** X8. A name that is empty or all white space, or a retry count that is
    not positive, ends the search before the probe is asked anything: the
    answer is [(-1, None)] and the world is untouched. *)
Theorem find_buffer_by_name_no_query
  (name : string) (up : bool) (max_retries : Z) (w : World J) :
  string_forall Py.isspace name = true \/ max_retries <= 0 ->
  find_buffer_by_name name up max_retries w = (Ok (-1, None), w).
Proof.
  intros Hwhy. unfold find_buffer_by_name.
  destruct (Py.is_empty name || Py.is_empty (Py.strip name)) eqn:He; [reflexivity|].
  destruct Hwhy as [Hblank|Hle].
  - apply strip_blank in Hblank. rewrite Hblank in He.
    apply orb_false_elim in He as [_ He]. discriminate.
  - by rewrite seqZ_nil by lia.
Qed.

End LocatorMore.

Lemma find_buffer_by_name_no_query_witness :
  @find_buffer_by_name _ (Probe.api Probe.live) "   " true 3 (Probe.world [])
  = (Ok (-1, None), Probe.world []).
Proof.
  apply (@find_buffer_by_name_no_query _ (Probe.api Probe.live)). left. reflexivity.
Defined.

(** ** Listing and verification, further *)

Section SessionMore.

Context {J : Type} `{JLinkLike J}.

Lemma told_refl (w : World J) : told [] w w.
Proof. split; [apply paused_refl|by rewrite app_nil_r]. Qed.

Lemma told_trans (e1 e2 : list string) (w1 w2 w3 : World J) :
  told e1 w1 w2 -> told e2 w2 w3 -> told (e1 ++ e2) w1 w3.
Proof.
  intros [Hp1 Ho1] [Hp2 Ho2]. split; [eapply paused_quiet; eassumption|].
  by rewrite Ho2, Ho1, app_assoc.
Qed.

Lemma told_quiet (e : list string) (w1 w2 w3 : World J) :
  told [] w1 w2 -> told e w2 w3 -> told e w1 w3.
Proof. intros H1 H2. exact (told_trans [] e _ _ _ H1 H2). Qed.

Lemma told_then_quiet (e : list string) (w1 w2 w3 : World J) :
  told e w1 w2 -> told [] w2 w3 -> told e w1 w3.
Proof.
  intros H1 H2. pose proof (told_trans e [] _ _ _ H1 H2) as Ht.
  by rewrite app_nil_r in Ht.
Qed.

(** Closes a goal [told errs w w'] where [w'] is [w] with an extended
    record of events and possibly another session. *)
Ltac told_frame :=
  unfold told, paused, sleeps, output;
  cbn [jl os clock do_exit handled sigsched log fst snd];
  rewrite ?omap_app; cbn; rewrite ?app_nil_r;
  repeat split; try reflexivity; try lia.

Lemma jcall_told {A} (op : jop) (f : J -> result A * J) (w : World J) :
  told [] w (jcall op f w).2.
Proof. unfold jcall. destruct (f (jl w)) as [r j]. told_frame. Qed.

Lemma print_told (text : string) (w : World J) : told [] w (print text w).2.
Proof. unfold print, emit. told_frame. Qed.

Lemma eprint_told (text : string) (w : World J) : told [text] w (eprint text w).2.
Proof. unfold eprint, emit. told_frame. Qed.

Lemma is_rtt_active_told (w : World J) : told [] w (is_rtt_active w).2.
Proof. destruct (is_rtt_active_total w) as (b & op & ->). told_frame. Qed.

Lemma print_descriptor_told (i : Z) (up : bool) (w : World J) :
  told [] w (print_descriptor i up w).2.
Proof.
  unfold print_descriptor, try_except, bind, jcall, print, emit, ret.
  destruct (jl_rtt_get_buf_descriptor i up (jl w)) as [[[d|]|e] j];
    [told_frame..|].
  destruct e as [m|m|m|m|errno m|m|m|m]; told_frame.
Qed.

Lemma print_descriptors_told (up : bool) (indexes : list Z) :
  forall w : World J, told [] w (print_descriptors up indexes w).2.
Proof.
  induction indexes as [|i rest IH]; intros w; [apply told_refl|].
  cbn [print_descriptors]. unfold bind.
  pose proof (print_descriptor_told i up w) as Hd.
  destruct (print_descriptor i up w) as [[[]|e] w1]; cbn [snd] in *; [|exact Hd].
  eapply told_quiet; [exact Hd|apply IH].
Qed.

(** One direction of the listing: it answers [False] exactly when it wrote
    its one line on standard error. *)
Lemma print_direction_cases (up : bool) (w : World J) :
  let r := print_direction up w in
  match r.1 with
  | Ok true | Raise _ => told [] w r.2
  | Ok false => exists line, told [line] w r.2
  end.
Proof.
  cbv zeta.
  set (P := fun r : result bool * World J =>
    match r.1 with
    | Ok true | Raise _ => told [] w r.2
    | Ok false => exists line, told [line] w r.2
    end).
  change (P (print_direction up w)).
  assert (Hfail : forall (text : string) (w1 : World J),
             told [] w w1 -> P ((eprint text ;; ret false) w1)).
  { intros text w1 Hq. unfold P, bind, ret.
    pose proof (eprint_told text w1) as He.
    destruct (eprint text w1) as [[[]|e'] w2] eqn:Hep; [|discriminate].
    cbn [fst snd] in *. eexists. eapply told_quiet; eassumption. }
  unfold print_direction. unfold bind at 1.
  pose proof (print_told (if up then "Up-buffers:" else "Down-buffers:") w) as H0.
  destruct (print (if up then "Up-buffers:" else "Down-buffers:") w) as [[[]|e] w0] eqn:Hp;
    [|discriminate].
  cbn [snd] in H0. unfold try_except. unfold bind at 1.
  set (q := if up then jcall JNumUp jl_rtt_get_num_up_buffers
            else jcall JNumDown jl_rtt_get_num_down_buffers).
  assert (Hq : told [] w0 (q w0).2) by (subst q; destruct up; apply jcall_told).
  destruct (q w0) as [[n|e] w1]; cbn [snd] in Hq.
  - assert (Hq1 : told [] w w1) by (eapply told_quiet; eassumption).
    unfold bind at 1.
    set (body := if n =? 0 then print "  (none)" else print_descriptors up (seqZ 0 n)).
    assert (Hb : told [] w1 (body w1).2).
    { subst body. destruct (n =? 0); [apply print_told|apply print_descriptors_told]. }
    destruct (body w1) as [[[]|e] w2]; cbn [snd] in Hb.
    + unfold ret, P. cbn [fst snd]. eapply told_quiet; eassumption.
    + assert (Hq2 : told [] w w2) by (eapply told_quiet; eassumption).
      destruct e as [m|m|m|m|errno m|m|m|m]; try exact Hq2.
      apply Hfail, Hq2.
  - assert (Hq1 : told [] w w1) by (eapply told_quiet; eassumption).
    destruct e as [m|m|m|m|errno m|m|m|m]; try exact Hq1.
    apply Hfail, Hq1.
Qed.

(** X9. [print_buffers] never raises.  It answers [False] exactly when it
    wrote one line on standard error, [True] when it wrote none; it takes
    no pause and leaves files, descriptors and the shutdown flag alone. *)
Theorem print_buffers_reports (w : World J) :
  exists (b : bool) (errs : list string),
    (print_buffers w).1 = Ok b
    /\ told errs w (print_buffers w).2
    /\ length errs = if b then 0%nat else 1%nat.
Proof.
  set (P := fun r : result bool * World J =>
    exists (b : bool) (errs : list string),
      r.1 = Ok b /\ told errs w r.2 /\ length errs = if b then 0%nat else 1%nat).
  change (P (print_buffers w)).
  assert (Hfail : forall (e : exn) (w1 : World J),
             told [] w w1 ->
             P ((eprint ("Error printing buffers: " +:+ str_exn e) ;; ret false) w1)).
  { intros e w1 Hq. unfold P, bind, ret.
    pose proof (eprint_told ("Error printing buffers: " +:+ str_exn e) w1) as He.
    destruct (eprint _ w1) as [[[]|e'] w2] eqn:Hep; [|discriminate].
    cbn [fst snd] in *. eexists false, [_]. split; [reflexivity|].
    split; [eapply told_quiet; eassumption|reflexivity]. }
  unfold print_buffers, try_except. unfold bind at 1.
  pose proof (is_rtt_active_told w) as H1.
  destruct (is_rtt_active_ok w) as [active Ha].
  destruct (is_rtt_active w) as [ra w1]. cbn [fst snd] in *. subst ra.
  destruct active; cbn [negb].
  - unfold bind at 1.
    pose proof (print_direction_cases true w1) as Hu. cbv zeta in Hu.
    destruct (print_direction true w1) as [[[|]|e] w2]; cbn [fst snd negb] in *.
    + unfold bind at 1.
      pose proof (print_direction_cases false w2) as Hd. cbv zeta in Hd.
      destruct (print_direction false w2) as [[[|]|e] w3]; cbn [fst snd negb] in *.
      * exists true, []. split; [reflexivity|]. split; [|reflexivity].
        eapply told_quiet; [exact H1|]. eapply told_quiet; eassumption.
      * destruct Hd as [line Hd]. exists false, [line]. split; [reflexivity|].
        split; [|reflexivity].
        eapply told_quiet; [exact H1|]. eapply told_quiet; eassumption.
      * apply Hfail. eapply told_quiet; [exact H1|]. eapply told_quiet; eassumption.
    + destruct Hu as [line Hu]. exists false, [line]. split; [reflexivity|].
      split; [|reflexivity]. eapply told_quiet; eassumption.
    + apply Hfail. eapply told_quiet; eassumption.
  - unfold bind, ret.
    pose proof (eprint_told "Error: RTT is not active" w1) as He.
    destruct (eprint "Error: RTT is not active" w1) as [[[]|e'] w2] eqn:Hep; [|discriminate].
    cbn [fst snd] in *. eexists false, [_]. split; [reflexivity|].
    split; [eapply told_quiet; eassumption|reflexivity].
Qed.

(** X10. [verify_jlink_connection] lets no exception of the probe SDK out:
    what it raises is never a [JLinkException]; and it prints nothing,
    takes no pause, and leaves everything but the session alone. *)
Theorem verify_jlink_connection_contains_sdk_errors (w : World J) :
  match (verify_jlink_connection w).1 with
  | Ok _ => True
  | Raise e => isinstance_JLinkException e = false
  end
  /\ told [] w (verify_jlink_connection w).2
  /\ output Stdout (log (verify_jlink_connection w).2) = output Stdout (log w).
Proof.
  unfold verify_jlink_connection, try_except, bind, jcall, raise, ret.
  destruct (jl_opened (jl w)) as [[[|]|e1] j1]; cbn;
    [destruct (jl_connected j1) as [[[|]|e2] j2]; cbn;
       [destruct (jl_target_connected j2) as [[[|]|e3] j3]; cbn;
          [destruct (jl_product_name j3) as [[s|e4] j4]; cbn;
             [destruct (jl_serial_number j4) as [[n|e5] j5]; cbn|]|..]|..]|..];
    try (destruct e1 as [m|m|m|m|errno m|m|m|m]; cbn);
    try (destruct e2 as [m|m|m|m|errno m|m|m|m]; cbn);
    try (destruct e3 as [m|m|m|m|errno m|m|m|m]; cbn);
    (split; [reflexivity|]); (split; [told_frame|]);
    unfold output; rewrite ?omap_app; cbn; by rewrite ?app_nil_r.
Qed.

End SessionMore.

(** ** The PTY endpoint, further *)

Lemma fresh_fd_above (f : gmap Z fdesc) :
  3 <= Os.fresh_fd f /\ forall k, is_Some (f !! k) -> k < Os.fresh_fd f.
Proof.
  unfold Os.fresh_fd.
  apply (map_fold_weak_ind
           (fun (r : Z) (m : gmap Z fdesc) => 3 <= r /\ forall k, is_Some (m !! k) -> k < r)).
  - split; [lia|]. intros k [x Hx]. by rewrite lookup_empty in Hx.
  - intros i x m r _ [Hr Hm]. split; [lia|]. intros k Hk.
    destruct (decide (i = k)) as [->|Hne]; [lia|].
    rewrite lookup_insert_ne in Hk by done. specialize (Hm k Hk). lia.
Qed.

Lemma fresh_fd_free (f : gmap Z fdesc) : f !! Os.fresh_fd f = None.
Proof.
  destruct (f !! Os.fresh_fd f) as [x|] eqn:Hx; [|reflexivity].
  pose proof (proj2 (fresh_fd_above f) (Os.fresh_fd f) (mk_is_Some _ _ Hx)). lia.
Qed.

(** [pty.openpty()] hands out two descriptors that were free, the slave
    above the master. *)
Lemma openpty_ok (o : OS) (slave : option string) (rest : list (option string)) :
  ptys o = slave :: rest ->
  exists m s,
    Os.openpty o
    = (Ok (m, s),
       mkOS (<[s := FdPtySlave slave]> (<[m := FdPtyMaster slave]> (fds o)))
            (match slave with Some p => <[p := NChar]> (fs o) | None => fs o end)
            rest (io o) (rm_denied o))
    /\ 3 <= m /\ m < s /\ fds o !! m = None /\ fds o !! s = None.
Proof.
  intros Hp. unfold Os.openpty. rewrite Hp.
  exists (Os.fresh_fd (fds o)),
         (Os.fresh_fd (<[Os.fresh_fd (fds o) := FdPtyMaster slave]> (fds o))).
  split; [reflexivity|].
  pose proof (fresh_fd_above (fds o)) as [H3 _].
  pose proof (fresh_fd_free (fds o)) as Hm.
  pose proof (fresh_fd_above (<[Os.fresh_fd (fds o) := FdPtyMaster slave]> (fds o)))
    as [_ Hs].
  pose proof (fresh_fd_free (<[Os.fresh_fd (fds o) := FdPtyMaster slave]> (fds o))) as Hs'.
  assert (Hlt : Os.fresh_fd (fds o)
                < Os.fresh_fd (<[Os.fresh_fd (fds o) := FdPtyMaster slave]> (fds o))).
  { apply Hs. rewrite lookup_insert_eq. by eexists. }
  repeat split; try assumption.
  rewrite lookup_insert_ne in Hs' by lia. exact Hs'.
Qed.

Lemma makedirs_fs_raises (fuel : nat) :
  forall (d : string) (f f' : gmap string node) (e : exn),
    Os.makedirs_fs fuel d f = (Raise e, f') -> isinstance_OSError e = true.
Proof.
  induction fuel as [|fuel IH]; intros d f f' e; cbn [Os.makedirs_fs];
    destruct (f !! d) as [[| | |t]|]; try match goal with |- context [Os.resolves 40 f d] => destruct (Os.resolves 40 f d) end;
    try (intros [= <- <-]; reflexivity); try (intros [=]; fail).
  destruct (Py.is_empty (Os.dirname d) || String.eqb (Os.dirname d) d); [discriminate|].
  destruct (Os.makedirs_fs fuel (Os.dirname d) f) as [[u|e'] f1] eqn:Hm; [discriminate|].
  intros [= <- <-]. exact (IH _ _ _ _ Hm).
Qed.

(** [os.makedirs] adds directories and takes nothing away. *)
Lemma makedirs_fs_keeps (fuel : nat) :
  forall (d : string) (f f' : gmap string node) (r : result unit),
    Os.makedirs_fs fuel d f = (r, f') ->
    forall p n, f !! p = Some n -> f' !! p = Some n.
Proof.
  induction fuel as [|fuel IH]; intros d f f' r; cbn [Os.makedirs_fs];
    destruct (f !! d) as [[| | |t]|] eqn:Hd; try match goal with |- context [Os.resolves 40 f d] => destruct (Os.resolves 40 f d) end;
    try (intros [= <- <-]; intros p n Hp; exact Hp).
  - intros [= <- <-] p n Hp. rewrite lookup_insert_ne; [exact Hp|congruence].
  - destruct (Py.is_empty (Os.dirname d) || String.eqb (Os.dirname d) d).
    { intros [= <- <-] p n Hp. rewrite lookup_insert_ne; [exact Hp|congruence]. }
    destruct (Os.makedirs_fs fuel (Os.dirname d) f) as [[u|e'] f1] eqn:Hm;
      intros [= <- <-] p n Hp.
    + rewrite lookup_insert_ne; [exact (IH _ _ _ _ Hm p n Hp)|congruence].
    + exact (IH _ _ _ _ Hm p n Hp).
Qed.

Lemma os_makedirs_raises (d : string) (o o' : OS) (e : exn) :
  Os.makedirs d o = (Raise e, o') -> isinstance_OSError e = true.
Proof.
  unfold Os.makedirs.
  destruct (Os.makedirs_fs (String.length d) d (fs o)) as [r f] eqn:Hm.
  intros [= -> <-]. exact (makedirs_fs_raises _ _ _ _ _ Hm).
Qed.

Lemma os_makedirs_keeps (d : string) (o o' : OS) (r : result unit) :
  Os.makedirs d o = (r, o') ->
  fds o' = fds o /\ forall p n, fs o !! p = Some n -> fs o' !! p = Some n.
Proof.
  unfold Os.makedirs.
  destruct (Os.makedirs_fs (String.length d) d (fs o)) as [r' f] eqn:Hm.
  intros [= <- <-]. split; [reflexivity|]. exact (makedirs_fs_keeps _ _ _ _ _ Hm).
Qed.

Lemma os_symlink_raises (target link_path : string) (o o' : OS) (e : exn) :
  Os.symlink target link_path o = (Raise e, o') ->
  isinstance_OSError e = true /\ o' = o.
Proof.
  unfold Os.symlink. destruct (fs o !! link_path); [by intros [= <- <-]|].
  destruct (negb (Py.is_empty (Os.dirname link_path))
            && negb (Os.path_exists (Os.dirname link_path) o));
    [by intros [= <- <-]|discriminate].
Qed.

Lemma os_symlink_ok (target link_path : string) (o o' : OS) (u : unit) :
  Os.symlink target link_path o = (Ok u, o') ->
  fs o !! link_path = None
  /\ o' = Os.set_fs (<[link_path := NSymlink target]> (fs o)) o.
Proof.
  unfold Os.symlink. destruct (fs o !! link_path); [discriminate|].
  destruct (negb (Py.is_empty (Os.dirname link_path))
            && negb (Os.path_exists (Os.dirname link_path) o));
    [discriminate|]. by intros [= <-].
Qed.

Lemma os_remove_ok (p : string) (o o' : OS) (u : unit) :
  Os.remove p o = (Ok u, o') -> o' = Os.set_fs (delete p (fs o)) o.
Proof.
  unfold Os.remove. destruct (fs o !! p) as [[| | |t]|]; try case_bool_decide;
    by intros [= <-].
Qed.

Lemma os_remove_fails (p : string) (o o' : OS) (e : exn) :
  Os.remove p o = (Raise e, o') -> o' = o.
Proof.
  unfold Os.remove. destruct (fs o !! p) as [[| | |t]|]; try case_bool_decide;
    by intros [= <-].
Qed.

(** Case analysis on an innermost scrutinee of a hypothesis. *)
Ltac break_hyp H :=
  match type of H with
  | context [match ?x with _ => _ end] =>
      lazymatch x with
      | context [match _ with _ => _ end] => fail
      | _ => destruct x eqn:?
      end
  end.

Section EndpointMore.

Context {J : Type} `{JLinkLike J}.

(** The three ways [create_pty] ends, by what the system has to offer:
    no PTY, a PTY without a name, a PTY with the name [p]. *)
Lemma create_pty_cases (w : World J) :
  let at_os (o : OS) :=
    mkWorld (jl w) o (clock w) (do_exit w) (handled w) (sigsched w) (log w) in
  match ptys (os w) with
  | [] =>
      create_pty w
      = (Raise (RTTBridgeError ("Failed to create PTY: " +:+ str_exn (Os.error ENOENT))),
         at_os (os w))
  | slave :: rest =>
      exists m s,
        3 <= m /\ m < s /\ fds (os w) !! m = None /\ fds (os w) !! s = None
        /\ let opened :=
             mkOS (<[s := FdPtySlave slave]> (<[m := FdPtyMaster slave]> (fds (os w))))
                  (match slave with Some p => <[p := NChar]> (fs (os w)) | None => fs (os w) end)
                  rest (io (os w)) (rm_denied (os w)) in
           match slave with
           | None =>
               create_pty w
               = (Raise (RTTBridgeError ("Failed to get PTY name: "
                                         +:+ str_exn (Os.error ENOTTY))),
                  at_os (Os.set_fds (fds (os w)) opened))
           | Some p =>
               create_pty w
               = (if Py.is_empty p
                  then Raise (RTTBridgeError "Failed to get PTY name")
                  else Ok (m, s, p),
                  at_os opened)
           end
  end.
Proof.
  cbv zeta. destruct (ptys (os w)) as [|slave rest] eqn:Hp.
  { unfold create_pty, try_except, bind, with_os, Os.openpty. rewrite Hp. reflexivity. }
  destruct (openpty_ok (os w) slave rest Hp) as (m & s & Ho & H3 & Hlt & Hm & Hs).
  exists m, s. repeat (split; [assumption|]). cbv zeta.
  assert (Hneg : (m <? 0) || (s <? 0) = false).
  { apply orb_false_intro; apply Z.ltb_ge; lia. }
  destruct slave as [p|];
    unfold create_pty, try_except; unfold bind at 1; unfold with_os at 1; rewrite Ho;
    cbn [fst snd]; rewrite Hneg; unfold bind at 1; unfold bind at 1; unfold with_os at 1;
    cbn [os]; unfold Os.ttyname; cbn [fds]; rewrite lookup_insert_eq.
  - cbn [fst snd]. destruct (Py.is_empty p); reflexivity.
  - cbn [fst snd isinstance_OSError Os.error].
    set (o1 := mkOS _ _ _ _ _).
    assert (Hc1 : Os.close m o1 = (Ok tt, Os.set_fds (<[s := FdPtySlave None]> (fds (os w))) o1)).
    { unfold Os.close. subst o1. cbn [fds].
      rewrite lookup_insert_ne, lookup_insert_eq by lia.
      by rewrite delete_insert_ne, delete_insert_id by (done || lia). }
    assert (Hc2 : Os.close s (Os.set_fds (<[s := FdPtySlave None]> (fds (os w))) o1)
                  = (Ok tt, Os.set_fds (fds (os w)) o1)).
    { unfold Os.close, Os.set_fds. cbn [fds fs ptys io rm_denied].
      by rewrite lookup_insert_eq, delete_insert_id. }
    unfold bind at 1. unfold with_os at 1. cbn [os]. rewrite Hc1. cbn [fst snd].
    unfold bind at 1. unfold with_os at 1. cbn [os]. rewrite Hc2. reflexivity.
Qed.

(** X11. When [create_pty] returns, the two descriptors are not negative
    and differ, they were free before the call and are the only change to
    the descriptor table; the name is not empty and is the path of a
    character device; nothing was printed. *)
Theorem create_pty_returns (w w' : World J) (master_fd slave_fd : Z) (name : string) :
  create_pty w = (Ok (master_fd, slave_fd, name), w') ->
  0 <= master_fd /\ 0 <= slave_fd /\ master_fd <> slave_fd
  /\ fds (os w) !! master_fd = None /\ fds (os w) !! slave_fd = None
  /\ fds (os w') = <[slave_fd := FdPtySlave (Some name)]>
                     (<[master_fd := FdPtyMaster (Some name)]> (fds (os w)))
  /\ name <> EmptyString
  /\ fs (os w') = <[name := NChar]> (fs (os w))
  /\ log w' = log w.
Proof.
  intros Hrun. pose proof (create_pty_cases w) as Hc. cbv zeta in Hc.
  destruct (ptys (os w)) as [|[p|] rest].
  - rewrite Hc in Hrun. discriminate.
  - destruct Hc as (m & s & H3 & Hlt & Hm & Hs & Hc). rewrite Hc in Hrun.
    destruct (Py.is_empty p) eqn:Hp; [discriminate|].
    injection Hrun as <- <- <- <-. cbn [os fds fs log].
    repeat split; try assumption; try lia.
    intros ->. discriminate.
  - destruct Hc as (m & s & H3 & Hlt & Hm & Hs & Hc). rewrite Hc in Hrun. discriminate.
Qed.

(** X12. When [create_pty] fails, it fails with an [RTTBridgeError] and has
    printed nothing.  The descriptor table is as before the call, with one
    exception: when the name of the PTY came back empty, the two
    descriptors just opened stay open. *)
Theorem create_pty_raises (w w' : World J) (e : exn) :
  create_pty w = (Raise e, w') ->
  (exists message, e = RTTBridgeError message)
  /\ log w' = log w
  /\ (fds (os w') = fds (os w)
      \/ e = RTTBridgeError "Failed to get PTY name"
         /\ exists m s,
              fds (os w) !! m = None /\ fds (os w) !! s = None /\ m <> s
              /\ is_Some (fds (os w') !! m) /\ is_Some (fds (os w') !! s)).
Proof.
  intros Hrun. pose proof (create_pty_cases w) as Hc. cbv zeta in Hc.
  destruct (ptys (os w)) as [|[p|] rest].
  - rewrite Hc in Hrun. injection Hrun as <- <-.
    split; [by eexists|]. split; [reflexivity|]. by left.
  - destruct Hc as (m & s & H3 & Hlt & Hm & Hs & Hc). rewrite Hc in Hrun.
    destruct (Py.is_empty p) eqn:Hp; [|discriminate].
    injection Hrun as <- <-.
    split; [by eexists|]. split; [reflexivity|]. right. split; [reflexivity|].
    exists m, s. cbn [os fds]. repeat split; try assumption; try lia.
    + rewrite lookup_insert_ne, lookup_insert_eq by lia. by eexists.
    + rewrite lookup_insert_eq. by eexists.
  - destruct Hc as (m & s & H3 & Hlt & Hm & Hs & Hc). rewrite Hc in Hrun.
    injection Hrun as <- <-.
    split; [by eexists|]. split; [reflexivity|]. by left.
Qed.

(** The second half of [create_symlink], lines 334-342, below the outer
    [except]: the directory, then the link. *)
Lemma create_symlink_tail (target link_path : string) (w w' : World J) (r : result unit) :
  (let link_dir := Os.dirname link_path in
   let! dir_present := os_path_exists link_dir in
   (if negb (Py.is_empty link_dir) && negb dir_present then
      try_except (with_os (Os.makedirs link_dir))
        (fun e => if isinstance_OSError e
                  then Some (raise (RTTBridgeError
                                      ("Failed to create directory for symlink: "
                                       +:+ str_exn e)))
                  else None)
    else ret tt) ;;
   with_os (Os.symlink target link_path)) w = (r, w') ->
  jl w' = jl w /\ clock w' = clock w /\ do_exit w' = do_exit w /\ handled w' = handled w
  /\ sigsched w' = sigsched w /\ log w' = log w /\ fds (os w') = fds (os w)
  /\ (forall p n, fs (os w) !! p = Some n -> p <> link_path \/ r <> Ok tt ->
                  fs (os w') !! p = Some n)
  /\ match r with
     | Ok _ => fs (os w) !! link_path = None
               /\ fs (os w') !! link_path = Some (NSymlink target)
     | Raise e => isinstance_OSError e = true \/ exists message, e = RTTBridgeError message
     end.
Proof.
  cbv zeta. intros Hrun.
  apply bind_inv in Hrun as [(present & w1 & Hp & Hrun)|(e & Hp & _)]; [|discriminate].
  unfold os_path_exists in Hp. injection Hp as <- <-.
  apply bind_inv in Hrun as [([] & w1 & Hdir & Hrun)|(e & Hdir & ->)].
  - assert (Hframe : jl w1 = jl w /\ clock w1 = clock w /\ do_exit w1 = do_exit w
                     /\ handled w1 = handled w /\ sigsched w1 = sigsched w
                     /\ log w1 = log w /\ fds (os w1) = fds (os w)
                     /\ forall p n, fs (os w) !! p = Some n -> fs (os w1) !! p = Some n).
    { destruct (negb (Py.is_empty (Os.dirname link_path))
                && negb (Os.path_exists (Os.dirname link_path) (os w))).
      - apply try_except_inv in Hdir as [(a & Hdir & _)|(e & w2 & Hdir & Hh)].
        + apply with_os_inv in Hdir as (o' & Hmk & ->).
          apply os_makedirs_keeps in Hmk as [Hfd Hkeep].
          cbn [jl os clock do_exit handled sigsched log]. by repeat split.
        + apply with_os_inv in Hdir as (o' & Hmk & ->).
          rewrite (os_makedirs_raises _ _ _ _ Hmk) in Hh. discriminate.
      - injection Hdir as <-. by repeat split. }
    destruct Hframe as (Hj & Hc & Hd & Hh & Hs & Hl & Hf & Hkeep).
    apply with_os_inv in Hrun as (o' & Hsl & ->).
    cbn [jl os clock do_exit handled sigsched log].
    destruct r as [[]|e].
    + apply os_symlink_ok in Hsl as [Hnone ->]. unfold Os.set_fs. cbn [fds fs].
      repeat split; try assumption.
      * intros p n Hp [Hne|Hne]; [|done].
        rewrite lookup_insert_ne by done. by apply Hkeep.
      * destruct (fs (os w) !! link_path) as [n|] eqn:Hln; [|reflexivity].
        apply Hkeep in Hln. congruence.
      * by rewrite lookup_insert_eq.
    + apply os_symlink_raises in Hsl as [He ->].
      repeat split; try assumption; [|by left].
      intros p n Hp _. by apply Hkeep.
  - destruct (negb (Py.is_empty (Os.dirname link_path))
              && negb (Os.path_exists (Os.dirname link_path) (os w))); [|discriminate].
    apply try_except_inv in Hdir as [(a & _ & [=])|(e' & w2 & Hdir & Hh)].
    apply with_os_inv in Hdir as (o' & Hmk & ->).
    rewrite (os_makedirs_raises _ _ _ _ Hmk) in Hh. injection Hh as <- <-.
    apply os_makedirs_keeps in Hmk as [Hfd Hkeep].
    cbn [jl os clock do_exit handled sigsched log].
    repeat split; try assumption; [|right; by eexists].
    intros p n Hp _. by apply Hkeep.
Qed.

(** How [create_symlink] ends, read off its steps: the path tested, the old
    link removed, the directory made, the link created. *)
Lemma create_symlink_cases (target link_path : string) (w w' : World J) (r : result unit) :
  create_symlink target link_path w = (r, w') ->
  jl w' = jl w /\ clock w' = clock w /\ do_exit w' = do_exit w /\ handled w' = handled w
  /\ sigsched w' = sigsched w /\ log w' = log w /\ fds (os w') = fds (os w)
  /\ (forall p n, p <> link_path -> fs (os w) !! p = Some n -> fs (os w') !! p = Some n)
  /\ match r with
     | Ok _ =>
         fs (os w') !! link_path = Some (NSymlink target)
         /\ (Os.path_exists link_path (os w) = true ->
             Os.path_islink link_path (os w) = true)
         /\ (Os.path_exists link_path (os w) = false -> fs (os w) !! link_path = None)
     | Raise e =>
         (exists message, e = RTTBridgeError message)
         /\ (Os.path_exists link_path (os w) = true ->
             Os.path_islink link_path (os w) = false ->
             e = RTTBridgeError ("Path exists and is not a symlink: " +:+ link_path)
             /\ os w' = os w)
         /\ (Os.path_exists link_path (os w) = false ->
             forall n, fs (os w) !! link_path = Some n -> fs (os w') !! link_path = Some n)
     end.
Proof.
  unfold create_symlink. intros Hrun.
  assert (Hwrap : forall (e : exn) (w1 : World J),
             isinstance_OSError e = true \/ (exists message, e = RTTBridgeError message) ->
             match (if isinstance_OSError e
                    then Some (raise (RTTBridgeError ("Failed to create symlink '"
                                                      +:+ link_path +:+ "': " +:+ str_exn e)))
                    else None) with
             | Some k => k w1 = (r, w')
             | None => r = Raise e /\ w' = w1
             end ->
             w' = w1 /\ exists message, r = Raise (RTTBridgeError message)).
  { intros e w1 [He|[message ->]].
    - rewrite He. unfold raise. intros [= <- <-]. eauto.
    - cbn [isinstance_OSError]. intros [-> ->]. eauto. }
  apply try_except_inv in Hrun as [(a & Hrun & ->)|(e & w0 & Hrun & Hh)].
  - (* the body returned *)
    apply bind_inv in Hrun as [(present & w1 & Hp & Hrun)|(e & Hp & _)]; [|discriminate].
    unfold os_path_exists in Hp. injection Hp as <- <-.
    apply bind_inv in Hrun as [([] & w1 & Hold & Hrun)|(e & _ & [=])].
    apply create_symlink_tail in Hrun
      as (Hj & Hc & Hd & Hh & Hs & Hl & Hf & Hkeep & Hnone & Hnew).
    destruct (Os.path_exists link_path (os w)) eqn:Hex.
    + apply bind_inv in Hold as [(is_link & w2 & Hp & Hold)|(e & Hp & _)]; [|discriminate].
      unfold os_path_islink in Hp. injection Hp as <- <-.
      destruct (Os.path_islink link_path (os w)) eqn:Hlink; [|discriminate].
      apply with_os_inv in Hold as (o' & Hrm & ->).
      apply os_remove_ok in Hrm as ->.
      cbn [jl os clock do_exit handled sigsched log] in *. unfold Os.set_fs in *.
      cbn [fds fs] in *.
      repeat split; try assumption; try done.
      intros p n Hne Hp. apply Hkeep; [|by left]. by rewrite lookup_delete_ne.
    + injection Hold as <-.
      repeat split; try assumption; try done.
      intros p n Hne Hp. apply Hkeep; [done|by left].
  - (* the body raised *)
    apply bind_inv in Hrun as [(present & w1 & Hp & Hrun)|(e' & Hp & _)]; [|discriminate].
    unfold os_path_exists in Hp. injection Hp as <- <-.
    apply bind_inv in Hrun as [([] & w1 & Hold & Hrun)|(e' & Hold & [= <-])].
    + (* the second half raised *)
      apply create_symlink_tail in Hrun
        as (Hj & Hc & Hd & Hhd & Hs & Hl & Hf & Hkeep & Hclass).
      destruct (Hwrap e w0 Hclass Hh) as [-> [message ->]].
      destruct (Os.path_exists link_path (os w)) eqn:Hex.
      * apply bind_inv in Hold as [(is_link & w2 & Hp & Hold)|(e' & Hp & _)];
          [|discriminate].
        unfold os_path_islink in Hp. injection Hp as <- <-.
        destruct (Os.path_islink link_path (os w)) eqn:Hlink; [|discriminate].
        apply with_os_inv in Hold as (o' & Hrm & ->).
        apply os_remove_ok in Hrm as ->.
        cbn [jl os clock do_exit handled sigsched log] in *. unfold Os.set_fs in *.
        cbn [fds fs] in *.
        repeat split; try assumption; try done; [|by eexists].
        intros p n Hne Hp. apply Hkeep; [|by left]. by rewrite lookup_delete_ne.
      * injection Hold as <-.
        repeat split; try assumption; try done; [|by eexists|].
        -- intros p n Hne Hp. apply Hkeep; [done|by left].
        -- intros _ n Hn. apply Hkeep; [done|by right].
    + (* the first half raised *)
      destruct (Os.path_exists link_path (os w)) eqn:Hex; [|discriminate].
      apply bind_inv in Hold as [(is_link & w2 & Hp & Hold)|(e' & Hp & _)];
        [|discriminate].
      unfold os_path_islink in Hp. injection Hp as <- <-.
      destruct (Os.path_islink link_path (os w)) eqn:Hlink.
      * apply with_os_inv in Hold as (o' & Hrm & ->).
        pose proof (os_remove_raises _ _ _ _ Hrm) as He.
        apply os_remove_fails in Hrm as ->.
        destruct (Hwrap e _ (or_introl He) Hh) as [-> [message ->]].
        cbn [jl os clock do_exit handled sigsched log].
        repeat split; try done. by eexists.
      * unfold raise in Hold. injection Hold as <- <-.
        cbn [isinstance_OSError] in Hh. destruct Hh as [-> ->].
        repeat split; try done. by eexists.
Qed.

(** X13. When [create_symlink] returns, [link_path] is a symlink to
    [target]; every other path that was there is still there, unchanged;
    descriptors and output are untouched. *)
Theorem create_symlink_publishes (target link_path : string) (w w' : World J) :
  create_symlink target link_path w = (Ok tt, w') ->
  fs (os w') !! link_path = Some (NSymlink target)
  /\ (forall p n, p <> link_path -> fs (os w) !! p = Some n -> fs (os w') !! p = Some n)
  /\ fds (os w') = fds (os w)
  /\ log w' = log w.
Proof.
  intros Hrun.
  apply create_symlink_cases in Hrun as (_ & _ & _ & _ & _ & Hl & Hf & Hkeep & Hnew & _).
  by repeat split.
Qed.

(** X14. When [create_symlink] fails, it fails with an [RTTBridgeError];
    no path other than [link_path] was removed or replaced, and descriptors
    and output are untouched. *)
Theorem create_symlink_raises (target link_path : string) (w w' : World J) (e : exn) :
  create_symlink target link_path w = (Raise e, w') ->
  (exists message, e = RTTBridgeError message)
  /\ (forall p n, p <> link_path -> fs (os w) !! p = Some n -> fs (os w') !! p = Some n)
  /\ fds (os w') = fds (os w)
  /\ log w' = log w.
Proof.
  intros Hrun.
  apply create_symlink_cases in Hrun as (_ & _ & _ & _ & _ & Hl & Hf & Hkeep & He & _).
  by repeat split.
Qed.

(** X15. A path that exists and is not a symlink is refused: the error
    names the path, and files and descriptors are exactly as before. *)
Theorem create_symlink_refuses_other_files (target link_path : string) (w : World J) :
  Os.path_exists link_path (os w) = true ->
  Os.path_islink link_path (os w) = false ->
  (create_symlink target link_path w).1
  = Raise (RTTBridgeError ("Path exists and is not a symlink: " +:+ link_path))
  /\ os (create_symlink target link_path w).2 = os w.
Proof.
  intros Hex Hlink.
  destruct (create_symlink target link_path w) as [r w'] eqn:Hrun.
  apply create_symlink_cases in Hrun as (_ & _ & _ & _ & _ & _ & _ & _ & Hr).
  destruct r as [u|e].
  - destruct Hr as (_ & Hl & _). specialize (Hl Hex). congruence.
  - destruct Hr as (_ & Hr & _). destruct (Hr Hex Hlink) as [-> Hos]. by split.
Qed.

(** X16. A symlink whose target is gone is not replaced: [os.path.exists]
    follows the link and answers no, so the old link is not removed, the
    creation fails, and the old link stays. *)
Theorem create_symlink_keeps_dangling_link
  (target link_path old : string) (w : World J) :
  fs (os w) !! link_path = Some (NSymlink old) ->
  Os.path_exists link_path (os w) = false ->
  (exists message,
     (create_symlink target link_path w).1 = Raise (RTTBridgeError message))
  /\ fs (os (create_symlink target link_path w).2) !! link_path = Some (NSymlink old).
Proof.
  intros Hold Hex.
  destruct (create_symlink target link_path w) as [r w'] eqn:Hrun.
  apply create_symlink_cases in Hrun as (_ & _ & _ & _ & _ & _ & _ & _ & Hr).
  destruct r as [u|e].
  - destruct Hr as (_ & _ & Hn). specialize (Hn Hex). congruence.
  - destruct Hr as ([message ->] & _ & Hn). split; [by eexists|]. exact (Hn Hex _ Hold).
Qed.

End EndpointMore.

Lemma create_pty_returns_witness :
  let w := Probe.world [] in
  let w' := (create_pty w).2 in
  0 <= 3 /\ 0 <= 4 /\ 3 <> 4
  /\ fds (os w) !! 3 = None /\ fds (os w) !! 4 = None
  /\ fds (os w') = <[4 := FdPtySlave (Some "/dev/pts/3")]>
                     (<[3 := FdPtyMaster (Some "/dev/pts/3")]> (fds (os w)))
  /\ "/dev/pts/3" <> EmptyString
  /\ fs (os w') = <["/dev/pts/3" := NChar]> (fs (os w))
  /\ log w' = log w.
Proof.
  intros w w'. apply (create_pty_returns w w' 3 4 "/dev/pts/3"). vm_compute. reflexivity.
Defined.

Lemma create_pty_raises_witness :
  let w := Scenes.no_pty in
  let w' := (create_pty w).2 in
  let e := RTTBridgeError "Failed to create PTY: [Errno 2] No such file or directory" in
  (exists message, e = RTTBridgeError message)
  /\ log w' = log w
  /\ (fds (os w') = fds (os w)
      \/ e = RTTBridgeError "Failed to get PTY name"
         /\ exists m s,
              fds (os w) !! m = None /\ fds (os w) !! s = None /\ m <> s
              /\ is_Some (fds (os w') !! m) /\ is_Some (fds (os w') !! s)).
Proof.
  intros w w' e. apply (create_pty_raises w w' e). vm_compute. reflexivity.
Defined.

Lemma create_symlink_publishes_witness :
  let w := Runs.linked in
  let w' := (create_symlink "/dev/pts/3" "/tmp/rtt" w).2 in
  fs (os w') !! "/tmp/rtt" = Some (NSymlink "/dev/pts/3")
  /\ (forall p n, p <> "/tmp/rtt" -> fs (os w) !! p = Some n -> fs (os w') !! p = Some n)
  /\ fds (os w') = fds (os w)
  /\ log w' = log w.
Proof.
  intros w w'. apply (create_symlink_publishes "/dev/pts/3" "/tmp/rtt" w w').
  vm_compute. reflexivity.
Defined.

Lemma create_symlink_raises_witness :
  let w := Scenes.occupied in
  let w' := (create_symlink "/dev/pts/3" "/tmp/rtt" w).2 in
  (exists message,
     RTTBridgeError "Path exists and is not a symlink: /tmp/rtt" = RTTBridgeError message)
  /\ (forall p n, p <> "/tmp/rtt" -> fs (os w) !! p = Some n -> fs (os w') !! p = Some n)
  /\ fds (os w') = fds (os w)
  /\ log w' = log w.
Proof.
  intros w w'.
  apply (create_symlink_raises "/dev/pts/3" "/tmp/rtt" w w'
           (RTTBridgeError "Path exists and is not a symlink: /tmp/rtt")).
  vm_compute. reflexivity.
Defined.

Lemma create_symlink_refuses_other_files_witness :
  let w := Scenes.occupied in
  (create_symlink "/dev/pts/3" "/tmp/rtt" w).1
  = Raise (RTTBridgeError ("Path exists and is not a symlink: " +:+ "/tmp/rtt"))
  /\ os (create_symlink "/dev/pts/3" "/tmp/rtt" w).2 = os w.
Proof.
  intros w. apply (create_symlink_refuses_other_files "/dev/pts/3" "/tmp/rtt" w);
    vm_compute; reflexivity.
Defined.

Lemma create_symlink_keeps_dangling_link_witness :
  let w := Scenes.dangling in
  (exists message,
     (create_symlink "/dev/pts/3" "/tmp/rtt" w).1 = Raise (RTTBridgeError message))
  /\ fs (os (create_symlink "/dev/pts/3" "/tmp/rtt" w).2) !! "/tmp/rtt"
     = Some (NSymlink "/dev/pts/9").
Proof.
  intros w.
  apply (create_symlink_keeps_dangling_link "/dev/pts/3" "/tmp/rtt" "/dev/pts/9" w);
    vm_compute; reflexivity.
Defined.

(** ** The teardown, further *)

Section TeardownMore.

Context {J : Type} `{JLinkLike J}.

(** What a step of the teardown adds to the record of events: nothing on
    standard output, and the SDK calls [ops]. *)
Ltac stage_done :=
  eexists _, _; split; [reflexivity|];
  cbn [log]; split;
  [rewrite <- ?app_assoc; first [reflexivity | symmetry; apply app_nil_r]|];
  split; reflexivity.

(** X17. The teardown never raises.  On the probe SDK it calls [rtt_stop]
    first and [close] last, each exactly once and whatever the other steps
    did, and nothing else; without a session it calls nothing.  Its first
    line goes to standard error and it prints nothing on standard output. *)
Theorem teardown_sdk_calls (jlink : bool) (master_fd slave_fd : option Z)
  (symlink_path : option string) (w : World J) :
  exists w1 tail,
    teardown jlink master_fd slave_fd symlink_path w = (Ok tt, w1)
    /\ log w1 = log w ++ stderr_line "Cleaning up..." :: tail
    /\ hardware_ops tail = (if jlink then [JRttStop; JClose] else [])
    /\ output Stdout tail = [].
Proof.
  unfold teardown.
  unfold bind at 1. unfold eprint at 1, emit at 1.
  set (wa := mkWorld _ _ _ _ _ _ _).
  assert (Ha : log wa = log w ++ [stderr_line "Cleaning up..."]) by reflexivity.
  clearbody wa.
  (* stop RTT *)
  unfold bind at 1.
  assert (exists wb l,
             (if jlink
              then try_except (jcall JRttStop jl_rtt_stop)
                     (fun e => Some (eprint ("Warning: Failed to stop RTT: " +:+ str_exn e)))
              else ret tt) wa = (Ok tt, wb)
             /\ log wb = log wa ++ l
             /\ hardware_ops l = (if jlink then [JRttStop] else [])
             /\ output Stdout l = []) as (wb & lb & -> & Hb & Hob & Hsb).
  { destruct jlink; [|unfold ret; stage_done].
    unfold try_except, jcall, eprint, emit.
    destruct (jl_rtt_stop (jl wa)) as [[[]|e] j]; stage_done. }
  (* close the master *)
  unfold bind at 1.
  assert (exists wc, match master_fd with
                     | Some fd =>
                         try_except (with_os (Os.close fd))
                           (fun e => if isinstance_OSError e then Some (ret tt) else None)
                     | None => ret tt
                     end wb = (Ok tt, wc)
                     /\ log wc = log wb) as (wc & -> & Hc).
  { destruct master_fd as [fd|]; [|eexists; split; reflexivity].
    unfold try_except, with_os.
    destruct (Os.close fd (os wb)) as [[[]|e] o'] eqn:Hcl; [eexists; split; reflexivity|].
    rewrite (os_close_raises _ _ _ _ Hcl). eexists; split; reflexivity. }
  (* close the slave *)
  unfold bind at 1.
  assert (exists wd, match slave_fd with
                     | Some fd =>
                         try_except (with_os (Os.close fd))
                           (fun e => if isinstance_OSError e then Some (ret tt) else None)
                     | None => ret tt
                     end wc = (Ok tt, wd)
                     /\ log wd = log wc) as (wd & -> & Hd).
  { destruct slave_fd as [fd|]; [|eexists; split; reflexivity].
    unfold try_except, with_os.
    destruct (Os.close fd (os wc)) as [[[]|e] o'] eqn:Hcl; [eexists; split; reflexivity|].
    rewrite (os_close_raises _ _ _ _ Hcl). eexists; split; reflexivity. }
  (* remove the symlink *)
  unfold bind at 1.
  assert (exists we l,
             match truthy_str symlink_path with
             | Some path =>
                 let! present := os_path_exists path in
                 if present then
                   try_except
                     (let! is_link := os_path_islink path in
                      if is_link then with_os (Os.remove path) else ret tt)
                     (fun e => if isinstance_OSError e
                               then Some (eprint ("Warning: Failed to remove symlink: "
                                                  +:+ str_exn e))
                               else None)
                 else ret tt
             | None => ret tt
             end wd = (Ok tt, we)
             /\ log we = log wd ++ l
             /\ hardware_ops l = []
             /\ output Stdout l = []) as (we & le & -> & He & Hoe & Hse).
  { destruct (truthy_str symlink_path) as [path|]; [|unfold ret; stage_done].
    unfold bind at 1, os_path_exists.
    destruct (Os.path_exists path (os wd)); [|unfold ret; stage_done].
    unfold try_except, bind, os_path_islink.
    destruct (Os.path_islink path (os wd)); [|unfold ret; stage_done].
    unfold with_os.
    destruct (Os.remove path (os wd)) as [[[]|e] o'] eqn:Hr; [stage_done|].
    rewrite (os_remove_raises _ _ _ _ Hr). unfold eprint, emit. stage_done. }
  (* close the session *)
  assert (exists wf l,
             (if jlink
              then try_except jlink_close
                     (fun e => Some (eprint ("Warning: Failed to close J-Link: "
                                             +:+ str_exn e)))
              else ret tt) we = (Ok tt, wf)
             /\ log wf = log we ++ l
             /\ hardware_ops l = (if jlink then [JClose] else [])
             /\ output Stdout l = []) as (wf & lf & -> & Hf & Hof & Hsf).
  { destruct jlink; [|unfold ret; stage_done].
    unfold try_except, jlink_close, jcall, eprint, emit.
    destruct (jl_close (jl we)) as [[[]|e] j]; stage_done. }
  exists wf, (lb ++ le ++ lf). split; [reflexivity|].
  split; [|split].
  - rewrite Hf, He, Hd, Hc, Hb, Ha. rewrite <- !app_assoc. reflexivity.
  - unfold hardware_ops in *. rewrite !omap_app, Hob, Hoe, Hof. by destruct jlink.
  - unfold output in *. by rewrite !omap_app, Hsb, Hse, Hsf.
Qed.

Lemma release_node_cases (fd : option Z) (f : gmap Z fdesc) (s : gmap string node) :
  release_node fd f s = s
  \/ exists k p, fd = Some k /\ f !! k = Some (FdPtyMaster (Some p))
                 /\ release_node fd f s = delete p s.
Proof.
  unfold release_node. destruct fd as [k|]; [|by left].
  destruct (f !! k) as [[[p|]|p]|] eqn:Hk; cbn [Os.node_of]; try (by left).
  right. by exists k, p.
Qed.

Lemma unlink_fs_cases (symlink_path : option string) (denied : gset string)
  (s : gmap string node) :
  unlink_fs symlink_path denied s = s
  \/ exists path target,
       symlink_path = Some path /\ s !! path = Some (NSymlink target)
       /\ Os.resolves 40 s path = true
       /\ unlink_fs symlink_path denied s = delete path s.
Proof.
  unfold unlink_fs. destruct symlink_path as [path|]; cbn [truthy_str]; [|by left].
  destruct (Py.is_empty path); [by left|].
  destruct (Os.resolves 40 s path) eqn:Hex; [|by left].
  destruct (s !! path) as [[| | |target]|] eqn:Hl; try (by left).
  case_bool_decide; [by left|]. right. by exists path, target.
Qed.

(** A link whose target is not there leads nowhere, however many hops are
    allowed. *)
Lemma resolves_dangling (hops : nat) (s : gmap string node) (link target : string) :
  s !! link = Some (NSymlink target) -> s !! target = None ->
  Os.resolves hops s link = false.
Proof.
  intros Hl Ht. destruct hops as [|hops]; cbn [Os.resolves]; rewrite Hl; [reflexivity|].
  destruct hops; cbn [Os.resolves]; by rewrite Ht.
Qed.

(** X18. What the teardown does to descriptors and paths.  It closes the
    two descriptors and no other.  The only paths that can go are the
    /dev/pts node of a PTY master it closes and a symlink at
    [symlink_path].  And since the master is closed before the link is
    looked at, a symlink to the PTY is never removed: [os.path.exists]
    follows it to the node that went with the master, and the link is
    left behind, dangling. *)
Theorem teardown_only_releases (jlink : bool) (master_fd slave_fd : Z)
  (symlink_path : option string) (w : World J) :
  let w1 := (teardown jlink (Some master_fd) (Some slave_fd) symlink_path w).2 in
  fds (os w1) = delete slave_fd (delete master_fd (fds (os w)))
  /\ (forall p,
        fs (os w1) !! p <> fs (os w) !! p ->
        fs (os w1) !! p = None
        /\ ((exists fd, (fd = master_fd \/ fd = slave_fd)
                        /\ fds (os w) !! fd = Some (FdPtyMaster (Some p)))
            \/ (symlink_path = Some p
                /\ exists target, fs (os w) !! p = Some (NSymlink target))))
  /\ (forall name link,
        fds (os w) !! master_fd = Some (FdPtyMaster (Some name)) ->
        fds (os w) !! slave_fd = Some (FdPtySlave (Some name)) ->
        symlink_path = Some link ->
        fs (os w) !! link = Some (NSymlink name) ->
        link <> name ->
        fs (os w1) !! name = None
        /\ fs (os w1) !! link = Some (NSymlink name)).
Proof.
  cbv zeta.
  destruct (teardown_runs jlink (Some master_fd) (Some slave_fd) symlink_path w)
    as (w1 & -> & Hos).
  cbn [snd]. rewrite Hos. unfold os_teardown.
  rewrite unlink_quiet_fs, !close_quiet_os.
  unfold Os.set_fs, delete_fd. cbn [fds fs ptys io rm_denied].
  set (f := fds (os w)). set (s0 := fs (os w)).
  set (sm := release_node (Some master_fd) f s0).
  set (ss := release_node (Some slave_fd) (delete master_fd f) sm).
  split; [reflexivity|]. split.
  - intros p Hp.
    assert (Hm : sm = s0 \/ exists q, f !! master_fd = Some (FdPtyMaster (Some q))
                                     /\ sm = delete q s0).
    { destruct (release_node_cases (Some master_fd) f s0) as [Hm|(k & q & [= <-] & Hk & Hm)];
        [by left|right; by exists q]. }
    assert (Hs : ss = sm \/ exists q, f !! slave_fd = Some (FdPtyMaster (Some q))
                                     /\ ss = delete q sm).
    { destruct (release_node_cases (Some slave_fd) (delete master_fd f) sm)
        as [Hs|(k & q & [= <-] & Hk & Hs)]; [by left|right].
      exists q. split; [|exact Hs]. by apply lookup_delete_Some in Hk as [_ Hk]. }
    clearbody ss. clearbody sm.
    assert (Hss : forall x, ss !! p = Some x -> s0 !! p = Some x).
    { intros x Hx.
      assert (Hxm : sm !! p = Some x).
      { destruct Hs as [->|(q & _ & ->)]; [exact Hx|].
        by apply lookup_delete_Some in Hx as [_ Hx]. }
      destruct Hm as [<-|(q & _ & Hm)]; [exact Hxm|]. rewrite Hm in Hxm.
      by apply lookup_delete_Some in Hxm as [_ Hxm]. }
    destruct (unlink_fs_cases symlink_path (rm_denied (os w)) ss)
      as [Hu|(path & target & -> & Hl & _ & Hu)]; rewrite Hu in Hp |- *.
    + (* the link was left alone: a node went with a master *)
      destruct (ss !! p) as [x|] eqn:Hx; [by rewrite (Hss x eq_refl) in Hp|].
      split; [reflexivity|]. left.
      destruct Hs as [Hs|(q & Hq & Hs)].
      * rewrite Hs in Hx. destruct Hm as [Hm|(q & Hq & Hm)].
        -- rewrite Hm in Hx. by rewrite Hx in Hp.
        -- destruct (decide (q = p)) as [<-|Hne]; [by exists master_fd; auto|].
           rewrite Hm, lookup_delete_ne in Hx by done. by rewrite Hx in Hp.
      * destruct (decide (q = p)) as [<-|Hne]; [by exists slave_fd; auto|].
        rewrite Hs, lookup_delete_ne in Hx by done.
        destruct Hm as [Hm|(q' & Hq' & Hm)].
        -- rewrite Hm in Hx. by rewrite Hx in Hp.
        -- destruct (decide (q' = p)) as [<-|Hne']; [by exists master_fd; auto|].
           rewrite Hm, lookup_delete_ne in Hx by done. by rewrite Hx in Hp.
    + destruct (decide (path = p)) as [<-|Hne].
      * rewrite lookup_delete_eq. split; [reflexivity|]. right.
        split; [reflexivity|]. exists target. by apply Hss.
      * rewrite lookup_delete_ne in Hp |- * by done.
        destruct (ss !! p) as [x|] eqn:Hx; [by rewrite (Hss x eq_refl) in Hp|].
        split; [reflexivity|]. left.
        destruct Hs as [Hs|(q & Hq & Hs)].
        -- rewrite Hs in Hx. destruct Hm as [Hm|(q & Hq & Hm)].
           ++ rewrite Hm in Hx. by rewrite Hx in Hp.
           ++ destruct (decide (q = p)) as [<-|Hne']; [by exists master_fd; auto|].
              rewrite Hm, lookup_delete_ne in Hx by done. by rewrite Hx in Hp.
        -- destruct (decide (q = p)) as [<-|Hne']; [by exists slave_fd; auto|].
           rewrite Hs, lookup_delete_ne in Hx by done.
           destruct Hm as [Hm|(q' & Hq' & Hm)].
           ++ rewrite Hm in Hx. by rewrite Hx in Hp.
           ++ destruct (decide (q' = p)) as [<-|Hne'']; [by exists master_fd; auto|].
              rewrite Hm, lookup_delete_ne in Hx by done. by rewrite Hx in Hp.
  - intros name link Hmaster Hslave -> Hlink Hne.
    assert (Hfd : master_fd <> slave_fd) by (intros ->; congruence).
    assert (Hsm : sm = delete name s0).
    { subst sm. unfold release_node. by rewrite Hmaster. }
    assert (Hss : ss = sm).
    { subst ss. unfold release_node. by rewrite lookup_delete_ne, Hslave. }
    fold sm ss. rewrite Hss, Hsm.
    assert (Hl : delete name s0 !! link = Some (NSymlink name))
      by (by rewrite lookup_delete_ne).
    assert (Hn : delete name s0 !! name = None) by apply lookup_delete_eq.
    assert (Hu : unlink_fs (Some link) (rm_denied (os w)) (delete name s0)
                 = delete name s0).
    { unfold unlink_fs. cbn [truthy_str]. destruct (Py.is_empty link); [reflexivity|].
      by rewrite (resolves_dangling 40 _ _ _ Hl Hn). }
    rewrite Hu. by split.
Qed.

End TeardownMore.

(** ** The relay loop, further *)

Section RelayMore.

Context {J : Type} `{JLinkLike J}.

Ltac break_goal :=
  match goal with
  | |- context [match ?x with _ => _ end] =>
      lazymatch x with
      | context [match _ with _ => _ end] => fail
      | _ => destruct x eqn:?
      end
  end.

Ltac run_all :=
  unfold try_except, bind, jcall, with_os, eprint, print, emit, ret, raise, sleep;
  repeat (break_goal; cbn [jl os clock do_exit handled sigsched log fst snd]).

Ltac tail_is :=
  cbn [jl os clock do_exit handled sigsched log fst snd];
  rewrite <- ?app_assoc; first [reflexivity | symmetry; apply app_nil_r].

(** What the connection check adds to a run. *)
Lemma connection_check_trace (w : World J) :
  exists tail,
    log (connection_check w).2 = log w ++ tail
    /\ os (connection_check w).2 = os w
    /\ clock (connection_check w).2 = clock w
    /\ sleeps tail = []
    /\ (hardware_ops tail = [JConnected]
        \/ hardware_ops tail = [JConnected; JTargetConnected])
    /\ ((connection_check w).1 = Ok true ->
        hardware_ops tail = [JConnected; JTargetConnected]).
Proof.
  unfold connection_check. run_all;
    (eexists; split; [tail_is|]); cbn; repeat split; auto; try discriminate.
Qed.

(** What the up direction adds to a run. *)
Lemma up_direction_trace (iu mfd ce : Z) (w : World J) :
  exists tail,
    log (up_direction iu mfd ce w).2 = log w ++ tail
    /\ hardware_ops tail = [JRttRead iu 4096]
    /\ clock (up_direction iu mfd ce w).2 = clock w + foldr Z.add 0 (sleeps tail)
    /\ (sleeps tail = [] /\ (forall c, (up_direction iu mfd ce w).1 <> Ok (UpContinue c))
        \/ sleeps tail = [100]
           /\ exists c, (up_direction iu mfd ce w).1 = Ok (UpContinue c)).
Proof.
  unfold up_direction. run_all;
    (eexists; split; [tail_is|]); cbn; repeat split; try lia;
    first [left; split; [reflexivity|intros c; discriminate] | right; eauto].
Qed.

(** What the down direction adds to a run: in one-way mode the pause of
    line 670 and nothing else; in two-way mode at most one write to the
    down-buffer and no pause. *)
Lemma down_direction_trace (bidir : bool) (id mfd : Z) (w : World J) :
  exists tail,
    log (down_direction bidir id mfd w).2 = log w ++ tail
    /\ clock (down_direction bidir id mfd w).2 = clock w + foldr Z.add 0 (sleeps tail)
    /\ if bidir && (id >=? 0)
       then sleeps tail = []
            /\ (hardware_ops tail = [] \/ exists data, hardware_ops tail = [JRttWrite id data])
       else sleeps tail = [100] /\ hardware_ops tail = []
            /\ os (down_direction bidir id mfd w).2 = os w
            /\ (down_direction bidir id mfd w).1 = Ok DownDone.
Proof.
  unfold down_direction. destruct (bidir && (id >=? 0)).
  - unfold forward_down. run_all;
      (eexists; split; [tail_is|]); cbn; repeat split; eauto; try lia.
  - unfold bind, sleep, ret. cbn [fst snd log clock os].
    eexists; split; [reflexivity|]. cbn. repeat split; lia.
Qed.

(** How the up direction ends, and with which counter. *)
Lemma up_direction_counter (iu mfd ce : Z) (w w' : World J) (u : up_end) :
  up_direction iu mfd ce w = (Ok u, w') ->
  u = UpDone ce \/ u = UpDone 0 \/ u = UpBreak ce
  \/ (u = UpBreak (ce + 1) /\ max_consecutive_errors <= ce + 1)
  \/ (u = UpContinue (ce + 1) /\ ce + 1 < max_consecutive_errors).
Proof.
  intros Hrun. pose proof (up_direction_cases iu mfd ce w) as Hc.
  rewrite Hrun in Hc. cbn [fst] in Hc.
  destruct (jl_rtt_read iu 4096 (jl w)) as [[[|b data]|e] j].
  - injection Hc as <- _. by left.
  - destruct (Os.write mfd (b :: data) (os w)) as [[n|e] o].
    + injection Hc as <-. right. by left.
    + destruct Hc as (errno & -> & Hc). destruct (errno =? EBADF); [|discriminate].
      injection Hc as <-. right. right. by left.
  - destruct e as [m|m|m|m|errno m|m|m|m]; try discriminate.
    + destruct (ce + 1 >=? max_consecutive_errors) eqn:Hge; injection Hc as <-.
      * right. right. right. left. split; [reflexivity|]. lia.
      * right. right. right. right. split; [reflexivity|]. lia.
    + injection Hc as <-. right. by left.
Qed.

(** X19. The counter of consecutive errors stays in range: an iteration
    entered with a counter from 0 to 9 goes back to the loop test with a
    counter from 0 to 9, and leaves the loop with one from 0 to 10. *)
Theorem relay_iteration_counter_range
  (bidir : bool) (iu id mfd ce : Z) (w w' : World J) (e : iter_end) :
  0 <= ce < max_consecutive_errors ->
  relay_iteration bidir iu id mfd ce w = (Ok e, w') ->
  match e with
  | Next c => 0 <= c < max_consecutive_errors
  | Break c => 0 <= c <= max_consecutive_errors
  end.
Proof.
  intros Hce Hrun. unfold relay_iteration in Hrun.
  apply bind_inv in Hrun as [(alive & w1 & _ & Hrun)|(ex & _ & [=])].
  destruct alive; cbn [negb] in Hrun.
  2:{ injection Hrun as <- _. lia. }
  apply bind_inv in Hrun as [(u & w2 & Hup & Hrun)|(ex & _ & [=])].
  apply up_direction_counter in Hup.
  assert (Hu : match u with
               | UpDone c | UpContinue c => 0 <= c < max_consecutive_errors
               | UpBreak c => 0 <= c <= max_consecutive_errors
               end).
  { unfold max_consecutive_errors in *.
    destruct Hup as [->|[->|[->|[[-> ?]|[-> ?]]]]]; lia. }
  destruct u as [c|c|c].
  - apply bind_inv in Hrun as [(d & w3 & _ & Hrun)|(ex & _ & [=])].
    destruct d; injection Hrun as <- _; lia.
  - injection Hrun as <- _. exact Hu.
  - injection Hrun as <- _. exact Hu.
Qed.

(** X20. An iteration calls [time.sleep] at most once, for 100 ms, and
    the clock of the model, which counts these pauses, moves by exactly
    that.  In one-way mode every iteration that goes back to the loop test
    has paused: the loop never spins. *)
Theorem relay_iteration_pause
  (bidir : bool) (iu id mfd ce : Z) (w w' : World J) (r : result iter_end) :
  relay_iteration bidir iu id mfd ce w = (r, w') ->
  exists pause,
    sleeps (log w') = sleeps (log w) ++ pause
    /\ clock w' = clock w + foldr Z.add 0 pause
    /\ (pause = [] \/ pause = [100])
    /\ (bidir && (id >=? 0) = false -> (exists c, r = Ok (Next c)) -> pause = [100]).
Proof.
  intros Hrun. unfold relay_iteration in Hrun.
  destruct (connection_check_trace w) as (t1 & Hl1 & _ & Hc1 & Hs1 & _).
  apply bind_inv in Hrun as [(alive & w1 & Hcheck & Hrun)|(ex & Hcheck & ->)];
    rewrite Hcheck in *; cbn [fst snd] in *.
  2:{ exists []. rewrite Hl1. unfold sleeps in *. rewrite omap_app, Hs1, Hc1.
      repeat split; auto; try (cbn; lia); try (intros _ [c [=]]). }
  destruct alive; cbn [negb] in Hrun.
  2:{ injection Hrun as <- <-. exists []. rewrite Hl1. unfold sleeps in *.
      rewrite omap_app, Hs1, Hc1. repeat split; auto; try (cbn; lia); try (intros _ [c [=]]). }
  destruct (up_direction_trace iu mfd ce w1) as (t2 & Hl2 & _ & Hc2 & Hs2).
  apply bind_inv in Hrun as [(u & w2 & Hup & Hrun)|(ex & Hup & ->)];
    rewrite Hup in *; cbn [fst snd] in *.
  2:{ destruct Hs2 as [[Hs2 _]|[_ [c [=]]]]. exists []. rewrite Hl2, Hl1. unfold sleeps in *.
      rewrite !omap_app, Hs1, Hs2, Hc2, Hs2, Hc1, !app_nil_r.
      repeat split; auto; try (cbn; lia); try (intros _ [c [=]]). }
  assert (Hafter_up : sleeps (log w2) = sleeps (log w) ++ sleeps t2
                      /\ clock w2 = clock w + foldr Z.add 0 (sleeps t2)).
  { rewrite Hl2, Hl1, Hc2, Hc1. unfold sleeps in *.
    by rewrite !omap_app, Hs1, app_nil_r. }
  destruct Hafter_up as [Hsl Hcl].
  destruct u as [c|c|c].
  - (* the down direction runs *)
    destruct Hs2 as [[Hs2 _]|[_ [c' [=]]]]. rewrite Hs2, ?app_nil_r in *.
    destruct (down_direction_trace bidir id mfd w2) as (t3 & Hl3 & Hc3 & Hd).
    apply bind_inv in Hrun as [(d & w3 & Hdown & Hrun)|(ex & Hdown & ->)];
      rewrite Hdown in *; cbn [fst snd] in *.
    + assert (w' = w3) as -> by (destruct d; by injection Hrun).
      exists (sleeps t3). rewrite Hl3, Hc3. unfold sleeps at 1. rewrite omap_app.
      fold (sleeps (log w2)). fold (sleeps t3). rewrite Hsl, Hcl.
      destruct (bidir && (id >=? 0)).
      * destruct Hd as [-> _]. repeat split; auto; try (cbn; lia); try discriminate.
      * destruct Hd as (-> & _). repeat split; auto; cbn; lia.
    + exists (sleeps t3). rewrite Hl3, Hc3. unfold sleeps at 1. rewrite omap_app.
      fold (sleeps (log w2)). fold (sleeps t3). rewrite Hsl, Hcl.
      destruct (bidir && (id >=? 0)).
      * destruct Hd as [-> _]. repeat split; auto; try (cbn; lia); try discriminate.
      * destruct Hd as (_ & _ & _ & [=]).
  - injection Hrun as <- <-. destruct Hs2 as [[Hs2 _]|[_ [c' [=]]]].
    exists []. rewrite Hsl, Hcl, Hs2. repeat split; auto. intros _ [c' [=]].
  - injection Hrun as <- <-. destruct Hs2 as [[_ Hs2]|[Hs2 _]].
    + by destruct (Hs2 c).
    + rewrite Hs2 in *. exists [100]. repeat split; auto.
Qed.

(** X21. An iteration asks the probe at most four things, in a fixed
    order: connected, target connected, one read of the up-buffer, one
    write to the down-buffer.  The write is made only in two-way mode with
    a down-buffer found. *)
Theorem relay_iteration_sdk_calls
  (bidir : bool) (iu id mfd ce : Z) (w w' : World J) (r : result iter_end) :
  relay_iteration bidir iu id mfd ce w = (r, w') ->
  exists ops,
    hardware_ops (log w') = hardware_ops (log w) ++ ops
    /\ (ops = [JConnected]
        \/ ops = [JConnected; JTargetConnected]
        \/ ops = [JConnected; JTargetConnected; JRttRead iu 4096]
        \/ bidir = true /\ 0 <= id
           /\ exists data,
                ops = [JConnected; JTargetConnected; JRttRead iu 4096; JRttWrite id data]).
Proof.
  intros Hrun. unfold relay_iteration in Hrun.
  destruct (connection_check_trace w) as (t1 & Hl1 & _ & _ & _ & Ho1 & Halive).
  assert (Hshort : exists ops,
             hardware_ops (log (connection_check w).2) = hardware_ops (log w) ++ ops
             /\ (ops = [JConnected]
                 \/ ops = [JConnected; JTargetConnected]
                 \/ ops = [JConnected; JTargetConnected; JRttRead iu 4096]
                 \/ bidir = true /\ 0 <= id
                    /\ exists data,
                         ops = [JConnected; JTargetConnected; JRttRead iu 4096;
                                JRttWrite id data])).
  { exists (hardware_ops t1). rewrite Hl1. unfold hardware_ops. rewrite omap_app.
    split; [reflexivity|]. destruct Ho1 as [Ho1|Ho1]; unfold hardware_ops in Ho1; auto. }
  apply bind_inv in Hrun as [(alive & w1 & Hcheck & Hrun)|(ex & Hcheck & ->)];
    rewrite Hcheck in *; cbn [fst snd] in *; [|exact Hshort].
  destruct alive; cbn [negb] in Hrun; [|by injection Hrun as <- <-].
  clear Hshort. specialize (Halive eq_refl).
  destruct (up_direction_trace iu mfd ce w1) as (t2 & Hl2 & Ho2 & _ & _).
  assert (Hup_ops : hardware_ops (log (up_direction iu mfd ce w1).2)
                    = hardware_ops (log w)
                      ++ [JConnected; JTargetConnected; JRttRead iu 4096]).
  { rewrite Hl2, Hl1. unfold hardware_ops in *.
    by rewrite !omap_app, Halive, Ho2, <- app_assoc. }
  apply bind_inv in Hrun as [(u & w2 & Hup & Hrun)|(ex & Hup & ->)];
    rewrite Hup in *; cbn [fst snd] in *; [|eauto 6].
  destruct u as [c|c|c]; [|injection Hrun as <- <-; eauto 6..].
  destruct (down_direction_trace bidir id mfd w2) as (t3 & Hl3 & _ & Hd).
  assert (w' = (down_direction bidir id mfd w2).2) as ->.
  { apply bind_inv in Hrun as [(d & w3 & Hdown & Hrun)|(ex & Hdown & ->)];
      rewrite Hdown; cbn [snd]; [|reflexivity].
    destruct d; by injection Hrun. }
  exists ([JConnected; JTargetConnected; JRttRead iu 4096] ++ hardware_ops t3).
  split.
  { rewrite Hl3. unfold hardware_ops at 1. rewrite omap_app.
    fold (hardware_ops (log w2)). fold (hardware_ops t3).
    by rewrite Hup_ops, <- app_assoc. }
  destruct (bidir && (id >=? 0)) eqn:Hmode.
  - apply andb_true_iff in Hmode as [-> Hid]. apply Z.geb_le in Hid.
    destruct Hd as [_ [->|[data ->]]]; cbn [app]; eauto 8.
  - destruct Hd as (_ & -> & _). cbn [app]. auto.
Qed.

(** X22. A signal the program handles, arriving before a loop test, ends
    the loop at that test: the handler prints its line and sets the flag,
    and the loop returns without another call on the probe or the PTY. *)
Theorem relay_loop_stops_on_signal
  (fuel : nat) (bidir : bool) (iu id mfd ce : Z) (w : World J)
  (s : signal) (later : list (option signal)) :
  sigsched w = Some s :: later ->
  In s (handled w) ->
  relay_loop (S fuel) bidir iu id mfd ce w
  = (Ok (Go tt),
     mkWorld (jl w) (os w) (clock w) true (handled w) later
             (log w ++ [stderr_line (nl +:+ "Shutting down...")])).
Proof.
  intros Hs Hin. cbn [relay_loop]. unfold bind at 1, arrivals. rewrite Hs.
  unfold deliver. cbn [handled].
  assert (Hh : existsb (signal_eqb s) (handled w) = true).
  { apply existsb_exists. exists s. split; [exact Hin|by destruct s]. }
  rewrite Hh. reflexivity.
Qed.

End RelayMore.

Lemma relay_iteration_counter_range_witness :
  let api := Probe.api Probe.live in
  let w := Runs.active [Raise (JLinkException "timeout")] [] in
  match (@relay_iteration _ api false 0 (-1) 3 8 w).1 with
  | Ok (Next c) => 0 <= c < max_consecutive_errors
  | Ok (Break c) => 0 <= c <= max_consecutive_errors
  | Raise _ => False
  end.
Proof.
  intros api w.
  pose proof (@relay_iteration_counter_range _ api false 0 (-1) 3 8 w
                (@relay_iteration _ api false 0 (-1) 3 8 w).2 (Next 9)
                ltac:(unfold max_consecutive_errors; lia)) as Hr.
  exact (Hr ltac:(vm_compute; reflexivity)).
Defined.

Lemma relay_iteration_pause_witness :
  let api := Probe.api Probe.live in
  let w := Runs.active [] [] in
  let w' := (@relay_iteration _ api false 0 (-1) 3 0 w).2 in
  exists pause,
    sleeps (log w') = sleeps (log w) ++ pause
    /\ clock w' = clock w + foldr Z.add 0 pause
    /\ (pause = [] \/ pause = [100])
    /\ (false && (-1 >=? 0) = false -> (exists c, Ok (Next 0) = Ok (Next c)) ->
        pause = [100]).
Proof.
  intros api w w'.
  apply (@relay_iteration_pause _ api false 0 (-1) 3 0 w w' (Ok (Next 0))).
  vm_compute. reflexivity.
Defined.

Lemma relay_iteration_sdk_calls_witness :
  let api := Probe.api Probe.live in
  let w := Runs.active [] Runs.operator_types in
  let w' := (@relay_iteration _ api true 0 0 3 0 w).2 in
  exists ops,
    hardware_ops (log w') = hardware_ops (log w) ++ ops
    /\ (ops = [JConnected]
        \/ ops = [JConnected; JTargetConnected]
        \/ ops = [JConnected; JTargetConnected; JRttRead 0 4096]
        \/ true = true /\ 0 <= 0
           /\ exists data,
                ops = [JConnected; JTargetConnected; JRttRead 0 4096; JRttWrite 0 data]).
Proof.
  intros api w w'.
  apply (@relay_iteration_sdk_calls _ api true 0 0 3 0 w w' (Ok (Next 0))).
  vm_compute. reflexivity.
Defined.

Lemma relay_loop_stops_on_signal_witness :
  let api := Probe.api Probe.live in
  let w := mkWorld [] (Runs.active_os []) 0 false [SIGINT; SIGTERM; SIGQUIT]
                   [Some SIGTERM] [] in
  @relay_loop _ api 1 false 0 (-1) 3 0 w
  = (Ok (Go tt),
     mkWorld (jl w) (os w) (clock w) true (handled w) []
             (log w ++ [stderr_line (nl +:+ "Shutting down...")])).
Proof.
  intros api w. apply (@relay_loop_stops_on_signal _ api 0 false 0 (-1) 3 0 w SIGTERM []).
  - reflexivity.
  - cbn. auto.
Defined.

(** ** The whole program, further *)

Section FrameRules.

Context {J : Type}.

Lemma keeps_os_ret {A} (a : A) : keeps_os (J := J) (ret a).
Proof. by intros w. Qed.

Lemma keeps_os_raise {A} (e : exn) : keeps_os (J := J) (raise (A := A) e).
Proof. by intros w. Qed.

Lemma keeps_os_bind {A B} (m : M J A) (k : A -> M J B) :
  keeps_os m -> (forall a, keeps_os (k a)) -> keeps_os (bind m k).
Proof.
  intros Hm Hk w. unfold bind. specialize (Hm w).
  destruct (m w) as [[a|e] w1]; cbn [snd] in *; [|exact Hm].
  by rewrite (Hk a w1).
Qed.

Lemma keeps_os_try {A} (m : M J A) (h : exn -> option (M J A)) :
  keeps_os m ->
  (forall e, match h e with Some k => keeps_os k | None => True end) ->
  keeps_os (try_except m h).
Proof.
  intros Hm Hh w. unfold try_except. specialize (Hm w).
  destruct (m w) as [[a|e] w1]; cbn [snd] in *; [exact Hm|].
  specialize (Hh e). destruct (h e) as [k|]; [|exact Hm].
  by rewrite (Hh w1).
Qed.

Lemma keeps_os_and_then {A B} (m : M J (flow A)) (k : A -> M J (flow B)) :
  keeps_os m -> (forall a, keeps_os (k a)) -> keeps_os (and_then m k).
Proof.
  intros Hm Hk. apply keeps_os_bind; [exact Hm|].
  intros [a| |]; [apply Hk|apply keeps_os_ret..].
Qed.

Lemma keeps_os_emit (ev : event) : keeps_os (J := J) (emit ev).
Proof. by intros w. Qed.

Lemma keeps_os_print (text : string) : keeps_os (J := J) (print text).
Proof. by intros w. Qed.

Lemma keeps_os_eprint (text : string) : keeps_os (J := J) (eprint text).
Proof. by intros w. Qed.

Lemma keeps_os_sleep (ms : Z) : keeps_os (J := J) (sleep ms).
Proof. by intros w. Qed.

Lemma keeps_os_time : keeps_os (J := J) time_time.
Proof. by intros w. Qed.

Lemma keeps_os_jcall {A} (op : jop) (f : J -> result A * J) : keeps_os (jcall op f).
Proof. intros w. unfold jcall. by destruct (f (jl w)). Qed.

Lemma keeps_os_lift {A} (r : result A) : keeps_os (J := J) (lift_result r).
Proof. by destruct r. Qed.

Lemma ends_with_go {A} (Q : A -> Prop) (a : A) : Q a -> ends_with (J := J) Q (ret (Go a)).
Proof. by intros Ha w. Qed.

Lemma ends_with_return {A} (Q : A -> Prop) (code : Z) :
  code = 0 \/ code = 1 -> ends_with (J := J) Q (ret (Return code)).
Proof. by intros Hc w. Qed.

Lemma ends_with_fuel {A} (Q : A -> Prop) : ends_with (J := J) Q (ret OutOfFuel).
Proof. by intros w. Qed.

Lemma ends_with_raise {A} (Q : A -> Prop) (e : exn) : ends_with (J := J) Q (raise e).
Proof. by intros w. Qed.

Lemma ends_with_bind {A B} (Q : B -> Prop) (m : M J A) (k : A -> M J (flow B)) :
  (forall a, ends_with Q (k a)) -> ends_with Q (bind m k).
Proof.
  intros Hk w. unfold bind. destruct (m w) as [[a|e] w1]; [apply Hk|exact I].
Qed.

Lemma ends_with_try {A} (Q : A -> Prop) (m : M J (flow A))
  (h : exn -> option (M J (flow A))) :
  ends_with Q m ->
  (forall e, match h e with Some k => ends_with Q k | None => True end) ->
  ends_with Q (try_except m h).
Proof.
  intros Hm Hh w. unfold try_except. specialize (Hm w).
  destruct (m w) as [[a|e] w1]; cbn [fst] in *; [exact Hm|].
  specialize (Hh e). destruct (h e) as [k|]; [apply Hh|exact I].
Qed.

Lemma ends_with_and_then {A B} (P : A -> Prop) (Q : B -> Prop)
  (m : M J (flow A)) (k : A -> M J (flow B)) :
  ends_with P m -> (forall a, P a -> ends_with Q (k a)) -> ends_with Q (and_then m k).
Proof.
  intros Hm Hk w. unfold and_then, bind. specialize (Hm w).
  destruct (m w) as [[[a|code|]|e] w1]; cbn [fst] in *; try exact I.
  - by apply Hk.
  - exact Hm.
Qed.

Lemma ends_with_bind_flow {A B} (P : A -> Prop) (Q : B -> Prop)
  (m : M J (flow A)) (k : flow A -> M J (flow B)) :
  ends_with P m ->
  (forall a, P a -> ends_with Q (k (Go a))) ->
  (forall code, code = 0 \/ code = 1 -> ends_with Q (k (Return code))) ->
  ends_with Q (k OutOfFuel) ->
  ends_with Q (bind m k).
Proof.
  intros Hm Hgo Hret Hfuel w. unfold bind. specialize (Hm w).
  destruct (m w) as [[[a|code|]|e] w1]; cbn [fst] in *; try exact I.
  - by apply Hgo.
  - by apply Hret.
  - apply Hfuel.
Qed.

Lemma ends_with_weaken {A} (P Q : A -> Prop) (m : M J (flow A)) :
  ends_with P m -> (forall a, P a -> Q a) -> ends_with Q m.
Proof.
  intros Hm HPQ w. specialize (Hm w).
  destruct ((m w).1) as [[a|code|]|e]; auto.
Qed.

End FrameRules.

Create HintDb os_frame.
#[export] Hint Resolve keeps_os_ret keeps_os_raise keeps_os_emit keeps_os_print
  keeps_os_eprint keeps_os_sleep keeps_os_time keeps_os_jcall keeps_os_lift : os_frame.

Create HintDb exit_codes.
#[export] Hint Resolve ends_with_go ends_with_return ends_with_fuel ends_with_raise
  : exit_codes.

(** One syntax-directed step of a proof that a part of the program keeps
    descriptors and paths. *)
Ltac os_frame_step :=
  lazymatch goal with
  | |- keeps_os (bind _ _) => apply keeps_os_bind; [|intros ?]
  | |- keeps_os (try_except _ _) => apply keeps_os_try; [|intros ?; cbv beta]
  | |- keeps_os (and_then _ _) => apply keeps_os_and_then; [|intros ?]
  | |- keeps_os (match ?x with _ => _ end) => destruct x
  | |- match (match ?x with _ => _ end) with _ => _ end => destruct x
  | |- match (if ?x then _ else _) with _ => _ end => destruct x
  | |- match Some _ with _ => _ end => cbv beta iota
  | |- match None with _ => _ end => exact I
  | |- True => exact I
  | |- keeps_os _ => solve [eauto with os_frame]
  end.

Ltac os_frame := repeat os_frame_step.

Ltac exit_codes_step :=
  lazymatch goal with
  | |- ends_with _ (try_except _ _) => apply ends_with_try; [|intros ?; cbv beta]
  | |- ends_with _ (and_then _ _) =>
      apply (ends_with_and_then (fun _ => True)); [|intros ? _]
  | |- ends_with _ (@bind _ (flow _) _ _ _) =>
      apply (ends_with_bind_flow (fun _ => True));
      [|intros ? _; cbv beta iota|intros ? ?; cbv beta iota|cbv beta iota]
  | |- ends_with _ (bind _ _) => apply ends_with_bind; intros ?
  | |- ends_with _ (ret (Go _)) => apply ends_with_go; cbv beta; auto
  | |- ends_with _ (ret (Return (if ?b then _ else _))) => destruct b
  | |- ends_with _ (ret (Return _)) => apply ends_with_return; auto
  | |- ends_with _ (match ?x with _ => _ end) => destruct x
  | |- match (match ?x with _ => _ end) with _ => _ end => destruct x
  | |- match (if ?x then _ else _) with _ => _ end => destruct x
  | |- match Some _ with _ => _ end => cbv beta iota
  | |- match None with _ => _ end => exact I
  | |- True => exact I
  | |- ends_with _ _ => solve [eauto with exit_codes]
  end.

Ltac exit_codes := repeat exit_codes_step.

Section ProgramMore.

Context {J : Type} `{JLinkLike J}.

Lemma keeps_os_is_rtt_active : keeps_os is_rtt_active.
Proof. unfold is_rtt_active. os_frame. Qed.

Lemma keeps_os_close : keeps_os jlink_close.
Proof. unfold jlink_close. os_frame. Qed.

Lemma keeps_os_verify : keeps_os verify_jlink_connection.
Proof. unfold verify_jlink_connection. os_frame. Qed.

Lemma keeps_os_print_descriptors (up : bool) (indexes : list Z) :
  keeps_os (print_descriptors up indexes).
Proof.
  induction indexes as [|i rest IH]; cbn [print_descriptors]; [os_frame|].
  apply keeps_os_bind; [unfold print_descriptor; os_frame|intros _; exact IH].
Qed.

Lemma keeps_os_print_buffers : keeps_os print_buffers.
Proof.
  pose proof keeps_os_is_rtt_active. pose proof keeps_os_print_descriptors.
  unfold print_buffers, print_direction. os_frame.
Qed.

#[local] Hint Resolve keeps_os_is_rtt_active keeps_os_close keeps_os_verify
  keeps_os_print_buffers : os_frame.

Lemma keeps_os_validate (args : Args) : keeps_os (J := J) (main_validate args).
Proof. unfold main_validate. os_frame. Qed.

Lemma keeps_os_open (args : Args) : keeps_os (main_open args).
Proof. unfold main_open. os_frame. Qed.

Lemma keeps_os_connect (args : Args) : keeps_os (main_connect args).
Proof. unfold main_connect. os_frame. Qed.

Lemma keeps_os_start_rtt (args : Args) : keeps_os (main_start_rtt args).
Proof. unfold main_start_rtt. os_frame. Qed.

Lemma keeps_os_wait (start : Z) (fuel : nat) : keeps_os (wait_rtt_active fuel start).
Proof.
  induction fuel as [|fuel IH]; cbn [wait_rtt_active]; [os_frame|].
  pose proof IH. os_frame.
Qed.

Lemma keeps_os_wait_rtt (fuel : nat) : keeps_os (main_wait_rtt fuel).
Proof. pose proof keeps_os_wait. unfold main_wait_rtt. os_frame. Qed.

Lemma keeps_os_startup (fuel : nat) (args : Args) : keeps_os (main_startup fuel args).
Proof.
  pose proof keeps_os_open. pose proof keeps_os_connect.
  pose proof keeps_os_start_rtt. pose proof keeps_os_wait_rtt.
  unfold main_startup. os_frame.
Qed.

Lemma keeps_os_print_bufs (args : Args) : keeps_os (main_print_bufs args).
Proof. unfold main_print_bufs. os_frame. Qed.

(** In listing mode the part of [main] that prints the buffers never goes
    on to the search: it returns, or the closing of the session raises. *)
Lemma main_print_bufs_returns (args : Args) (w : World J) :
  print_bufs args = true ->
  forall a, (main_print_bufs args w).1 <> Ok (Go a).
Proof.
  intros Hp a. unfold main_print_bufs. rewrite Hp. unfold bind, ret.
  destruct (print_buffers w) as [[b|e] w1]; [|discriminate].
  destruct (jlink_close w1) as [[u|e] w2]; discriminate.
Qed.

Lemma keeps_os_session_listing (fuel : nat) (args : Args) :
  print_bufs args = true -> keeps_os (main_session fuel args).
Proof.
  intros Hp w. unfold main_session, and_then. unfold bind at 1.
  pose proof (keeps_os_startup fuel args w) as Hs.
  destruct (main_startup fuel args w) as [[[[]| |]|e] w1]; cbn [snd] in *;
    try (unfold ret; cbn [snd]; exact Hs).
  unfold bind at 1.
  pose proof (keeps_os_print_bufs args w1) as Hb.
  pose proof (main_print_bufs_returns args w1 Hp) as Hgo.
  destruct (main_print_bufs args w1) as [[[[]| |]|e] w2]; cbn [fst snd] in *;
    try (unfold ret; cbn [snd]; rewrite Hb; exact Hs).
  by destruct (Hgo tt).
Qed.

(** X23. With [-p] the program lists the buffers and stops: from the
    parsed command line to the exit it opens no descriptor and creates,
    changes or removes no path, whatever the probe answers and however the
    run ends. *)
Theorem main_listing_keeps_os (fuel : nat) (args : Args) (w : World J) :
  print_bufs args = true ->
  os (main fuel args w).2 = os w.
Proof.
  intros Hp. unfold main.
  pose proof (keeps_os_validate args w) as Hv.
  destruct (main_validate args w) as [[[[]|code|]|e] w1]; cbn [snd] in *; try exact Hv.
  assert (Hs : keeps_os (try_except (main_session fuel args) main_handlers)).
  { pose proof (keeps_os_session_listing fuel args Hp).
    unfold main_handlers. os_frame. }
  specialize (Hs w1).
  destruct (try_except (main_session fuel args) main_handlers w1) as [r w2].
  cbn [snd] in *. destruct r as [f|e]; cbn [uncaught snd]; unfold ret, emit; cbn [snd os];
    congruence.
Qed.

Lemma ends_with_wait (start : Z) (fuel : nat) :
  ends_with (fun _ => True) (wait_rtt_active fuel start).
Proof.
  induction fuel as [|fuel IH]; cbn [wait_rtt_active]; [exit_codes|].
  pose proof IH. exit_codes.
Qed.

Lemma ends_with_validate (args : Args) :
  ends_with (J := J) (fun _ => True) (main_validate args).
Proof. unfold main_validate. exit_codes. Qed.

Lemma ends_with_startup (fuel : nat) (args : Args) :
  ends_with (fun _ => True) (main_startup fuel args).
Proof.
  pose proof ends_with_wait.
  unfold main_startup, main_open, main_connect, main_start_rtt, main_wait_rtt.
  exit_codes.
Qed.

Lemma ends_with_print_bufs (args : Args) :
  ends_with (fun _ => True) (main_print_bufs args).
Proof. unfold main_print_bufs. exit_codes. Qed.

Lemma ends_with_find (args : Args) (up : bool) :
  ends_with (fun _ => True) (main_find args up).
Proof. unfold main_find, report_unavailable. exit_codes. Qed.

Lemma ends_with_find_down (args : Args) :
  ends_with (fun _ => True) (main_find_down args).
Proof. pose proof ends_with_find. unfold main_find_down. exit_codes. Qed.

Lemma ends_with_create_pty (args : Args) :
  ends_with (J := J) (fun _ => True) (main_create_pty args).
Proof. unfold main_create_pty. exit_codes. Qed.

Lemma ends_with_bridge (fuel : nat) (args : Args) (iu id mfd sfd : Z)
  (symlink_path : option string) :
  ends_with (fun code => code = 0) (main_bridge fuel args iu id mfd sfd symlink_path).
Proof.
  unfold main_bridge. do 2 (apply ends_with_bind; intros _).
  intros w. destruct (relay_loop fuel (bidir args) iu id mfd 0 w) as [r w1].
  assert (Ha : ends_with (fun code => code = 0)
                 (main_after_loop mfd sfd symlink_path r)).
  { unfold main_after_loop. exit_codes. }
  exact (Ha w1).
Qed.

Lemma ends_with_session (fuel : nat) (args : Args) :
  ends_with (fun code => code = 0) (main_session fuel args).
Proof.
  pose proof ends_with_startup. pose proof ends_with_print_bufs.
  pose proof ends_with_find. pose proof ends_with_find_down.
  pose proof ends_with_create_pty. pose proof ends_with_bridge.
  unfold main_session. exit_codes.
Qed.

(** X24. Every [return] on the program's own paths gives 0 or 1: once the
    command line is parsed, and in a run without a keyboard interrupt
    outside the loop (the one way to the status 130 of line 726, which
    this development leaves out), the exit status is 0 or 1, whatever the
    arguments, the probe and the system do. *)
Theorem main_exit_status (fuel : nat) (args : Args) (w : World J) (code : Z) :
  (main fuel args w).1 = Some code -> code = 0 \/ code = 1.
Proof.
  unfold main.
  pose proof (ends_with_validate args w) as Hv.
  destruct (main_validate args w) as [[[[]|c|]|e] w1]; cbn [fst] in *.
  - assert (Hs : ends_with (fun code => code = 0)
                   (try_except (main_session fuel args) main_handlers)).
    { pose proof (ends_with_session fuel args). unfold main_handlers. exit_codes. }
    specialize (Hs w1).
    destruct (try_except (main_session fuel args) main_handlers w1) as [r w2].
    cbn [fst] in *. destruct r as [[c|c|]|e]; cbn [exit_code]; intros [= <-]; auto.
  - intros [= <-]. exact Hv.
  - discriminate.
  - intros [= <-]. auto.
Qed.

(** One turn of the wait for RTT (lines 499-510). *)
Lemma wait_rtt_active_step (fuel : nat) (start : Z) (w : World J) :
  exists b w1,
    is_rtt_active w = (Ok b, w1)
    /\ paused [] w w1
    /\ wait_rtt_active (S fuel) start w
       = if b then (Ok (Go tt), w1)
         else if clock w1 - start >? 5000 then
           (eprint "Error: RTT control block not found after timeout" ;;
            eprint "Hint: Ensure firmware has RTT enabled and device is running" ;;
            try_except (jcall JRttStop jl_rtt_stop) (fun _ => Some (ret tt)) ;;
            jlink_close ;;
            ret (Return 1)) w1
         else wait_rtt_active fuel start (sleep 200 w1).2.
Proof.
  pose proof (is_rtt_active_quiet_frame w) as Hq.
  destruct (is_rtt_active_ok w) as [b Hb].
  destruct (is_rtt_active w) as [r w1] eqn:Ha. cbn [fst snd] in *. subst r.
  exists b, w1. split; [reflexivity|]. split; [exact Hq|].
  cbn [wait_rtt_active]. unfold bind at 1. rewrite Ha.
  destruct b; [reflexivity|]. unfold bind at 1, time_time.
  destruct (clock w1 - start >? 5000); reflexivity.
Qed.

(** Giving up (lines 501-509) takes no pause, and ends with [return 1]
    unless closing the session raises. *)
Lemma wait_timeout_quiet (w : World J) :
  let r := (eprint "Error: RTT control block not found after timeout" ;;
            eprint "Hint: Ensure firmware has RTT enabled and device is running" ;;
            try_except (jcall JRttStop jl_rtt_stop) (fun _ => Some (ret tt)) ;;
            jlink_close ;;
            ret (Return (A := unit) 1)) w in
  r.1 <> Ok OutOfFuel /\ paused [] w r.2.
Proof.
  cbv zeta. unfold jlink_close, try_except, bind, jcall, eprint, emit, ret.
  cbn [jl os clock do_exit handled sigsched log fst snd].
  destruct (jl_rtt_stop (jl w)) as [[[]|e] j]; cbn [jl os clock do_exit handled sigsched log];
    destruct (jl_close j) as [[[]|e'] j']; cbn [fst snd];
    (split; [discriminate|]);
    unfold paused, sleeps; cbn [jl os clock do_exit handled sigsched log];
    rewrite ?omap_app; cbn; rewrite ?app_nil_r; repeat split; lia.
Qed.

(** The wait pauses 200 ms at a time, and only while no more than 5 s have
    gone by since [start]. *)
Lemma wait_rtt_active_pauses (start : Z) (fuel : nat) :
  forall w : World J,
    exists n : nat,
      paused (replicate n 200) w (wait_rtt_active fuel start w).2
      /\ (n = 0%nat \/ clock w + 200 * (Z.of_nat n - 1) - start <= 5000).
Proof.
  induction fuel as [|fuel IH]; intros w.
  { exists 0%nat. split; [apply paused_refl|by left]. }
  destruct (wait_rtt_active_step fuel start w) as (b & w1 & _ & Hq & ->).
  destruct b; [exists 0%nat; split; [exact Hq|by left]|].
  destruct (clock w1 - start >? 5000) eqn:Hlate.
  - destruct (wait_timeout_quiet w1) as [_ Hq']. exists 0%nat.
    split; [eapply paused_quiet; eassumption|by left].
  - destruct (IH (sleep 200 w1).2) as (n & Hp & Hn). exists (S n). split.
    + eapply paused_quiet; [exact Hq|].
      exact (paused_trans [200] _ _ _ _ (sleep_paused 200 w1) Hp).
    + right. destruct Hq as (_ & _ & _ & _ & _ & Hc). cbn [foldr] in Hc.
      cbn [sleep snd clock] in Hn. destruct Hn as [->|Hn]; lia.
Qed.

(** With enough turns the wait ends by itself. *)
Lemma wait_rtt_active_ends (start : Z) (fuel : nat) :
  forall w : World J,
    (0 < fuel)%nat ->
    5000 - (clock w - start) < 200 * (Z.of_nat fuel - 1) ->
    (wait_rtt_active fuel start w).1 <> Ok OutOfFuel.
Proof.
  induction fuel as [|fuel IH]; intros w Hpos Hfuel; [lia|].
  destruct (wait_rtt_active_step fuel start w) as (b & w1 & _ & Hq & ->).
  destruct b; [discriminate|].
  destruct (clock w1 - start >? 5000) eqn:Hlate; [apply wait_timeout_quiet|].
  destruct Hq as (_ & _ & _ & _ & _ & Hc). cbn [foldr] in Hc.
  apply IH; cbn [sleep snd clock]; lia.
Qed.

(** X25. The search for the control block ends by itself: with a clock
    that moves by the pauses alone, the slowest there is, 27 tests of
    [is_rtt_active] always suffice.  It pauses 500 ms, then at most 26
    times 200 ms, so at most 5.7 s in all, and touches nothing but the
    session. *)
Theorem main_wait_rtt_bounded (fuel : nat) (w : World J) :
  (27 <= fuel)%nat ->
  (main_wait_rtt fuel w).1 <> Ok OutOfFuel
  /\ exists n : nat,
      (n <= 26)%nat
      /\ paused (500 :: replicate n 200) w (main_wait_rtt fuel w).2.
Proof.
  intros Hfuel. unfold main_wait_rtt, bind, print, emit, sleep, time_time.
  cbn [fst snd clock].
  set (w1 := mkWorld _ _ _ _ _ _ _).
  assert (Hw1 : paused [500] w w1).
  { subst w1. unfold paused, sleeps. cbn [jl os clock do_exit handled sigsched log].
    rewrite !omap_app. cbn. rewrite app_nil_r. repeat split; lia. }
  assert (Hc1 : clock w1 = clock w + 500) by reflexivity.
  clearbody w1. rewrite <- Hc1. split.
  - apply wait_rtt_active_ends; lia.
  - destruct (wait_rtt_active_pauses (clock w1) fuel w1) as (n & Hp & Hn).
    exists n. split; [lia|].
    exact (paused_trans [500] _ _ _ _ Hw1 Hp).
Qed.

End ProgramMore.

Lemma main_listing_keeps_os_witness :
  os (@main _ (Probe.api Probe.live) 30 missing_listing_args (Probe.world [])).2
  = os (Probe.world []).
Proof.
  apply (@main_listing_keeps_os _ (Probe.api Probe.live) 30 missing_listing_args
           (Probe.world [])).
  reflexivity.
Defined.

Lemma main_exit_status_witness :
  let w := mkWorld [] Probe.empty_os 0 false [] [Some SIGINT] [] in
  (@main _ (Probe.api Probe.live) 5 Probe.default_args w).1 = Some 0
  /\ (0 = 0 \/ 0 = 1).
Proof.
  intros w. split; [vm_compute; reflexivity|].
  apply (@main_exit_status _ (Probe.api Probe.live) 5 Probe.default_args w 0).
  vm_compute. reflexivity.
Defined.

Lemma main_wait_rtt_bounded_witness :
  let api := Probe.api no_buffers_probe_fallback in
  (@main_wait_rtt _ api 27 (Probe.world [])).1 <> Ok OutOfFuel
  /\ exists n : nat,
      (n <= 26)%nat
      /\ paused (500 :: replicate n 200) (Probe.world [])
           (@main_wait_rtt _ api 27 (Probe.world [])).2.
Proof.
  intros api. apply (@main_wait_rtt_bounded _ api 27 (Probe.world [])). lia.
Defined.

(** ** Activity test, validation and the start of RTT, further *)

Section StartMore.

Context {J : Type} `{JLinkLike J}.

(** X26. [is_rtt_active] never raises: it asks the probe one thing,
    [rtt_is_active] when the SDK has it and the number of up-buffers
    otherwise, and an exception of the probe counts as "not active".  It
    prints nothing and takes no pause. *)
Theorem is_rtt_active_answer (w : World J) :
  (is_rtt_active w).1
  = Ok (if has_rtt_is_active
        then match (jl_rtt_is_active (jl w)).1 with Ok b => b | Raise _ => false end
        else match (jl_rtt_get_num_up_buffers (jl w)).1 with
             | Ok n => 0 <? n
             | Raise _ => false
             end)
  /\ log (is_rtt_active w).2
     = log w ++ [EvJLink (if has_rtt_is_active then JRttIsActive else JNumUp)]
  /\ paused [] w (is_rtt_active w).2.
Proof.
  split; [|split; [|apply is_rtt_active_quiet_frame]];
    unfold is_rtt_active, try_except, bind, jcall, ret; destruct has_rtt_is_active.
  - by destruct (jl_rtt_is_active (jl w)) as [[b|e] j].
  - destruct (jl_rtt_get_num_up_buffers (jl w)) as [[n|e] j]; [|reflexivity].
    cbn [fst]. by rewrite Z.gtb_ltb.
  - by destruct (jl_rtt_is_active (jl w)) as [[b|e] j].
  - by destruct (jl_rtt_get_num_up_buffers (jl w)) as [[n|e] j].
Qed.

(** X27. The checks [main] makes before it opens anything pass exactly
    when the speed is from 5 to 50000, the address, if one is given and not
    empty, is one [parse_address] reads, and the buffer name is not blank;
    and then nothing at all has happened. *)
Theorem main_validate_accepts (args : Args) (w : World J) :
  ((main_validate args w).1 = Ok (Go tt)
   <-> 5 <= speed args <= 50000
       /\ match truthy_str (address args) with
          | Some a => exists v, parse_address a = Ok v
          | None => True
          end
       /\ Py.is_empty (Py.strip (buffer args)) = false)
  /\ ((main_validate args w).1 = Ok (Go tt) -> (main_validate args w).2 = w).
Proof.
  unfold main_validate, and_then, try_except, lift_result, bind, raise, ret, eprint, emit.
  assert (Hname : Py.is_empty (buffer args) || Py.is_empty (Py.strip (buffer args))
                  = Py.is_empty (Py.strip (buffer args))).
  { by destruct (buffer args). }
  rewrite Hname.
  destruct (validate_speed (speed args)) as [v|e] eqn:Hs; cbn [fst snd].
  2:{ destruct (validate_speed_raises _ _ Hs) as [m ->]. cbn [fst snd].
      split; [|discriminate]. split; [discriminate|]. intros (Hr & _).
      unfold validate_speed in Hs.
      destruct (speed args <? 5) eqn:Hlo; [lia|].
      destruct (speed args >? 50000) eqn:Hhi; [lia|discriminate]. }
  apply validate_speed_ok in Hs.
  destruct (truthy_str (address args)) as [a|]; cbn [fst snd].
  - destruct (parse_address a) as [v'|e] eqn:Hp; cbn [fst snd].
    + destruct (Py.is_empty (Py.strip (buffer args))); cbn [fst snd].
      * split; [|discriminate]. split; [discriminate|]. by intros (_ & _ & [=]).
      * split; [|done]. split; [|done]. intros _. repeat split; try lia. by eexists.
    + destruct (parse_address_raises _ _ Hp) as [m ->]. cbn [fst snd].
      split; [|discriminate]. split; [discriminate|]. by intros (_ & [v' [=]] & _).
  - destruct (Py.is_empty (Py.strip (buffer args))); cbn [fst snd].
    + split; [|discriminate]. split; [discriminate|]. by intros (_ & _ & [=]).
    + split; [|done]. split; [|done]. intros _. repeat split; lia.
Qed.

(** X28. RTT is started at most once, and with what [parse_address] read
    from [-a]: the address of the control block for a single value, the
    search range for a pair, auto-detection when no address is given.
    The only other call on the probe is the [close] that follows a failed
    start, and it is made exactly when the start is given up. *)
Theorem main_start_rtt_call (args : Args) (w : World J) :
  let how :=
    match truthy_str (address args) with
    | None => Some StartAuto
    | Some a =>
        match parse_address a with
        | Ok (start, Some size) => Some (StartSearchRange start size)
        | Ok (addr, None) => Some (StartBlockAddress addr)
        | Raise _ => None
        end
    end in
  let r := main_start_rtt args w in
  exists ops,
    hardware_ops (log r.2) = hardware_ops (log w) ++ ops
    /\ match how with
       | Some h =>
           (r.1 = Ok (Go tt) /\ ops = [JRttStart h])
           \/ (r.1 <> Ok (Go tt) /\ (ops = [JRttStart h] \/ ops = [JRttStart h; JClose]))
       | None => r.1 <> Ok (Go tt) /\ ops = [JClose]
       end.
Proof.
  cbv zeta.
  set (P := fun (how : option rtt_start_arg) (r : result (flow unit) * World J) =>
    exists ops,
      hardware_ops (log r.2) = hardware_ops (log w) ++ ops
      /\ match how with
         | Some h =>
             (r.1 = Ok (Go tt) /\ ops = [JRttStart h])
             \/ (r.1 <> Ok (Go tt) /\ (ops = [JRttStart h] \/ ops = [JRttStart h; JClose]))
         | None => r.1 <> Ok (Go tt) /\ ops = [JClose]
         end).
  match goal with |- exists ops, _ /\ match ?how with _ => _ end =>
    change (P how (main_start_rtt args w)) end.
  assert (Hstart : forall (text : string) (h : rtt_start_arg),
             P (Some h)
               (try_except
                  ((print text ;; jcall (JRttStart h) (jl_rtt_start h)) ;; ret (Go tt))
                  (fun e =>
                     if isinstance_JLinkException e
                        || match e with ValueError _ => true | _ => false end
                     then Some (eprint ("Error: Failed to start RTT: " +:+ str_exn e) ;;
                                jlink_close ;;
                                ret (Return 1))
                     else None)
                  (print "Configuring RTT..." w).2)).
  { intros text h. unfold P, jlink_close, try_except, bind, jcall, print, eprint, emit, ret.
    cbn [jl os clock do_exit handled sigsched log fst snd].
    destruct (jl_rtt_start h (jl w)) as [[[]|e] j];
      cbn [jl os clock do_exit handled sigsched log fst snd].
    - unfold hardware_ops. rewrite !omap_app. cbn. rewrite ?app_nil_r, <- ?app_assoc.
      eexists. split; [reflexivity|]. left. by split.
    - destruct e as [m|m|m|m|errno m|m|m|m]; cbn [isinstance_JLinkException orb];
        cbn [jl os clock do_exit handled sigsched log fst snd];
        destruct (jl_close j) as [[[]|e'] j'];
        cbn [jl os clock do_exit handled sigsched log fst snd];
        unfold hardware_ops; rewrite !omap_app; cbn;
        rewrite ?app_nil_r, <- ?app_assoc; eexists;
        (split; [reflexivity|]); right; (split; [discriminate|]); first [by left|by right]. }
  unfold main_start_rtt. unfold bind at 1.
  change (print "Configuring RTT..." w) with (Ok tt, (print "Configuring RTT..." w).2).
  cbv iota.
  destruct (truthy_str (address args)) as [a|].
  - destruct (parse_address a) as [[start [size|]]|e] eqn:Hp.
    + unfold lift_result. unfold bind at 3. unfold ret at 1. cbv iota beta.
      apply Hstart.
    + unfold lift_result. unfold bind at 3. unfold ret at 1. cbv iota beta.
      apply Hstart.
    + destruct (parse_address_raises _ _ Hp) as [m ->].
      unfold P, lift_result, jlink_close, try_except, bind, jcall, raise, print, eprint,
        emit, ret.
      cbn [jl os clock do_exit handled sigsched log fst snd isinstance_JLinkException orb].
      destruct (jl_close (jl w)) as [[[]|e'] j'];
        cbn [jl os clock do_exit handled sigsched log fst snd];
        unfold hardware_ops; rewrite !omap_app; cbn;
        rewrite ?app_nil_r, <- ?app_assoc; eexists; (split; [reflexivity|]); by split.
  - apply Hstart.
Qed.

End StartMore.

(** ** The reader of the program's output *)

Lemma drop_prefix_app (pre s : string) : Testing.drop_prefix pre (pre +:+ s) = Some s.
Proof.
  induction pre as [|a p IH]; [by destruct s|].
  change (String a p +:+ s) with (String a (p +:+ s)). cbn [Testing.drop_prefix].
  unfold Py.ascii_eqb. by rewrite bool_decide_true.
Qed.

Lemma drop_prefix_prefix (pre : string) :
  forall s, String.prefix pre s = true <-> is_Some (Testing.drop_prefix pre s).
Proof.
  induction pre as [|a p IH]; intros s.
  { destruct s; cbn; split; eauto. }
  destruct s as [|b r]; cbn [Testing.drop_prefix String.prefix].
  { split; [discriminate|]. by intros [x [=]]. }
  unfold Py.ascii_eqb. destruct (ascii_dec a b) as [->|Hne].
  - rewrite bool_decide_true by done. apply IH.
  - rewrite bool_decide_false by done. split; [discriminate|]. by intros [x [=]].
Qed.

Lemma split_first_begins (sep s : string) :
  Testing.split_first sep (sep +:+ s) = (EmptyString, Some s).
Proof.
  pose proof (drop_prefix_app sep s) as Hd.
  destruct (sep +:+ s); cbn [Testing.split_first]; by rewrite Hd.
Qed.

Lemma split_first_absent (sep : string) :
  forall s, Py.contains sep s = false -> Testing.split_first sep s = (s, None).
Proof.
  induction s as [|c r IH]; cbn [Py.contains Testing.split_first]; intros Hc;
    apply orb_false_elim in Hc as [Hp Hr];
    (destruct (Testing.drop_prefix sep _) as [rest|] eqn:Hd;
     [assert (Hs : is_Some (Testing.drop_prefix sep _)) by (rewrite Hd; eauto);
      apply drop_prefix_prefix in Hs; congruence|]).
  - reflexivity.
  - by rewrite (IH Hr).
Qed.

Lemma split_first_present (sep : string) :
  forall s, Py.contains sep s = true ->
            exists h rest, Testing.split_first sep s = (h, Some rest).
Proof.
  induction s as [|c r IH]; cbn [Py.contains Testing.split_first]; intros Hc.
  - rewrite orb_false_r in Hc. apply drop_prefix_prefix in Hc as [rest ->]. eauto.
  - destruct (Testing.drop_prefix sep (String c r)) as [rest|] eqn:Hd; [eauto|].
    apply orb_true_iff in Hc as [Hp|Hr].
    + apply drop_prefix_prefix in Hp as [rest Hp]. congruence.
    + destruct (IH Hr) as (h & rest & ->). eauto.
Qed.

(** A line in which the marker occurs splits into two pieces at least. *)
Lemma split_present (sep s : string) :
  Py.contains sep s = true ->
  exists h part more, Testing.split sep s = h :: part :: more.
Proof.
  intros Hc. unfold Testing.split. cbn [Testing.split_pieces].
  destruct (split_first_present sep s Hc) as (h & rest & ->).
  destruct (String.length s) as [|n]; cbn [Testing.split_pieces]; [eauto|].
  destruct (Testing.split_first sep rest) as [h' [rest'|]]; eauto.
Qed.

Lemma contains_begins (sep s : string) : Py.contains sep (sep +:+ s) = true.
Proof.
  assert (Hp : String.prefix sep (sep +:+ s) = true).
  { apply drop_prefix_prefix. rewrite drop_prefix_app. eauto. }
  destruct (sep +:+ s); cbn [Py.contains]; by rewrite Hp.
Qed.

(** The line [main] prints at line 573, as the reader splits it. *)
Lemma split_announcement (name : string) :
  Py.contains Testing.marker name = false ->
  Testing.split Testing.marker ("PTY name is " +:+ name)
  = [EmptyString; String " " name].
Proof.
  intros Hn. unfold Testing.split.
  change ("PTY name is " +:+ name) with (Testing.marker +:+ String " " name).
  assert (Hrest : Py.contains Testing.marker (String " " name) = false).
  { cbn [Py.contains]. rewrite Hn. reflexivity. }
  change (String.length (Testing.marker +:+ String " " name))
    with (S (String.length ("TY name is" +:+ String " " name))).
  cbn [Testing.split_pieces]. rewrite split_first_begins.
  by rewrite (split_first_absent _ _ Hrest).
Qed.

Lemma strip_after_blank (s : string) : Py.strip (String " " s) = Py.strip s.
Proof. reflexivity. Qed.

(** X29. The integration test reads the PTY path back from the line [main]
    prints: given the output up to and beyond the line
    ["PTY name is " + name], with the marker nowhere before it nor in the
    name, the reader returns the name, stripped. *)
Theorem find_pty_from_output_reads_announcement
  (before after : list string) (name : string) :
  Forall (fun line => Py.contains Testing.marker line = false) before ->
  Py.contains Testing.marker name = false ->
  Testing.find_pty_from_output (before ++ ("PTY name is " +:+ name) :: after)
  = Some (Py.strip name).
Proof.
  intros Hb Hn. induction Hb as [|line before Hline Hb IH].
  - cbn [app Testing.find_pty_from_output].
    change ("PTY name is " +:+ name) with (Testing.marker +:+ String " " name) at 1.
    rewrite contains_begins, (split_announcement name Hn).
    by rewrite strip_after_blank.
  - cbn [app Testing.find_pty_from_output]. by rewrite Hline.
Qed.

(** X30. The reader finds nothing exactly when no line contains the
    marker: the test on the number of pieces (line 35) never fails. *)
Theorem find_pty_from_output_none (output_lines : list string) :
  Testing.find_pty_from_output output_lines = None
  <-> Forall (fun line => Py.contains Testing.marker line = false) output_lines.
Proof.
  induction output_lines as [|line rest IH]; cbn [Testing.find_pty_from_output].
  { split; [constructor|reflexivity]. }
  destruct (Py.contains Testing.marker line) eqn:Hc.
  - destruct (split_present _ _ Hc) as (h & part & more & ->).
    split; [discriminate|]. intros Hall. apply Forall_cons in Hall as [Hl _]. congruence.
  - rewrite IH. split; [by constructor|]. by intros [_ ?]%Forall_cons.
Qed.

Lemma find_pty_from_output_reads_announcement_witness :
  Testing.find_pty_from_output
    (["Connecting to J-Link..."; "Using up-buffer #0 'Terminal' (size=1024)"]
     ++ ("PTY name is " +:+ "/dev/pts/3") :: ["RTT bridge active. Press Ctrl+C to exit."])
  = Some (Py.strip "/dev/pts/3").
Proof.
  apply (find_pty_from_output_reads_announcement
           ["Connecting to J-Link..."; "Using up-buffer #0 'Terminal' (size=1024)"]
           ["RTT bridge active. Press Ctrl+C to exit."] "/dev/pts/3").
  - repeat constructor.
  - reflexivity.
Defined.
